(** * GlobalLink Logistics: the package status workflow

    A shallow embedding of the status taxonomy ([types.ts]), of the
    role-transition policy ([pages/ScanQR.tsx], [getAvailableNextStatuses])
    and of the Firestore-backed package operations
    ([services/dataService.ts]: [updatePackageStatus], [logAction],
    [getPackagesByRole], and the [updatePackageStatus] of the second copy of
    that file), followed by the properties of the workflow specification,
    numbered C1 to C10, as they hold or fail on these definitions.

    Asynchronous functions are state-passing functions on a [World] that
    holds the Firestore collections, a plan of the Firestore calls that are
    rejected, the clock and the source of identifiers; a function settles
    as [Returned] or [Thrown]. Writes to the console are left out. *)

From Stdlib Require Import ZArith List Bool Lia.
From stdpp Require Import base tactics option list strings pretty sorting.
From stdpp Require Import gmap fin_maps.

Open Scope string_scope.
Open Scope list_scope.
Open Scope Z_scope.

(** ** types.ts *)

Module Types.

(** [export enum UserRole]: every member's value is its own name. *)
Inductive UserRole : Type :=
  | ADMIN
  | CHINA_AGENT
  | UAE_AGENT
  | IRAN_AGENT
  | CUSTOMER.

(** [export enum PackageStatus], in declaration order. *)
Inductive PackageStatus : Type :=
  (* China *)
  | PURCHASED_FROM_SELLER
  | IN_TRANSIT_TO_CHINA_AGENT
  | RECEIVED_IN_CHINA
  | QC_CHECKED
  | PACKED_CHINA
  | READY_TO_SHIP_UAE
  | SHIPPED_TO_UAE
  (* UAE *)
  | ARRIVED_UAE
  | REPACKING
  | READY_TO_SHIP_IRAN
  | SHIPPED_TO_IRAN
  (* Iran *)
  | ARRIVED_IRAN
  | OUT_FOR_DELIVERY
  | DELIVERED
  (* Exception *)
  | ISSUE_REPORTED.

#[global] Instance UserRole_eq_dec : EqDecision UserRole.
Proof. solve_decision. Defined.

#[global] Instance PackageStatus_eq_dec : EqDecision PackageStatus.
Proof. solve_decision. Defined.

(** The string value of an enum member, as a template literal prints it. *)
Definition UserRole_value (r : UserRole) : string :=
  match r with
  | ADMIN => "ADMIN"
  | CHINA_AGENT => "CHINA_AGENT"
  | UAE_AGENT => "UAE_AGENT"
  | IRAN_AGENT => "IRAN_AGENT"
  | CUSTOMER => "CUSTOMER"
  end.

Definition PackageStatus_value (s : PackageStatus) : string :=
  match s with
  | PURCHASED_FROM_SELLER => "PURCHASED_FROM_SELLER"
  | IN_TRANSIT_TO_CHINA_AGENT => "IN_TRANSIT_TO_CHINA_AGENT"
  | RECEIVED_IN_CHINA => "RECEIVED_IN_CHINA"
  | QC_CHECKED => "QC_CHECKED"
  | PACKED_CHINA => "PACKED_CHINA"
  | READY_TO_SHIP_UAE => "READY_TO_SHIP_UAE"
  | SHIPPED_TO_UAE => "SHIPPED_TO_UAE"
  | ARRIVED_UAE => "ARRIVED_UAE"
  | REPACKING => "REPACKING"
  | READY_TO_SHIP_IRAN => "READY_TO_SHIP_IRAN"
  | SHIPPED_TO_IRAN => "SHIPPED_TO_IRAN"
  | ARRIVED_IRAN => "ARRIVED_IRAN"
  | OUT_FOR_DELIVERY => "OUT_FOR_DELIVERY"
  | DELIVERED => "DELIVERED"
  | ISSUE_REPORTED => "ISSUE_REPORTED"
  end.

(** [Object.values(PackageStatus)]: the members in declaration order,
    [ISSUE_REPORTED] included, as the last one. *)
Definition Object_values_PackageStatus : list PackageStatus :=
  [ PURCHASED_FROM_SELLER; IN_TRANSIT_TO_CHINA_AGENT; RECEIVED_IN_CHINA;
    QC_CHECKED; PACKED_CHINA; READY_TO_SHIP_UAE; SHIPPED_TO_UAE;
    ARRIVED_UAE; REPACKING; READY_TO_SHIP_IRAN; SHIPPED_TO_IRAN;
    ARRIVED_IRAN; OUT_FOR_DELIVERY; DELIVERED;
    ISSUE_REPORTED ].

(** A JavaScript [number]. The operations modelled here only store and copy
    weights, prices and timestamps; none computes with them. *)
Definition number : Type := Z.

(** [export interface User]; optional members are [option]s. *)
Record User : Type := mkUser {
  uid : string;
  email : string;
  displayName : string;
  role : UserRole;
  password : string;
  avatarUrl : option string;
  phoneNumber : option string;
  address : option string
}.

(** [export interface TrackingEvent]. *)
Record TrackingEvent : Type := mkTrackingEvent {
  ev_id : string;
  ev_packageId : string;
  ev_status : PackageStatus;
  ev_timestamp : number;
  ev_userId : string;
  ev_location : string;
  ev_notes : option string;
  ev_photoUrls : option (list string)
}.

(** [export interface Package]. *)
Record Package : Type := mkPackage {
  id : string;
  orderId : string;
  subOrderId : string;
  weight : option number;
  dimensions : option string;
  currentStatus : PackageStatus;
  trackingNumber : string;
  internalTrackingCode : option string;
  description : string;
  qrCodeData : string;
  warehouseBin : option string;
  productLink : option string;
  price : option number;
  declaredValue : option number;
  photoUrls : option (list string)
}.

(** [Partial<Package>]: every member of [Package] made optional. [None] is
    a key that the object does not have. *)
Record PartialPackage : Type := mkPartialPackage {
  p_id : option string;
  p_orderId : option string;
  p_subOrderId : option string;
  p_weight : option number;
  p_dimensions : option string;
  p_currentStatus : option PackageStatus;
  p_trackingNumber : option string;
  p_internalTrackingCode : option string;
  p_description : option string;
  p_qrCodeData : option string;
  p_warehouseBin : option string;
  p_productLink : option string;
  p_price : option number;
  p_declaredValue : option number;
  p_photoUrls : option (list string)
}.

(** The [source] member of an order. *)
Inductive OrderSource : Type :=
  | Src1688 | Taobao | Shein | YesStyle | AliExpress | Other.

(** [export interface Order]; [o_status] is the aggregate status. *)
Record Order : Type := mkOrder {
  o_id : string;
  customerId : string;
  customerName : string;
  customerPhone : option string;
  shippingAddress : option string;
  source : OrderSource;
  createdAt : number;
  totalItems : number;
  packages : list Package;
  o_status : PackageStatus;
  totalPrice : option number;
  amountPaid : option number;
  balanceDue : option number
}.

(** [export interface AuditLog]. The service also logs actions outside the
    declared union, so the action is kept as the string it is. *)
Inductive Severity : Type := INFO | WARNING | CRITICAL.

Record AuditLog : Type := mkAuditLog {
  log_id : string;
  action : string;
  log_userId : string;
  userName : string;
  details : string;
  log_timestamp : number;
  severity : Severity
}.

(** [Omit<AuditLog, 'id' | 'timestamp'>], the argument of [logAction]. *)
Record AuditLogInput : Type := mkAuditLogInput {
  in_action : string;
  in_userId : string;
  in_userName : string;
  in_details : string;
  in_severity : Severity
}.

End Types.
Export Types.

(** ** Arrays *)

Module JsArray.
Section Array.
Context {A : Type} `{EqDecision A}.

(** [arr.indexOf(x)] searched from position [i]: the position of the first
    element equal to [x], or [-1]. *)
Fixpoint indexOf_from (i : Z) (x : A) (arr : list A) : Z :=
  match arr with
  | [] => -1
  | y :: rest => if decide (y = x) then i else indexOf_from (i + 1) x rest
  end.

Definition indexOf (arr : list A) (x : A) : Z := indexOf_from 0 x arr.

(** [arr.slice(start)]: a negative [start] counts from the end. *)
Definition slice (arr : list A) (start : Z) : list A :=
  if start <? 0
  then drop (Z.to_nat (Z.max (Z.of_nat (length arr) + start) 0)) arr
  else drop (Z.to_nat start) arr.

(** [arr.find(pred)]: the first element that satisfies [pred]. *)
Fixpoint find (pred : A -> bool) (arr : list A) : option A :=
  match arr with
  | [] => None
  | y :: rest => if pred y then Some y else find pred rest
  end.

End Array.
End JsArray.
Export JsArray.

(** ** pages/ScanQR.tsx *)

Module ScanQR.

(* Define status flows for each region *)
Definition chinaStatuses : list PackageStatus :=
  [ PURCHASED_FROM_SELLER; IN_TRANSIT_TO_CHINA_AGENT; RECEIVED_IN_CHINA;
    QC_CHECKED; PACKED_CHINA; READY_TO_SHIP_UAE; SHIPPED_TO_UAE ].

Definition uaeStatuses : list PackageStatus :=
  [ SHIPPED_TO_UAE; ARRIVED_UAE; REPACKING; READY_TO_SHIP_IRAN;
    SHIPPED_TO_IRAN ].

Definition iranStatuses : list PackageStatus :=
  [ SHIPPED_TO_IRAN; ARRIVED_IRAN; OUT_FOR_DELIVERY; DELIVERED ].

(** The [allowedStatuses] that the if-chain on [user.role] selects; no
    branch matches [CUSTOMER], which keeps the initial empty array. *)
Definition allowedStatuses (r : UserRole) : list PackageStatus :=
  if decide (r = CHINA_AGENT) then chinaStatuses
  else if decide (r = UAE_AGENT) then uaeStatuses
  else if decide (r = IRAN_AGENT) then iranStatuses
  else if decide (r = ADMIN) then chinaStatuses ++ uaeStatuses ++ iranStatuses
  else [].

(** [getAvailableNextStatuses]; [user] is the signed-in user of the
    component, [None] when nobody is signed in. The test [!current] of the
    source is false at every member of [PackageStatus], whose values are
    non-empty strings. *)
Definition getAvailableNextStatuses (user : option User)
    (current : PackageStatus) : list PackageStatus :=
  match user with
  | None => []
  | Some u =>
      let allowed := allowedStatuses (role u) in
      if (length allowed =? 0)%nat then []
      else
        let currIdx := indexOf allowed current in
        if currIdx =? -1 then []
        else slice allowed (currIdx + 1)
  end.

End ScanQR.

(** ** The older copy of the scan page

    The repository holds an older copy of [ScanQR.tsx], with the same
    status lists and the same if-chain on the role. Its
    [getAvailableNextStatuses] has neither the test [!current] nor the
    test of the length of [allowedStatuses]. *)

Module ScanQRCopy.

Definition getAvailableNextStatuses (user : option User)
    (current : PackageStatus) : list PackageStatus :=
  match user with
  | None => []
  | Some u =>
      let allowed := ScanQR.allowedStatuses (role u) in
      let currIdx := indexOf allowed current in
      if currIdx =? -1 then []
      else slice allowed (currIdx + 1)
  end.

End ScanQRCopy.

(** ** Firestore and the JavaScript run time

    What the service sees of Firestore: the four collections it reads and
    writes, and calls that may be rejected. An [await]ed call is one step;
    calls of other clients are not interleaved. *)

Module Firestore.

(** A thrown value: [new Error(message)], or the rejection of a Firestore
    promise with the given error code. *)
Inductive Exn : Type :=
  | Error (message : string)
  | FirestoreError (code : string).

(** How an [async] function settles. *)
Inductive Outcome (A : Type) : Type :=
  | Returned (a : A)
  | Thrown (e : Exn).
Arguments Returned {A} a.
Arguments Thrown {A} e.

(** The collections. [packages] and [orders] are keyed by document id;
    [tracking_events] and [audit_logs] only grow, by [addDoc], newest
    first here. *)
Record Db : Type := mkDb {
  col_packages : gmap string Package;
  col_orders : gmap string Order;
  col_tracking_events : list TrackingEvent;
  col_audit_logs : list AuditLog
}.

(** The world a call runs in: the database, the outage plan ([outage n] is
    the error code with which the [n]-th Firestore call is rejected, when
    it is), the number of Firestore calls made so far, the clock read by
    [Date.now()], the identifiers that [uuidv4()] draws and the number of
    them it has handed out. *)
Record World : Type := mkWorld {
  db : Db;
  outage : nat -> option string;
  calls : nat;
  clock : number;
  random_uuid : nat -> string;
  uuids : nat
}.

Definition Async (A : Type) : Type := World -> Outcome A * World.

Definition ret {A : Type} (a : A) : Async A := fun w => (Returned a, w).

Definition throw {A : Type} (e : Exn) : Async A := fun w => (Thrown e, w).

Definition bind {A B : Type} (m : Async A) (k : A -> Async B) : Async B :=
  fun w =>
    match m w with
    | (Returned a, w') => k a w'
    | (Thrown e, w') => (Thrown e, w')
    end.

(** [try { body } catch (error) { handler }]. *)
Definition try_catch {A : Type} (body : Async A) (handler : Exn -> Async A)
    : Async A :=
  fun w =>
    match body w with
    | (Returned a, w') => (Returned a, w')
    | (Thrown e, w') => handler e w'
    end.

Definition set_db (w : World) (d : Db) : World :=
  {| db := d; outage := outage w; calls := calls w; clock := clock w;
     random_uuid := random_uuid w; uuids := uuids w |}.

Definition count_call (w : World) : World :=
  {| db := db w; outage := outage w; calls := S (calls w); clock := clock w;
     random_uuid := random_uuid w; uuids := uuids w |}.

(** One Firestore call: rejected when the outage plan says so, leaving the
    database as it is, and carried out on the database otherwise. *)
Definition request {A : Type} (op : Db -> Outcome A * Db) : Async A :=
  fun w =>
    match outage w (calls w) with
    | Some code => (Thrown (FirestoreError code), count_call w)
    | None =>
        let r := op (db w) in (fst r, set_db (count_call w) (snd r))
    end.

(** [uuidv4()] and [Date.now()]. *)
Definition uuidv4 : Async string :=
  fun w =>
    (Returned (random_uuid w (uuids w)),
     {| db := db w; outage := outage w; calls := calls w; clock := clock w;
        random_uuid := random_uuid w; uuids := S (uuids w) |}).

Definition Date_now : Async number := fun w => (Returned (clock w), w).

(** Object spread. [assign p d] is [{ ...p, ...d }] for a package [p] and a
    partial package [d]; [spread a b] is [{ ...a, ...b }] for two partial
    packages. Spreading [undefined] adds nothing. *)
Definition pick {A : Type} (new : option A) (old : A) : A :=
  match new with Some a => a | None => old end.

Definition pick_opt {A : Type} (new old : option A) : option A :=
  match new with Some a => Some a | None => old end.

Definition assign (p : Package) (d : PartialPackage) : Package :=
  {| id := pick (p_id d) (id p);
     orderId := pick (p_orderId d) (orderId p);
     subOrderId := pick (p_subOrderId d) (subOrderId p);
     weight := pick_opt (p_weight d) (weight p);
     dimensions := pick_opt (p_dimensions d) (dimensions p);
     currentStatus := pick (p_currentStatus d) (currentStatus p);
     trackingNumber := pick (p_trackingNumber d) (trackingNumber p);
     internalTrackingCode :=
       pick_opt (p_internalTrackingCode d) (internalTrackingCode p);
     description := pick (p_description d) (description p);
     qrCodeData := pick (p_qrCodeData d) (qrCodeData p);
     warehouseBin := pick_opt (p_warehouseBin d) (warehouseBin p);
     productLink := pick_opt (p_productLink d) (productLink p);
     price := pick_opt (p_price d) (price p);
     declaredValue := pick_opt (p_declaredValue d) (declaredValue p);
     photoUrls := pick_opt (p_photoUrls d) (photoUrls p) |}.

Definition spread (a b : PartialPackage) : PartialPackage :=
  {| p_id := pick_opt (p_id b) (p_id a);
     p_orderId := pick_opt (p_orderId b) (p_orderId a);
     p_subOrderId := pick_opt (p_subOrderId b) (p_subOrderId a);
     p_weight := pick_opt (p_weight b) (p_weight a);
     p_dimensions := pick_opt (p_dimensions b) (p_dimensions a);
     p_currentStatus := pick_opt (p_currentStatus b) (p_currentStatus a);
     p_trackingNumber := pick_opt (p_trackingNumber b) (p_trackingNumber a);
     p_internalTrackingCode :=
       pick_opt (p_internalTrackingCode b) (p_internalTrackingCode a);
     p_description := pick_opt (p_description b) (p_description a);
     p_qrCodeData := pick_opt (p_qrCodeData b) (p_qrCodeData a);
     p_warehouseBin := pick_opt (p_warehouseBin b) (p_warehouseBin a);
     p_productLink := pick_opt (p_productLink b) (p_productLink a);
     p_price := pick_opt (p_price b) (p_price a);
     p_declaredValue := pick_opt (p_declaredValue b) (p_declaredValue a);
     p_photoUrls := pick_opt (p_photoUrls b) (p_photoUrls a) |}.

(** The empty object, and the objects [{ currentStatus: s }] and
    [{ orderId: o }]. *)
Definition no_fields : PartialPackage :=
  mkPartialPackage None None None None None None None None None None None
    None None None None.

Definition currentStatus_field (s : PackageStatus) : PartialPackage :=
  mkPartialPackage None None None None None (Some s) None None None None None
    None None None None.

Definition orderId_field (o : string) : PartialPackage :=
  mkPartialPackage None (Some o) None None None None None None None None None
    None None None None.

(** [...additionalData] of an optional argument. *)
Definition spread_optional (d : option PartialPackage) : PartialPackage :=
  match d with Some fields => fields | None => no_fields end.

Definition set_packages (d : Db) (m : gmap string Package) : Db :=
  {| col_packages := m; col_orders := col_orders d;
     col_tracking_events := col_tracking_events d;
     col_audit_logs := col_audit_logs d |}.

Definition set_orders (d : Db) (m : gmap string Order) : Db :=
  {| col_packages := col_packages d; col_orders := m;
     col_tracking_events := col_tracking_events d;
     col_audit_logs := col_audit_logs d |}.

(** [doc(db, collection, key)]: the reference of a document, here its key.
    The SDK drops the empty segments of a path and refuses a document path
    that is left with an odd number of them, so an empty key throws
    [invalid-argument]. Keys are taken to be free of "/". *)
Definition doc (key : string) : Async string :=
  if bool_decide (key = "") then throw (FirestoreError "invalid-argument")
  else ret key.

(** [getDoc(ref)] on [packages]: the snapshot, [None] when [exists()] is
    false. *)
Definition getDoc_package (key : string) : Async (option Package) :=
  request (fun d => (Returned (col_packages d !! key), d)).

Definition getDoc_order (key : string) : Async (option Order) :=
  request (fun d => (Returned (col_orders d !! key), d)).

(** [updateDoc(ref, fields)] on [packages]: merges the fields into the
    document, and is rejected with [not-found] when there is none. *)
Definition updateDoc_package (key : string) (fields : PartialPackage)
    : Async unit :=
  request (fun d =>
    match col_packages d !! key with
    | Some doc =>
        (Returned tt, set_packages d (<[key := assign doc fields]> (col_packages d)))
    | None => (Thrown (FirestoreError "not-found"), d)
    end).

(** [setDoc(ref, pkg)] on [packages]: creates or overwrites. *)
Definition setDoc_package (key : string) (pkg : Package) : Async unit :=
  request (fun d =>
    (Returned tt, set_packages d (<[key := pkg]> (col_packages d)))).

(** [updateDoc(ref, { packages, status })] on [orders]. *)
Definition set_packages_status (o : Order) (pkgs : list Package)
    (st : PackageStatus) : Order :=
  {| o_id := o_id o; customerId := customerId o;
     customerName := customerName o; customerPhone := customerPhone o;
     shippingAddress := shippingAddress o; source := source o;
     createdAt := createdAt o; totalItems := totalItems o;
     packages := pkgs; o_status := st;
     totalPrice := totalPrice o; amountPaid := amountPaid o;
     balanceDue := balanceDue o |}.

Definition updateDoc_order (key : string) (pkgs : list Package)
    (st : PackageStatus) : Async unit :=
  request (fun d =>
    match col_orders d !! key with
    | Some doc =>
        (Returned tt,
         set_orders d (<[key := set_packages_status doc pkgs st]> (col_orders d)))
    | None => (Thrown (FirestoreError "not-found"), d)
    end).

(** [getDocs(collection(db, 'orders'))], as the list of the documents' data.
    The order in which Firestore lists documents is not modelled. *)
Definition getDocs_orders : Async (list Order) :=
  request (fun d => (Returned (snd <$> map_to_list (col_orders d)), d)).

(** [getDocs(query(collection(db, 'packages'),
               where('currentStatus', 'in', targetStatuses)))]. *)
Definition getDocs_packages_where_currentStatus_in
    (targetStatuses : list PackageStatus) : Async (list Package) :=
  request (fun d =>
    (Returned
       (List.filter (fun p => bool_decide (currentStatus p ∈ targetStatuses))
          (snd <$> map_to_list (col_packages d))),
     d)).

(** [addDoc(collection(db, 'tracking_events'), ev)] and
    [addDoc(collection(db, 'audit_logs'), log)]. *)
Definition addDoc_tracking_event (ev : TrackingEvent) : Async unit :=
  request (fun d =>
    (Returned tt,
     {| col_packages := col_packages d; col_orders := col_orders d;
        col_tracking_events := ev :: col_tracking_events d;
        col_audit_logs := col_audit_logs d |})).

Definition addDoc_audit_log (log : AuditLog) : Async unit :=
  request (fun d =>
    (Returned tt,
     {| col_packages := col_packages d; col_orders := col_orders d;
        col_tracking_events := col_tracking_events d;
        col_audit_logs := log :: col_audit_logs d |})).

(** *** Further calls, used by the other functions of the service *)

(** [String(n)] for an integral number, as a template literal prints it. *)
Definition Number_toString (n : number) : string := pretty n.
Arguments Number_toString : simpl never.

(** A promise that nobody awaits: the call is made, and its rejection
    reaches no caller. The write of such a call is carried out when the call
    is made, as the SDK applies it to what the client sees. *)
Definition unawaited (m : Async unit) : Async unit :=
  try_catch m (fun error => ret tt).

(** A call whose promise is kept for later: the call is made and the way it
    settles is the value. *)
Definition start {A : Type} (m : Async A) : Async (Outcome A) :=
  fun w => (Returned (fst (m w)), snd (m w)).

(** [Promise.all(promises)] on calls already made: fulfilled when all are,
    and rejected with the first rejection otherwise. *)
Fixpoint Promise_all (promises : list (Outcome unit)) : Async unit :=
  match promises with
  | [] => ret tt
  | Returned _ :: rest => Promise_all rest
  | Thrown e :: _ => throw e
  end.

(** [arr.forEach(callback)]. *)
Fixpoint forEach {A : Type} (arr : list A) (callback : A -> Async unit)
    : Async unit :=
  match arr with
  | [] => ret tt
  | x :: rest => bind (callback x) (fun _ => forEach rest callback)
  end.

(** [setDoc(ref, order)] on [orders]: creates or overwrites. *)
Definition setDoc_order (key : string) (order : Order) : Async unit :=
  request (fun d =>
    (Returned tt, set_orders d (<[key := order]> (col_orders d)))).

(** [updateDoc(ref, { packages })] on [orders]. *)
Definition updateDoc_order_packages (key : string) (pkgs : list Package)
    : Async unit :=
  request (fun d =>
    match col_orders d !! key with
    | Some doc =>
        (Returned tt,
         set_orders d
           (<[key := set_packages_status doc pkgs (o_status doc)]> (col_orders d)))
    | None => (Thrown (FirestoreError "not-found"), d)
    end).

(** [updateDoc(ref, { amountPaid, balanceDue })] on [orders]. *)
Definition set_payment (o : Order) (paid due : number) : Order :=
  {| o_id := o_id o; customerId := customerId o;
     customerName := customerName o; customerPhone := customerPhone o;
     shippingAddress := shippingAddress o; source := source o;
     createdAt := createdAt o; totalItems := totalItems o;
     packages := packages o; o_status := o_status o;
     totalPrice := totalPrice o; amountPaid := Some paid;
     balanceDue := Some due |}.

Definition updateDoc_order_payment (key : string) (paid due : number)
    : Async unit :=
  request (fun d =>
    match col_orders d !! key with
    | Some doc =>
        (Returned tt, set_orders d (<[key := set_payment doc paid due]> (col_orders d)))
    | None => (Thrown (FirestoreError "not-found"), d)
    end).

(** The object [{ internalTrackingCode: code }]. *)
Definition internalTrackingCode_field (code : string) : PartialPackage :=
  mkPartialPackage None None None None None None None (Some code) None None
    None None None None None.

(** The members that a package object has, as fields to merge. *)
Definition fields_of (p : Package) : PartialPackage :=
  {| p_id := Some (id p); p_orderId := Some (orderId p);
     p_subOrderId := Some (subOrderId p); p_weight := weight p;
     p_dimensions := dimensions p; p_currentStatus := Some (currentStatus p);
     p_trackingNumber := Some (trackingNumber p);
     p_internalTrackingCode := internalTrackingCode p;
     p_description := Some (description p);
     p_qrCodeData := Some (qrCodeData p); p_warehouseBin := warehouseBin p;
     p_productLink := productLink p; p_price := price p;
     p_declaredValue := declaredValue p; p_photoUrls := photoUrls p |}.

(** A write batch ([writeBatch(db)]): the writes queued on it, in the order
    of the calls [batch.set], [batch.set] with [{ merge: true }] and
    [batch.delete]. *)
Inductive BatchWrite : Type :=
  | BatchSetOrder (key : string) (o : Order)
  | BatchSetPackage (key : string) (p : Package)
  | BatchMergePackage (key : string) (p : Package)
  | BatchDeletePackage (key : string)
  | BatchDeleteOrder (key : string).

Definition apply_write (d : Db) (write : BatchWrite) : Db :=
  match write with
  | BatchSetOrder key o => set_orders d (<[key := o]> (col_orders d))
  | BatchSetPackage key p => set_packages d (<[key := p]> (col_packages d))
  | BatchMergePackage key p =>
      set_packages d
        (<[key := match col_packages d !! key with
                  | Some doc => assign doc (fields_of p)
                  | None => p
                  end]> (col_packages d))
  | BatchDeletePackage key => set_packages d (delete key (col_packages d))
  | BatchDeleteOrder key => set_orders d (delete key (col_orders d))
  end.

(** [batch.commit()]: one call, which applies all the writes or none. The
    size limit of a batch is not modelled. *)
Definition commit (batch : list BatchWrite) : Async unit :=
  request (fun d => (Returned tt, fold_left apply_write batch d)).

(** Newest first, for [orderBy('timestamp', 'desc')] and
    [orderBy('createdAt', 'desc')]. Firestore orders documents with equal
    keys by their names; their order here is the one of the sort. *)
Definition newer_event (a b : TrackingEvent) : Prop :=
  ev_timestamp b <= ev_timestamp a.

Definition newer_order (a b : Order) : Prop := createdAt b <= createdAt a.

#[global] Instance newer_event_dec (a b : TrackingEvent) :
  Decision (newer_event a b).
Proof. unfold newer_event. apply _. Defined.

#[global] Instance newer_order_dec (a b : Order) : Decision (newer_order a b).
Proof. unfold newer_order. apply _. Defined.

(** [getDocs(query(collection(db, 'tracking_events'),
       where('packageId', '==', packageId), orderBy('timestamp', 'desc')))]. *)
Definition getDocs_tracking_events_of (packageId : string)
    : Async (list TrackingEvent) :=
  request (fun d =>
    (Returned
       (merge_sort newer_event
          (List.filter (fun ev => bool_decide (ev_packageId ev = packageId))
             (col_tracking_events d))),
     d)).

(** [getDocs(query(collection(db, 'orders'), orderBy('createdAt', 'desc')))],
    with [where('customerId', '==', userId)] when [customer] is that user. *)
Definition getDocs_orders_newest_first (customer : option string)
    : Async (list Order) :=
  request (fun d =>
    (Returned
       (merge_sort newer_order
          (List.filter
             (fun o => match customer with
                       | Some userId => bool_decide (customerId o = userId)
                       | None => true
                       end)
             (snd <$> map_to_list (col_orders d)))),
     d)).

(** [getDocs(query(collection(db, 'packages'),
       where('internalTrackingCode', '==', trackingCode)))]. *)
Definition getDocs_packages_where_internalTrackingCode (trackingCode : string)
    : Async (list Package) :=
  request (fun d =>
    (Returned
       (List.filter
          (fun p => bool_decide (internalTrackingCode p = Some trackingCode))
          (snd <$> map_to_list (col_packages d))),
     d)).

End Firestore.
Export Firestore.

Declare Scope async_scope.
Delimit Scope async_scope with async.
Notation "'await' x <- m ; k" := (bind m (fun x => k))
  (at level 10, x name, m at level 100, k at level 200,
   format "'[v' 'await'  x  <-  m ; '/' k ']'") : async_scope.
(** A call that is not awaited but may throw, or reads the run time. *)
Notation "'sync' x <- m ; k" := (bind m (fun x => k))
  (at level 10, x name, m at level 100, k at level 200,
   format "'[v' 'sync'  x  <-  m ; '/' k ']'") : async_scope.

Open Scope async_scope.

(** ** services/dataService.ts *)

Module DataService.

(** [logAction]: an audit entry. Whatever the write throws is caught, sent
    to [console.error] and not thrown again. *)
Definition logAction (log : AuditLogInput) : Async unit :=
  try_catch
    (sync new_id <- uuidv4;
     sync now <- Date_now;
     addDoc_audit_log
       {| log_id := new_id; action := in_action log;
          log_userId := in_userId log; userName := in_userName log;
          details := in_details log; log_timestamp := now;
          severity := in_severity log |})
    (fun error => ret tt).

(** The object [{ currentStatus: newStatus, ...additionalData }]. *)
Definition statusFields (newStatus : PackageStatus)
    (additionalData : option PartialPackage) : PartialPackage :=
  spread (currentStatus_field newStatus) (spread_optional additionalData).

(** The embedded packages after the change:
    [orderData.packages.map(p => p.id === packageId
        ? { ...p, currentStatus: newStatus, ...additionalData } : p)]. *)
Definition updatedPackages (packageId : string) (newStatus : PackageStatus)
    (additionalData : option PartialPackage) (pkgs : list Package)
    : list Package :=
  map (fun p =>
         if decide (id p = packageId)
         then assign p (statusFields newStatus additionalData)
         else p)
      pkgs.

(** One turn of the loop over [allStatuses], on the pair
    [(minIndex, overallStatus)]. *)
Definition earliest (statusOrder : list PackageStatus)
    (acc : Z * PackageStatus) (status : PackageStatus) : Z * PackageStatus :=
  let idx := indexOf statusOrder status in
  if negb (idx =? -1) && (idx <? fst acc) then (idx, status) else acc.

(** The overall status of the order: [newStatus], replaced by the "least
    advanced" status of the packages when there are several. *)
Definition overallStatus (newStatus : PackageStatus)
    (updatedPackages : list Package) : PackageStatus :=
  if (1 <? length updatedPackages)%nat then
    let allStatuses := map currentStatus updatedPackages in
    let statusOrder := Object_values_PackageStatus in
    let minIndex := Z.of_nat (length statusOrder) in
    snd (fold_left (earliest statusOrder) allStatuses (minIndex, newStatus))
  else newStatus.

(** The order document after
    [updateDoc(orderRef, { packages: updatedPackages, status: overallStatus })]. *)
Definition writtenOrder (packageId : string) (newStatus : PackageStatus)
    (additionalData : option PartialPackage) (orderData : Order) : Order :=
  let updated :=
    updatedPackages packageId newStatus additionalData (packages orderData) in
  set_packages_status orderData updated (overallStatus newStatus updated).

Definition updatePackageStatus (packageId : string)
    (newStatus : PackageStatus) (userId notes location : string)
    (additionalData : option PartialPackage) : Async unit :=
  try_catch
    ((* 1. Update the standalone package document *)
     sync pkgRef <- doc packageId;
     await pkgSnap <- getDoc_package pkgRef;
     match pkgSnap with
     | None => throw (Error "Package not found")
     | Some currentPkg =>
         let orderId := orderId currentPkg in
         await _u <- updateDoc_package pkgRef
                       (statusFields newStatus additionalData);
         (* 2. Update the package inside the Order document *)
         sync orderRef <- doc orderId;
         await orderSnap <- getDoc_order orderRef;
         await _u <- match orderSnap with
                     | Some orderData =>
                         let updated :=
                           updatedPackages packageId newStatus additionalData
                             (packages orderData) in
                         updateDoc_order orderRef updated
                           (overallStatus newStatus updated)
                     | None => ret tt
                     end;
         (* 3. Log Tracking Event *)
         sync new_id <- uuidv4;
         sync now <- Date_now;
         await _u <- addDoc_tracking_event
                       {| ev_id := new_id; ev_packageId := packageId;
                          ev_status := newStatus; ev_timestamp := now;
                          ev_userId := userId; ev_location := location;
                          ev_notes := Some notes; ev_photoUrls := None |};
         (* 4. Audit Log *)
         logAction
           {| in_action := "STATUS_UPDATE"; in_userId := userId;
              in_userName := "Agent";
              in_details := "Package " +:+ packageId +:+ " updated to "
                            +:+ PackageStatus_value newStatus;
              in_severity := INFO |}
     end)
    (fun error => throw error).

(** The status filter of [getPackagesByRole] for a role. *)
Definition chinaStatuses : list PackageStatus :=
  [ PURCHASED_FROM_SELLER; IN_TRANSIT_TO_CHINA_AGENT; RECEIVED_IN_CHINA;
    QC_CHECKED; PACKED_CHINA; READY_TO_SHIP_UAE ].

Definition uaeStatuses : list PackageStatus :=
  [ SHIPPED_TO_UAE; ARRIVED_UAE; REPACKING; READY_TO_SHIP_IRAN ].

Definition iranStatuses : list PackageStatus :=
  [ SHIPPED_TO_IRAN; ARRIVED_IRAN; OUT_FOR_DELIVERY ].

Definition targetStatuses (role : UserRole) : list PackageStatus :=
  let target := [] in
  let target := if decide (role = CHINA_AGENT) then chinaStatuses else target in
  let target := if decide (role = UAE_AGENT) then uaeStatuses else target in
  let target := if decide (role = IRAN_AGENT) then iranStatuses else target in
  target.

Definition getPackagesByRole (role : UserRole) : Async (list Package) :=
  let targetStatuses := targetStatuses role in
  if (length targetStatuses =? 0)%nat then ret []
  else
    try_catch
      (getDocs_packages_where_currentStatus_in targetStatuses)
      (fun error => ret []).

(** *** The other functions of the service *)

(** [getOrders]: all orders, or a customer's own, newest first; [[]] when
    the query fails. *)
Definition getOrders (role userId : string) : Async (list Order) :=
  try_catch
    (let q := None in
     let q := if bool_decide (role = "CUSTOMER") then Some userId else q in
     await snapshot <- getDocs_orders_newest_first q;
     ret snapshot)
    (fun error => ret []).

(** [getOrderById]: [None] is [undefined]. *)
Definition getOrderById (orderId : string) : Async (option Order) :=
  try_catch
    (sync docRef <- doc orderId;
     await docSnap <- getDoc_order docRef;
     match docSnap with
     | Some data => ret (Some data)
     | None => ret None
     end)
    (fun error => ret None).

(** [createOrder]. The callback of [order.packages.forEach] is [async] and
    nobody awaits what it returns. *)
Definition createOrder (order : Order) : Async unit :=
  try_catch
    (sync orderRef <- doc (o_id order);
     await _u <- setDoc_order orderRef order;
     (* Also create standalone package docs *)
     sync _u <- forEach (packages order)
                  (fun pkg =>
                     unawaited
                       (sync pkgRef <- doc (id pkg);
                        setDoc_package pkgRef pkg));
     logAction
       {| in_action := "ORDER_CREATED"; in_userId := customerId order;
          in_userName := customerName order;
          in_details := "Order " +:+ o_id order +:+ " created with "
                        +:+ Number_toString (totalItems order) +:+ " items.";
          in_severity := INFO |})
    (fun error => throw error).

(** The loop of [deleteOrder] that queues the deletion of the packages. *)
Fixpoint deletePackages (pkgs : list Package) (batch : list BatchWrite)
    : Async (list BatchWrite) :=
  match pkgs with
  | [] => ret batch
  | pkg :: rest =>
      sync pkgRef <- doc (id pkg);
      deletePackages rest (batch ++ [BatchDeletePackage pkgRef])
  end.

Definition deleteOrder (orderId userId : string) : Async unit :=
  try_catch
    ((* 1. Get the order to find its packages *)
     sync orderRef <- doc orderId;
     await orderSnap <- getDoc_order orderRef;
     match orderSnap with
     | None => throw (Error "Order not found")
     | Some orderData =>
         let batch := [] in
         (* 2. Delete all packages associated with this order *)
         sync batch <- deletePackages (packages orderData) batch;
         (* 3. Delete the order itself *)
         let batch := batch ++ [BatchDeleteOrder orderRef] in
         await _u <- commit batch;
         (* 4. Log the action *)
         logAction
           {| in_action := "ORDER_CREATED"; in_userId := userId;
              in_userName := "User";
              in_details := "Order " +:+ orderId +:+ " deleted with "
                            +:+ Number_toString (totalItems orderData)
                            +:+ " items.";
              in_severity := WARNING |}
     end)
    (fun error => throw error).

Definition updateOrderPayment (orderId : string) (amountPaid balanceDue : number)
    : Async unit :=
  try_catch
    (sync orderRef <- doc orderId;
     updateDoc_order_payment orderRef amountPaid balanceDue)
    (fun error => throw error).

Definition getPackageById (packageId : string) : Async (option Package) :=
  try_catch
    (sync docRef <- doc packageId;
     await docSnap <- getDoc_package docRef;
     match docSnap with
     | Some data => ret (Some data)
     | None => ret None
     end)
    (fun error => ret None).

(** [getPackageByInternalTrackingCode]: [snapshot.docs[0]], when there is
    one. *)
Definition getPackageByInternalTrackingCode (trackingCode : string)
    : Async (option Package) :=
  try_catch
    (await snapshot <- getDocs_packages_where_internalTrackingCode trackingCode;
     match snapshot with
     | first :: _ => ret (Some first)
     | [] => ret None
     end)
    (fun error => ret None).

(** The embedded packages with the tracking code set:
    [orderData.packages.map(p => p.id === packageId
        ? { ...p, internalTrackingCode } : p)]. *)
Definition codedPackages (packageId internalTrackingCode : string)
    (pkgs : list Package) : list Package :=
  map (fun p =>
         if decide (id p = packageId)
         then assign p (internalTrackingCode_field internalTrackingCode)
         else p)
      pkgs.

Definition updatePackageInternalTrackingCode
    (packageId internalTrackingCode : string) : Async unit :=
  try_catch
    ((* 1. Update the standalone package doc *)
     sync pkgRef <- doc packageId;
     await pkgSnap <- getDoc_package pkgRef;
     match pkgSnap with
     | None => throw (Error "Package not found")
     | Some currentPkg =>
         let orderId := orderId currentPkg in
         await _u <- updateDoc_package pkgRef
                       (internalTrackingCode_field internalTrackingCode);
         (* 2. Update the package inside the Order document *)
         sync orderRef <- doc orderId;
         await orderSnap <- getDoc_order orderRef;
         await _u <- match orderSnap with
                     | Some orderData =>
                         updateDoc_order_packages orderRef
                           (codedPackages packageId internalTrackingCode
                              (packages orderData))
                     | None => ret tt
                     end;
         (* 3. Audit Log *)
         logAction
           {| in_action := "TRACKING_CODE_UPDATE"; in_userId := "admin";
              in_userName := "Admin";
              in_details := "Internal tracking code updated for package "
                            +:+ packageId +:+ ": " +:+ internalTrackingCode;
              in_severity := INFO |}
     end)
    (fun error => throw error).

(** [getTrackingHistory]: the events of a package, newest first; [[]] when
    the query fails. *)
Definition getTrackingHistory (packageId : string)
    : Async (list TrackingEvent) :=
  try_catch
    (await snapshot <- getDocs_tracking_events_of packageId;
     ret snapshot)
    (fun error => ret []).

End DataService.

(** ** The second copy of the service

    The repository holds a second copy of [dataService.ts]. Its
    [updatePackageStatus] differs from the first in its step 1: a package
    that is missing from the [packages] collection is looked for inside the
    orders and written to the collection, and so is a missing [orderId]. *)

Module DataServiceCopy.

Import DataService.

(** The loop over [ordersSnapshot.docs] that looks for the package: the
    first order that embeds a package with this id, with that package. *)
Fixpoint findInOrders (packageId : string) (docs : list Order)
    : option (Package * Order) :=
  match docs with
  | [] => None
  | order :: rest =>
      match find (fun p => bool_decide (id p = packageId)) (packages order)
      with
      | Some pkg => Some (pkg, order)
      | None => findInOrders packageId rest
      end
  end.

(** [!s] for a string: true of the empty string only. *)
Definition falsy (s : string) : bool := bool_decide (s = "").

(** [allStatuses] here is
    [updatedPackages.map(p => p?.currentStatus).filter(Boolean)]; every
    status is a non-empty string, so the filter keeps them all, and the
    further tests of the loop ([allStatuses.length > 0], [if (status)])
    hold whenever they are reached. *)
Definition overallStatus (newStatus : PackageStatus)
    (updatedPackages : list Package) : PackageStatus :=
  if (1 <? length updatedPackages)%nat then
    let allStatuses :=
      List.filter (fun _ => true) (map currentStatus updatedPackages) in
    let statusOrder := Object_values_PackageStatus in
    if (0 <? length allStatuses)%nat && (0 <? length statusOrder)%nat then
      let minIndex := Z.of_nat (length statusOrder) in
      snd (fold_left (earliest statusOrder) allStatuses (minIndex, newStatus))
    else newStatus
  else newStatus.

(** Step 1, after [pkgRef] is made: get or create the standalone package
    document; returns the [orderId] to use. *)
Definition getOrCreatePackage (pkgRef packageId : string) : Async string :=
  await pkgSnap <- getDoc_package pkgRef;
  match pkgSnap with
  | None =>
      (* Package not in collection, find it in orders and create it *)
      await docs <- getDocs_orders;
      match findInOrders packageId docs with
      | Some (foundPackage, order) =>
          let foundOrderId := o_id order in
          if falsy foundOrderId
          then throw (Error "Package not found in any order")
          else
            let currentPkg := assign foundPackage (orderId_field foundOrderId) in
            await _u <- setDoc_package pkgRef currentPkg;
            ret foundOrderId
      | None => throw (Error "Package not found in any order")
      end
  | Some currentPkg =>
      let orderId := orderId currentPkg in
      (* If orderId is missing, try to find it *)
      if falsy orderId then
        await docs <- getDocs_orders;
        match findInOrders packageId docs with
        | Some (_, order) =>
            let orderId := o_id order in
            await _u <- updateDoc_package pkgRef (orderId_field orderId);
            if falsy orderId
            then throw (Error "Cannot find orderId for package")
            else ret orderId
        | None => throw (Error "Cannot find orderId for package")
        end
      else ret orderId
  end.

Definition updatePackageStatus (packageId : string)
    (newStatus : PackageStatus) (userId notes location : string)
    (additionalData : option PartialPackage) : Async unit :=
  try_catch
    ((* 1. Get or create the standalone package document *)
     sync pkgRef <- doc packageId;
     await orderId <- getOrCreatePackage pkgRef packageId;
     (* Update the package *)
     await _u <- updateDoc_package pkgRef
                   (statusFields newStatus additionalData);
     (* 2. Update the package inside the Order document *)
     sync orderRef <- doc orderId;
     await orderSnap <- getDoc_order orderRef;
     await _u <- match orderSnap with
                 | Some orderData =>
                     let updated :=
                       updatedPackages packageId newStatus additionalData
                         (packages orderData) in
                     updateDoc_order orderRef updated
                       (overallStatus newStatus updated)
                 | None => ret tt
                 end;
     (* 3. Log Tracking Event *)
     sync new_id <- uuidv4;
     sync now <- Date_now;
     await _u <- addDoc_tracking_event
                   {| ev_id := new_id; ev_packageId := packageId;
                      ev_status := newStatus; ev_timestamp := now;
                      ev_userId := userId; ev_location := location;
                      ev_notes := Some notes; ev_photoUrls := None |};
     (* 4. Audit Log *)
     logAction
       {| in_action := "STATUS_UPDATE"; in_userId := userId;
          in_userName := "Agent";
          in_details := "Package " +:+ packageId +:+ " updated to "
                        +:+ PackageStatus_value newStatus;
          in_severity := INFO |})
    (fun error => throw error).

(** *** Orders in the second copy *)

(** The [setDoc] calls that [order.packages.map] makes, one after the
    other; a reference that cannot be made stops the loop with its error. *)
Fixpoint startPackageWrites (pkgs : list Package)
    : Async (list (Outcome unit)) :=
  match pkgs with
  | [] => ret []
  | pkg :: rest =>
      sync pkgRef <- doc (id pkg);
      sync promise <- start (setDoc_package pkgRef pkg);
      sync promises <- startPackageWrites rest;
      ret (promise :: promises)
  end.

(** [createOrder], which awaits the package writes with [Promise.all]. *)
Definition createOrder (order : Order) : Async unit :=
  try_catch
    (sync orderRef <- doc (o_id order);
     await _u <- setDoc_order orderRef order;
     (* Also create standalone package docs *)
     sync promises <- startPackageWrites (packages order);
     await _u <- Promise_all promises;
     logAction
       {| in_action := "ORDER_CREATED"; in_userId := customerId order;
          in_userName := customerName order;
          in_details := "Order " +:+ o_id order +:+ " created with "
                        +:+ Number_toString (totalItems order) +:+ " items.";
          in_severity := INFO |})
    (fun error => throw error).

(** The loops of [updateOrder] and [syncPackagesToCollection] that queue
    the package writes. *)
Fixpoint setPackages (pkgs : list Package) (batch : list BatchWrite)
    : Async (list BatchWrite) :=
  match pkgs with
  | [] => ret batch
  | pkg :: rest =>
      sync pkgRef <- doc (id pkg);
      setPackages rest (batch ++ [BatchSetPackage pkgRef pkg])
  end.

Fixpoint mergePackages (pkgs : list Package) (batch : list BatchWrite)
    : Async (list BatchWrite) :=
  match pkgs with
  | [] => ret batch
  | pkg :: rest =>
      sync pkgRef <- doc (id pkg);
      mergePackages rest (batch ++ [BatchMergePackage pkgRef pkg])
  end.

(** [updateOrder]: the order and its packages, written in one batch. *)
Definition updateOrder (order : Order) : Async unit :=
  try_catch
    (let batch := [] in
     (* Update the main order document *)
     sync orderRef <- doc (o_id order);
     let batch := batch ++ [BatchSetOrder orderRef order] in
     (* Update all packages in the standalone packages collection *)
     sync batch <- setPackages (packages order) batch;
     await _u <- commit batch;
     logAction
       {| in_action := "ORDER_UPDATED"; in_userId := "admin";
          in_userName := "Admin";
          in_details := "Order " +:+ o_id order +:+ " was updated.";
          in_severity := INFO |})
    (fun error => throw error).

(** The loop of [syncPackagesToCollection] over the orders. The test
    [orderData.packages && orderData.packages.length > 0] only skips orders
    for which the inner loop would do nothing. *)
Fixpoint mergeOrders (docs : list Order) (batch : list BatchWrite)
    : Async (list BatchWrite) :=
  match docs with
  | [] => ret batch
  | orderData :: rest =>
      sync batch <- (if (0 <? length (packages orderData))%nat
                     then mergePackages (packages orderData) batch
                     else ret batch);
      mergeOrders rest batch
  end.

(** [syncPackagesToCollection]: every embedded package is merged into its
    document; an error ends in an alert, not in a throw. *)
Definition syncPackagesToCollection : Async unit :=
  try_catch
    (await docs <- getDocs_orders;
     let batch := [] in
     sync batch <- mergeOrders docs batch;
     commit batch)
    (fun error => ret tt).

End DataServiceCopy.

(** ** The resolver in the specification's words

    Written after sections 3, 4.1 and 4.3 of the specification, to be
    compared with [DataService.overallStatus]. *)

Module Spec.

(** The ordered pipeline; [ISSUE_REPORTED] is not part of it. *)
Definition pipeline : list PackageStatus :=
  [ PURCHASED_FROM_SELLER; IN_TRANSIT_TO_CHINA_AGENT; RECEIVED_IN_CHINA;
    QC_CHECKED; PACKED_CHINA; READY_TO_SHIP_UAE; SHIPPED_TO_UAE;
    ARRIVED_UAE; REPACKING; READY_TO_SHIP_IRAN; SHIPPED_TO_IRAN;
    ARRIVED_IRAN; OUT_FOR_DELIVERY; DELIVERED ].

(** [rank]: the index in the pipeline, undefined for [ISSUE_REPORTED]. *)
Fixpoint index_in (s : PackageStatus) (l : list PackageStatus) : option nat :=
  match l with
  | [] => None
  | x :: rest => if decide (x = s) then Some 0%nat else S <$> index_in s rest
  end.

Definition rank (s : PackageStatus) : option nat := index_in s pipeline.

Inductive ResolveError : Type := MalformedOrderError.

(** The less advanced of two ranked statuses, the first on a tie. *)
Definition less_advanced (best s : PackageStatus) : PackageStatus :=
  match rank s, rank best with
  | Some i, Some j => if (i <? j)%nat then s else best
  | _, _ => best
  end.

(** [resolve]: the status of a lone package verbatim; otherwise the status
    of minimum rank among the ranked ones, [ISSUE_REPORTED] when none is
    ranked; an error on the empty list. *)
Definition resolve (pkgs : list Package) : ResolveError + PackageStatus :=
  match pkgs with
  | [] => inl MalformedOrderError
  | [p] => inr (currentStatus p)
  | _ =>
      match List.filter (fun s => bool_decide (is_Some (rank s)))
              (map currentStatus pkgs)
      with
      | [] => inr ISSUE_REPORTED
      | s :: rest => inr (fold_left less_advanced rest s)
      end
  end.

End Spec.

(** ** Sample data *)

Module Sample.

Definition pkg (pid oid : string) (st : PackageStatus) : Package :=
  {| id := pid; orderId := oid; subOrderId := "SUB-1"; weight := None;
     dimensions := None; currentStatus := st; trackingNumber := "PENDING";
     internalTrackingCode := None; description := "shoes";
     qrCodeData := pid; warehouseBin := None; productLink := None;
     price := None; declaredValue := None; photoUrls := None |}.

Definition order (oid : string) (pkgs : list Package) (st : PackageStatus)
    : Order :=
  {| o_id := oid; customerId := "cust-1"; customerName := "Sara";
     customerPhone := None; shippingAddress := None; source := Taobao;
     createdAt := 1700000000000; totalItems := Z.of_nat (length pkgs);
     packages := pkgs; o_status := st; totalPrice := None;
     amountPaid := None; balanceDue := None |}.

Definition user (r : UserRole) : User :=
  {| uid := "u-1"; email := "agent@example.com"; displayName := "Agent";
     role := r; password := "secret"; avatarUrl := None;
     phoneNumber := None; address := None |}.

(** Identifiers for [uuidv4()], all different. *)
Fixpoint sample_uuid (n : nat) : string :=
  match n with
  | O => "uuid"
  | S k => "x" +:+ sample_uuid k
  end.

Definition world (pkgs : list Package) (ords : list Order)
    (plan : nat -> option string) : World :=
  {| db := {| col_packages := list_to_map ((fun p => (id p, p)) <$> pkgs);
              col_orders := list_to_map ((fun o => (o_id o, o)) <$> ords);
              col_tracking_events := [];
              col_audit_logs := [] |};
     outage := plan; calls := 0%nat; clock := 1700000000123;
     random_uuid := sample_uuid; uuids := 0%nat |}.

(** No Firestore call is rejected; only the [n]-th is. *)
Definition no_outage : nat -> option string := fun _ => None.

Definition outage_at (n : nat) : nat -> option string :=
  fun k => if (k =? n)%nat then Some "unavailable" else None.

(** A weight, as the scan page sends it. *)
Definition weight_only (w : number) : PartialPackage :=
  mkPartialPackage None None None (Some w) None None None None None None None
    None None None None.

(** One order with one package, received in China. *)
Definition single : World :=
  world [pkg "PKG-101" "ORD-1" RECEIVED_IN_CHINA]
        [order "ORD-1" [pkg "PKG-101" "ORD-1" RECEIVED_IN_CHINA]
           RECEIVED_IN_CHINA]
        no_outage.

(** One order with two packages. *)
Definition pair_of_packages : list Package :=
  [pkg "PKG-101" "ORD-1" ARRIVED_UAE; pkg "PKG-102" "ORD-1" RECEIVED_IN_CHINA].

Definition double (plan : nat -> option string) : World :=
  world pair_of_packages
        [order "ORD-1" pair_of_packages RECEIVED_IN_CHINA]
        plan.

(** A package whose order has lost all its embedded packages. *)
Definition emptied : World :=
  world [pkg "PKG-101" "ORD-1" RECEIVED_IN_CHINA]
        [order "ORD-1" [] RECEIVED_IN_CHINA]
        no_outage.

(** A package that its order no longer embeds; the order embeds another. *)
Definition dropped : World :=
  world [pkg "PKG-101" "ORD-1" OUT_FOR_DELIVERY;
         pkg "PKG-102" "ORD-1" PURCHASED_FROM_SELLER]
        [order "ORD-1" [pkg "PKG-102" "ORD-1" PURCHASED_FROM_SELLER]
           PURCHASED_FROM_SELLER]
        no_outage.

(** A package that only exists inside its order. *)
Definition embedded_only : World :=
  world []
        [order "ORD-1" [pkg "PKG-101" "ORD-1" RECEIVED_IN_CHINA]
           RECEIVED_IN_CHINA]
        no_outage.

(** The scan of [PKG-102] in the order of two, checked and weighed. *)
Definition check_second (plan : nat -> option string) : Outcome unit * World :=
  DataService.updatePackageStatus "PKG-102" QC_CHECKED "u-1" "checked"
    "Agent Location Device" (Some (weight_only 3)) (double plan).

(** A request to deliver [PKG-101], in a given world. *)
Definition deliver_first (w : World) : Outcome unit * World :=
  DataService.updatePackageStatus "PKG-101" DELIVERED "u-1" "done"
    "Agent Location Device" None w.

(** A request to deliver [PKG-101] whose additional data carries a
    [currentStatus] of its own. *)
Definition deliver_as_checked : Outcome unit * World :=
  DataService.updatePackageStatus "PKG-101" DELIVERED "u-1" "done"
    "Agent Location Device" (Some (currentStatus_field QC_CHECKED)) single.

(** Only the first Firestore call is let through. *)
Definition only_first : nat -> option string :=
  fun k => if (k =? 0)%nat then None else Some "unavailable".

(** A database with no document, and an order to create in it. *)
Definition fresh (plan : nat -> option string) : World := world [] [] plan.

Definition first_order : Order :=
  order "ORD-1" pair_of_packages RECEIVED_IN_CHINA.

(** The order of two with its second package checked and the first
    dropped. *)
Definition trimmed_order : Order :=
  order "ORD-1" [pkg "PKG-102" "ORD-1" QC_CHECKED] QC_CHECKED.

(** A tracking code for [PKG-101] in the order of two. *)
Definition code_first : Outcome unit * World :=
  DataService.updatePackageInternalTrackingCode "PKG-101" "TPX-7"
    (double no_outage).

(** The deletion of the order of two, and of an order that does not
    exist. *)
Definition delete_double : Outcome unit * World :=
  DataService.deleteOrder "ORD-1" "u-1" (double no_outage).

Definition delete_missing : Outcome unit * World :=
  DataService.deleteOrder "ORD-9" "u-1" (double no_outage).

(** A payment on the order of two. *)
Definition pay_double : Outcome unit * World :=
  DataService.updateOrderPayment "ORD-1" 100 50 (double no_outage).

End Sample.

(** ** A check of the offered statuses

    Every offered status is in the role's list and comes later in it than
    the current one, except for the administrator at one of the two
    boundary statuses that two lists share. *)

Module Checks.
Import ScanQR.

Definition offered_later (r : UserRole) (current s : PackageStatus) : bool :=
  bool_decide (s ∈ allowedStatuses r) &&
  ((indexOf (allowedStatuses r) current <? indexOf (allowedStatuses r) s)
   || bool_decide (r = ADMIN /\ s = current /\
                   (current = SHIPPED_TO_UAE \/ current = SHIPPED_TO_IRAN))).

(** The statuses offered to a role, by a user of that role. *)
Definition offered (r : UserRole) (current : PackageStatus)
    : list PackageStatus :=
  getAvailableNextStatuses (Some (Sample.user r)) current.

(** Choosing an offered status only moves forward: what is offered next is
    a suffix of what was offered, and a shorter one unless the
    administrator chose the current status again. *)
Definition advances (r : UserRole) (current s : PackageStatus) : bool :=
  bool_decide (offered r s `suffix_of` offered r current) &&
  ((length (offered r s) <? length (offered r current))%nat
   || bool_decide (r = ADMIN /\ s = current)).

(** The three agent roles. *)
Definition agents : list UserRole := [CHINA_AGENT; UAE_AGENT; IRAN_AGENT].

(** The agents to whom [b] is offered for a package at [a]. *)
Definition agents_offered (a b : PackageStatus) : list UserRole :=
  List.filter (fun r => bool_decide (b ∈ offered r a)) agents.

(** The agents whose workload filter holds a status. *)
Definition agents_in_charge (s : PackageStatus) : list UserRole :=
  List.filter (fun r => bool_decide (s ∈ DataService.targetStatuses r))
    [ADMIN; CHINA_AGENT; UAE_AGENT; IRAN_AGENT; CUSTOMER].

End Checks.

(** * Properties *)

(** ** Arrays *)

Section ArrayFacts.
Context {A : Type} `{EqDecision A}.

(** [indexOf] finds the first occurrence and says [-1] exactly when there is
    none. *)
Lemma indexOf_from_first (x : A) (arr : list A) (i : Z) :
  0 <= i ->
  (indexOf_from i x arr = -1 /\ (x ∉ arr)) \/
  (exists before after,
     arr = before ++ x :: after /\ (x ∉ before) /\
     indexOf_from i x arr = i + Z.of_nat (length before)).
Proof.
  revert i. induction arr as [|y rest IH]; intros i Hi; simpl.
  - left. split; [reflexivity | apply not_elem_of_nil].
  - destruct (decide (y = x)) as [->|Hne].
    + right. exists [], rest. simpl. split; [reflexivity|].
      split; [apply not_elem_of_nil | lia].
    + destruct (IH (i + 1)) as [[Hm Hnot]|(before & after & -> & Hnot & Hidx)];
        [lia | |].
      * left. split; [exact Hm|].
        rewrite not_elem_of_cons. split; [congruence | exact Hnot].
      * right. exists (y :: before), after. simpl. split; [reflexivity|].
        split; [rewrite not_elem_of_cons; split; [congruence | exact Hnot]|].
        rewrite Hidx. lia.
Qed.

Lemma indexOf_first (x : A) (arr : list A) :
  (indexOf arr x = -1 /\ (x ∉ arr)) \/
  (exists before after,
     arr = before ++ x :: after /\ (x ∉ before) /\
     indexOf arr x = Z.of_nat (length before)).
Proof.
  unfold indexOf.
  destruct (indexOf_from_first x arr 0) as [Hnone|(b & a & H1 & H2 & H3)];
    [lia | left; exact Hnone |].
  right. exists b, a. split; [exact H1|]. split; [exact H2|]. rewrite H3. lia.
Qed.

(** Slicing just after the first occurrence leaves what follows it. *)
Lemma slice_after (before after : list A) (x : A) :
  slice (before ++ x :: after) (Z.of_nat (length before) + 1) = after.
Proof.
  unfold slice.
  destruct (Z.ltb_spec (Z.of_nat (length before) + 1) 0) as [Hlt|_]; [lia|].
  replace (Z.to_nat (Z.of_nat (length before) + 1)) with (length before + 1)%nat
    by lia.
  rewrite <- drop_drop, drop_app_length. reflexivity.
Qed.

End ArrayFacts.

(** ** The role-transition policy *)

Section Policy.
Import ScanQR Checks.

(** What [getAvailableNextStatuses] returns only depends on the role. *)
Lemma next_statuses_by_role (u : User) (current : PackageStatus) :
  getAvailableNextStatuses (Some u) current =
  (let allowed := allowedStatuses (role u) in
   if indexOf allowed current =? -1 then [] else slice allowed (indexOf allowed current + 1)).
Proof.
  unfold getAvailableNextStatuses. cbv zeta.
  destruct (allowedStatuses (role u)) as [|s rest]; reflexivity.
Qed.

(** C3: for every role, the next statuses are what follows the first
    occurrence of the current status in the role's list, in that order, and
    nothing when the current status is not in the list. Each agent has the
    list of its region, the administrator has China, then UAE, then Iran,
    and a customer has the empty list. Nothing follows [ISSUE_REPORTED],
    and a China agent at [RECEIVED_IN_CHINA] gets exactly the four later
    China statuses. *)
Theorem C3_next_statuses_follow_current (u : User) (current : PackageStatus) :
  let allowed := allowedStatuses (role u) in
  let next := getAvailableNextStatuses (Some u) current in
  ((current ∉ allowed) /\ next = [] \/
   exists before, allowed = before ++ current :: next /\ (current ∉ before)) /\
  allowedStatuses CHINA_AGENT = chinaStatuses /\
  allowedStatuses UAE_AGENT = uaeStatuses /\
  allowedStatuses IRAN_AGENT = iranStatuses /\
  allowedStatuses ADMIN = chinaStatuses ++ uaeStatuses ++ iranStatuses /\
  allowedStatuses CUSTOMER = [] /\
  getAvailableNextStatuses (Some u) ISSUE_REPORTED = [] /\
  (role u = CHINA_AGENT ->
   getAvailableNextStatuses (Some u) RECEIVED_IN_CHINA =
   [QC_CHECKED; PACKED_CHINA; READY_TO_SHIP_UAE; SHIPPED_TO_UAE]).
Proof.
  cbv zeta. repeat split.
  - rewrite next_statuses_by_role. cbv zeta.
    destruct (indexOf_first current (allowedStatuses (role u)))
      as [[Hm Hnot]|(before & after & Heq & Hnot & Hidx)].
    + left. rewrite Hm. split; [exact Hnot | reflexivity].
    + right. exists before. rewrite Hidx.
      destruct (Z.eqb_spec (Z.of_nat (length before)) (-1)) as [Habs|_]; [lia|].
      assert (slice (allowedStatuses (role u)) (Z.of_nat (length before) + 1)
              = after) as -> by (rewrite Heq; apply slice_after).
      split; [exact Heq | exact Hnot].
  - rewrite next_statuses_by_role. destruct (role u); reflexivity.
  - intros Hrole. rewrite next_statuses_by_role, Hrole. reflexivity.
Qed.

(** C2, at the input where it fails: an administrator looking at a package
    that is [SHIPPED_TO_UAE] is offered [SHIPPED_TO_UAE] again. The China
    and the UAE lists share this boundary status, so the administrator's
    list has it at positions 6 and 7; the search stops at 6 and the slice
    starts at 7. *)
Theorem C2_admin_is_offered_the_current_status
    (uid email displayName password : string)
    (avatarUrl phoneNumber address : option string) :
  getAvailableNextStatuses
    (Some (mkUser uid email displayName ADMIN password avatarUrl phoneNumber
             address))
    SHIPPED_TO_UAE =
  [SHIPPED_TO_UAE; ARRIVED_UAE; REPACKING; READY_TO_SHIP_IRAN;
   SHIPPED_TO_IRAN; SHIPPED_TO_IRAN; ARRIVED_IRAN; OUT_FOR_DELIVERY;
   DELIVERED] /\
  indexOf (allowedStatuses ADMIN) SHIPPED_TO_UAE = 6 /\
  allowedStatuses ADMIN !! 6%nat = Some SHIPPED_TO_UAE /\
  allowedStatuses ADMIN !! 7%nat = Some SHIPPED_TO_UAE.
Proof. repeat split. Qed.

Lemma offered_later_all (u : User) (current : PackageStatus) :
  forallb (offered_later (role u) current)
    (getAvailableNextStatuses (Some u) current) = true.
Proof.
  rewrite next_statuses_by_role.
  destruct (role u), current; vm_compute; reflexivity.
Qed.

(** For the three agents the offered statuses are in the agent's own list
    and strictly later in it than the current status. *)
Lemma agents_are_offered_later_statuses (u : User) (current s : PackageStatus) :
  role u <> ADMIN ->
  s ∈ getAvailableNextStatuses (Some u) current ->
  (s ∈ allowedStatuses (role u)) /\
  indexOf (allowedStatuses (role u)) current < indexOf (allowedStatuses (role u)) s /\
  s <> current.
Proof.
  intros Hrole Hin.
  pose proof (offered_later_all u current) as Hall.
  rewrite forallb_forall in Hall.
  specialize (Hall s (proj1 (list_elem_of_In _ _) Hin)).
  unfold offered_later in Hall.
  apply andb_true_iff in Hall as [Hmem Hlater].
  apply bool_decide_eq_true in Hmem.
  apply orb_true_iff in Hlater as [Hlt|Hadm].
  - apply Z.ltb_lt in Hlt. repeat split; [exact Hmem | exact Hlt |].
    intros ->. lia.
  - apply bool_decide_eq_true in Hadm. tauto.
Qed.

(** A China agent at [RECEIVED_IN_CHINA] is offered [QC_CHECKED]. *)
Lemma agents_are_offered_later_statuses_example :
  (QC_CHECKED ∈ allowedStatuses CHINA_AGENT) /\
  indexOf (allowedStatuses CHINA_AGENT) RECEIVED_IN_CHINA
  < indexOf (allowedStatuses CHINA_AGENT) QC_CHECKED /\
  QC_CHECKED <> RECEIVED_IN_CHINA.
Proof.
  apply (agents_are_offered_later_statuses (Sample.user CHINA_AGENT)
           RECEIVED_IN_CHINA QC_CHECKED).
  - simpl. discriminate.
  - vm_compute. constructor.
Defined.

(** Whatever the role, every offered status is in the role's own list. *)
Lemma offered_statuses_are_owned (u : User) (current s : PackageStatus) :
  s ∈ getAvailableNextStatuses (Some u) current ->
  s ∈ allowedStatuses (role u).
Proof.
  intros Hin.
  pose proof (offered_later_all u current) as Hall.
  rewrite forallb_forall in Hall.
  specialize (Hall s (proj1 (list_elem_of_In _ _) Hin)).
  unfold offered_later in Hall.
  apply andb_true_iff in Hall as [Hmem _].
  apply bool_decide_eq_true in Hmem. exact Hmem.
Qed.

(** A UAE agent at the boundary status [SHIPPED_TO_UAE] is offered
    [ARRIVED_UAE], a status of the UAE list. *)
Lemma offered_statuses_are_owned_example :
  ARRIVED_UAE ∈ allowedStatuses UAE_AGENT.
Proof.
  apply (offered_statuses_are_owned (Sample.user UAE_AGENT) SHIPPED_TO_UAE
           ARRIVED_UAE).
  vm_compute. constructor.
Defined.

End Policy.

(** ** The overall status of an order *)

Section Resolver.
Import DataService.

Abbreviation statusOrder := Object_values_PackageStatus.

Lemma statusOrder_index_range (s : PackageStatus) :
  0 <= indexOf statusOrder s <= 14.
Proof. destruct s; vm_compute; split; discriminate. Qed.

Lemma statusOrder_index_inj (a b : PackageStatus) :
  indexOf statusOrder a = indexOf statusOrder b -> a = b.
Proof.
  destruct a, b; vm_compute; intros Heq; try reflexivity; discriminate Heq.
Qed.

Lemma statusOrder_index_issue (s : PackageStatus) :
  indexOf statusOrder s = 14 <-> s = ISSUE_REPORTED.
Proof.
  split; [|intros ->; reflexivity].
  intros Heq. apply statusOrder_index_inj. rewrite Heq. reflexivity.
Qed.

(** The rank of the specification is the index in [statusOrder], where it
    is defined. *)
Lemma rank_index (s : PackageStatus) :
  Spec.rank s =
  if decide (s = ISSUE_REPORTED) then None
  else Some (Z.to_nat (indexOf statusOrder s)).
Proof. destruct s; reflexivity. Qed.

(** The loop keeps the first status of least index below the initial
    [minIndex], if there is one. *)
Lemma fold_earliest (l : list PackageStatus) (m : Z) (s0 : PackageStatus) :
  let r := fold_left (earliest statusOrder) l (m, s0) in
  (r = (m, s0) /\ Forall (fun x => m <= indexOf statusOrder x) l) \/
  ((snd r ∈ l) /\ fst r = indexOf statusOrder (snd r) /\ fst r < m /\
   Forall (fun x => fst r <= indexOf statusOrder x) l).
Proof.
  revert m s0. induction l as [|x l IH]; intros m s0; cbv zeta.
  - left. split; [reflexivity | constructor].
  - simpl fold_left.
    pose proof (statusOrder_index_range x) as Hx.
    assert (earliest statusOrder (m, s0) x =
            if indexOf statusOrder x <? m then (indexOf statusOrder x, x)
            else (m, s0)) as ->.
    { unfold earliest. simpl fst.
      destruct (Z.eqb_spec (indexOf statusOrder x) (-1)) as [Hneg|_]; [lia|].
      reflexivity. }
    destruct (Z.ltb_spec (indexOf statusOrder x) m) as [Hlt|Hge].
    + right.
      destruct (IH (indexOf statusOrder x) x) as [[Heq Hall]|(Hin & Hfst & Hlt' & Hall)].
      * rewrite Heq. simpl. repeat split; [left | lia |].
        constructor; [lia | exact Hall].
      * repeat split; [right; exact Hin | exact Hfst | lia |].
        constructor; [lia | exact Hall].
    + destruct (IH m s0) as [[Heq Hall]|(Hin & Hfst & Hlt' & Hall)].
      * left. split; [exact Heq|]. constructor; [lia | exact Hall].
      * right. repeat split; [right; exact Hin | exact Hfst | exact Hlt' |].
        constructor; [lia | exact Hall].
Qed.

(** With two packages or more, the overall status is a status of the list
    whose index in [statusOrder] is least. *)
Lemma overallStatus_several (newStatus : PackageStatus) (pkgs : list Package) :
  (2 <= length pkgs)%nat ->
  let r := overallStatus newStatus pkgs in
  (exists p, p ∈ pkgs /\ currentStatus p = r) /\
  Forall (fun p => indexOf statusOrder r <= indexOf statusOrder (currentStatus p))
    pkgs.
Proof.
  intros Hlen. cbv zeta. unfold overallStatus.
  destruct (Nat.ltb_spec 1 (length pkgs)) as [_|Hlt]; [|lia].
  cbv zeta.
  destruct (fold_earliest (map currentStatus pkgs)
              (Z.of_nat (length statusOrder)) newStatus)
    as [[_ Hall]|(Hin & Hfst & _ & Hall)].
  - destruct pkgs as [|p rest]; [simpl in Hlen; lia|].
    apply Forall_cons in Hall as [Hp _].
    pose proof (statusOrder_index_range (currentStatus p)) as Hr.
    simpl length in Hp. lia.
  - split.
    + apply list_elem_of_fmap in Hin as (p & Heq & Hp). exists p.
      split; [exact Hp | symmetry; exact Heq].
    + rewrite Hfst in Hall. rewrite Forall_forall in Hall.
      apply Forall_forall. intros p Hp. apply Hall.
      apply list_elem_of_fmap. exists p. split; [reflexivity | exact Hp].
Qed.

(** The fold of the specification's resolver, on ranked statuses. *)
Lemma fold_less_advanced (rest : list PackageStatus) (s : PackageStatus) :
  s <> ISSUE_REPORTED ->
  Forall (fun x => x <> ISSUE_REPORTED) rest ->
  let r := fold_left Spec.less_advanced rest s in
  (r ∈ s :: rest) /\
  Forall (fun x => indexOf statusOrder r <= indexOf statusOrder x) (s :: rest).
Proof.
  revert s. induction rest as [|x rest IH]; intros s Hs Hrest; cbv zeta.
  - simpl. split; [left | constructor; [lia | constructor]].
  - apply Forall_cons in Hrest as [Hx Hrest]. simpl fold_left.
    assert (Spec.less_advanced s x =
            if indexOf statusOrder x <? indexOf statusOrder s then x else s)
      as Hstep.
    { unfold Spec.less_advanced. rewrite !rank_index.
      destruct (decide (x = ISSUE_REPORTED)); [contradiction|].
      destruct (decide (s = ISSUE_REPORTED)); [contradiction|].
      pose proof (statusOrder_index_range x).
      pose proof (statusOrder_index_range s).
      destruct (Nat.ltb_spec (Z.to_nat (indexOf statusOrder x))
                  (Z.to_nat (indexOf statusOrder s)));
        destruct (Z.ltb_spec (indexOf statusOrder x) (indexOf statusOrder s));
        try reflexivity; lia. }
    rewrite Hstep.
    destruct (Z.ltb_spec (indexOf statusOrder x) (indexOf statusOrder s)) as [Hlt|Hge].
    + destruct (IH x Hx Hrest) as [Hin Hall]. split.
      * right. exact Hin.
      * apply Forall_cons in Hall as [Hrx Hall].
        constructor; [lia|]. constructor; [exact Hrx | exact Hall].
    + destruct (IH s Hs Hrest) as [Hin Hall]. split.
      * apply elem_of_cons in Hin as [->|Hin]; [left | right; right; exact Hin].
      * apply Forall_cons in Hall as [Hrs Hall].
        constructor; [exact Hrs|]. constructor; [lia | exact Hall].
Qed.

Lemma ranked_iff (s : PackageStatus) :
  bool_decide (is_Some (Spec.rank s)) = true <-> s <> ISSUE_REPORTED.
Proof.
  rewrite bool_decide_eq_true, rank_index.
  destruct (decide (s = ISSUE_REPORTED)) as [->|Hne]; split.
  - intros [n Hn]. discriminate Hn.
  - intros Hne. contradiction.
  - intros _. exact Hne.
  - intros _. eexists. reflexivity.
Qed.

(** With two packages or more, the source computes the status that the
    specification's [resolve] describes. *)
Lemma overallStatus_resolve (newStatus : PackageStatus) (pkgs : list Package) :
  (2 <= length pkgs)%nat ->
  Spec.resolve pkgs = inr (overallStatus newStatus pkgs).
Proof.
  intros Hlen.
  destruct (overallStatus_several newStatus pkgs Hlen) as [(p0 & Hp0 & Hr) Hmin].
  set (r := overallStatus newStatus pkgs) in *.
  assert (r ∈ map currentStatus pkgs) as Hrin.
  { apply list_elem_of_fmap. exists p0. split; [symmetry; exact Hr | exact Hp0]. }
  assert (forall x, x ∈ map currentStatus pkgs ->
                    indexOf statusOrder r <= indexOf statusOrder x) as Hleast.
  { intros x Hx. apply list_elem_of_fmap in Hx as (p & -> & Hp).
    rewrite Forall_forall in Hmin. apply Hmin. exact Hp. }
  unfold Spec.resolve.
  destruct pkgs as [|p1 [|p2 rest]]; [simpl in Hlen; lia | simpl in Hlen; lia |].
  set (statuses := map currentStatus (p1 :: p2 :: rest)) in *.
  destruct (List.filter (fun s => bool_decide (is_Some (Spec.rank s))) statuses)
    as [|s ranked] eqn:Hranked.
  - destruct (decide (r = ISSUE_REPORTED)) as [->|Hne]; [reflexivity|].
    exfalso.
    assert (In r (List.filter (fun s => bool_decide (is_Some (Spec.rank s))) statuses)) as Habs.
    { apply filter_In. split; [apply list_elem_of_In; exact Hrin|].
      apply ranked_iff. exact Hne. }
    rewrite Hranked in Habs. destruct Habs.
  - assert (forall x, x ∈ s :: ranked <-> (x ∈ statuses) /\ x <> ISSUE_REPORTED)
      as Hmem.
    { intros x. rewrite <- Hranked, !list_elem_of_In, filter_In, ranked_iff.
      reflexivity. }
    assert (s <> ISSUE_REPORTED) as Hs by (apply Hmem; left).
    assert (Forall (fun x => x <> ISSUE_REPORTED) ranked) as Hrest.
    { apply Forall_forall. intros x Hx. apply Hmem. right. exact Hx. }
    destruct (fold_less_advanced ranked s Hs Hrest) as [Hin Hall].
    set (r' := fold_left Spec.less_advanced ranked s) in *.
    rewrite Forall_forall in Hall.
    apply Hmem in Hin as [Hin Hne'].
    assert (r <> ISSUE_REPORTED) as Hne.
    { intros Heq. apply statusOrder_index_issue in Heq.
      pose proof (Hleast s (proj1 (proj1 (Hmem s) ltac:(left)))) as Hle.
      pose proof (statusOrder_index_range s) as Hrange.
      assert (indexOf statusOrder s = 14) as H14 by lia.
      apply statusOrder_index_issue in H14. contradiction. }
    f_equal. apply statusOrder_index_inj.
    pose proof (Hleast r' Hin) as H1.
    pose proof (Hall r (proj2 (Hmem r) (conj Hrin Hne))) as H2.
    lia.
Qed.

End Resolver.

(** ** Calls and their outcomes *)

Section Calls.
Context {A B : Type}.

Lemma bind_returned (m : Async A) (k : A -> Async B) (w w' : World) (b : B) :
  bind m k w = (Returned b, w') ->
  exists a w1, m w = (Returned a, w1) /\ k a w1 = (Returned b, w').
Proof.
  unfold bind. destruct (m w) as [[a|e] w1]; intros Heq.
  - exists a, w1. split; [reflexivity | exact Heq].
  - discriminate Heq.
Qed.

Lemma bind_thrown (m : Async A) (k : A -> Async B) (w w' : World) (e : Exn) :
  bind m k w = (Thrown e, w') ->
  m w = (Thrown e, w') \/
  exists a w1, m w = (Returned a, w1) /\ k a w1 = (Thrown e, w').
Proof.
  unfold bind. destruct (m w) as [[a|e1] w1]; intros Heq.
  - right. exists a, w1. split; [reflexivity | exact Heq].
  - left. injection Heq as -> ->. reflexivity.
Qed.

(** A handler that throws the error again changes nothing. *)
Lemma try_catch_rethrow (body : Async A) (w : World) :
  try_catch body (fun error => throw error) w = body w.
Proof. unfold try_catch, throw. destruct (body w) as [[a|e] w1]; reflexivity. Qed.

(** A Firestore call that returns was not rejected, and left the world that
    its operation on the database describes. *)
Lemma request_returned (op : Db -> Outcome A * Db) (w w' : World) (a : A) :
  request op w = (Returned a, w') ->
  outage w (calls w) = None /\
  fst (op (db w)) = Returned a /\
  w' = set_db (count_call w) (snd (op (db w))).
Proof.
  unfold request. destruct (outage w (calls w)) as [code|]; intros Heq.
  - discriminate Heq.
  - injection Heq as Hr Hw. repeat split; [exact Hr | symmetry; exact Hw].
Qed.

(** A Firestore call that throws was rejected with a code of the outage
    plan, or its operation threw. *)
Lemma request_thrown (op : Db -> Outcome A * Db) (w w' : World) (e : Exn) :
  request op w = (Thrown e, w') ->
  (exists code, outage w (calls w) = Some code /\ e = FirestoreError code /\
                w' = count_call w) \/
  (outage w (calls w) = None /\ fst (op (db w)) = Thrown e /\
   w' = set_db (count_call w) (snd (op (db w)))).
Proof.
  unfold request. destruct (outage w (calls w)) as [code|]; intros Heq.
  - left. exists code. injection Heq as He Hw.
    repeat split; [symmetry; exact He | symmetry; exact Hw].
  - right. injection Heq as Hr Hw. repeat split; [exact Hr | symmetry; exact Hw].
Qed.

Lemma request_passes (op : Db -> Outcome A * Db) (w : World) :
  outage w (calls w) = None ->
  request op w = (fst (op (db w)), set_db (count_call w) (snd (op (db w)))).
Proof. unfold request. intros ->. reflexivity. Qed.

Lemma request_rejected (op : Db -> Outcome A * Db) (w : World) (code : string) :
  outage w (calls w) = Some code ->
  request op w = (Thrown (FirestoreError code), count_call w).
Proof. unfold request. intros ->. reflexivity. Qed.

End Calls.

(** A document reference is made for a non-empty key only. *)
Lemma doc_returned (key ref : string) (w w' : World) :
  doc key w = (Returned ref, w') -> key <> "" /\ ref = key /\ w' = w.
Proof.
  unfold doc. destruct (bool_decide_reflect (key = "")) as [Heq|Hne];
    intros Hdoc; [discriminate Hdoc|].
  injection Hdoc as <- <-. repeat split. exact Hne.
Qed.

Lemma doc_thrown (key : string) (e : Exn) (w w' : World) :
  doc key w = (Thrown e, w') ->
  key = "" /\ e = FirestoreError "invalid-argument".
Proof.
  unfold doc. destruct (bool_decide_reflect (key = "")) as [Heq|Hne];
    intros Hdoc; [|discriminate Hdoc].
  injection Hdoc as <- _. split; [exact Heq | reflexivity].
Qed.

Lemma doc_passes (key : string) (w : World) :
  key <> "" -> doc key w = (Returned key, w).
Proof.
  intros Hne. unfold doc.
  destruct (bool_decide_reflect (key = "")) as [Heq|_]; [contradiction|].
  reflexivity.
Qed.

(** ** The update transaction *)

Section Transaction.
Import DataService.

Variables (packageId : string) (newStatus : PackageStatus).
Variables (userId notes location : string).
Variable additionalData : option PartialPackage.

(** [logAction] returns whatever happens to its write, and touches nothing
    but the audit log. *)
Lemma logAction_returns (log : AuditLogInput) (w : World) :
  exists w',
    logAction log w = (Returned tt, w') /\
    col_packages (db w') = col_packages (db w) /\
    col_orders (db w') = col_orders (db w) /\
    col_tracking_events (db w') = col_tracking_events (db w).
Proof.
  unfold logAction, try_catch, bind, uuidv4, Date_now, addDoc_audit_log,
    request, ret.
  simpl. destruct (outage w (calls w)); simpl; eexists; repeat split.
Qed.

(** A rejected audit write is caught: [logAction] returns and the database
    is as it was. *)
Lemma logAction_rejected (log : AuditLogInput) (w : World) (code : string) :
  outage w (calls w) = Some code ->
  exists w', logAction log w = (Returned tt, w') /\ db w' = db w.
Proof.
  intros Hout.
  unfold logAction, try_catch, bind, uuidv4, Date_now, addDoc_audit_log,
    request, ret.
  simpl. rewrite Hout. eexists. split; reflexivity.
Qed.

Lemma updatePackageStatus_returned (w w' : World) :
  updatePackageStatus packageId newStatus userId notes location additionalData w
  = (Returned tt, w') ->
  exists pkg,
    col_packages (db w) !! packageId = Some pkg /\
    col_packages (db w') = <[packageId := assign pkg (statusFields newStatus additionalData)]>
        (col_packages (db w)) /\
    col_orders (db w') =
      match col_orders (db w) !! orderId pkg with
      | Some o =>
          <[orderId pkg := writtenOrder packageId newStatus additionalData o]>
            (col_orders (db w))
      | None => col_orders (db w)
      end /\
    exists ev,
      col_tracking_events (db w') = ev :: col_tracking_events (db w) /\
      ev_packageId ev = packageId /\ ev_status ev = newStatus.
Proof.
  unfold updatePackageStatus. rewrite try_catch_rethrow. intros H.
  apply bind_returned in H as (pkgRef & w0 & H0 & H).
  apply doc_returned in H0 as (_ & -> & ->).
  apply bind_returned in H as (pkgSnap & w1 & H1 & H).
  apply request_returned in H1 as (_ & Hsnap & ->). simpl in Hsnap.
  injection Hsnap as <-.
  destruct (col_packages (db w) !! packageId) as [pkg|] eqn:Hpkg;
    [|discriminate H].
  exists pkg. split; [reflexivity|].
  apply bind_returned in H as (u1 & w2 & H2 & H).
  apply request_returned in H2 as (_ & _ & ->). simpl in H. rewrite Hpkg in H.
  simpl in H.
  apply bind_returned in H as (orderRef & w2' & H2' & H).
  apply doc_returned in H2' as (_ & -> & ->).
  apply bind_returned in H as (orderSnap & w3 & H3 & H).
  apply request_returned in H3 as (_ & Hos & ->). simpl in Hos.
  injection Hos as <-. simpl in H.
  apply bind_returned in H as (u2 & w4 & H4 & H).
  apply bind_returned in H as (new_id & w5 & H5 & H).
  unfold uuidv4 in H5. injection H5 as <- <-.
  apply bind_returned in H as (now & w6 & H6 & H).
  unfold Date_now in H6. injection H6 as <- <-.
  apply bind_returned in H as (u3 & w7 & H7 & H).
  apply request_returned in H7 as (_ & _ & ->).
  match type of H with
  | logAction ?log ?w0 = _ =>
      destruct (logAction_returns log w0) as (w8 & Hlog & Hpk & Hor & Hev)
  end.
  rewrite Hlog in H. injection H as <-.
  simpl in Hpk, Hor, Hev.
  rewrite Hpk, Hor, Hev.
  destruct (col_orders (db w) !! orderId pkg) as [o|] eqn:Ho.
  - apply request_returned in H4 as (_ & _ & ->). simpl. rewrite Ho. simpl.
    repeat split. eexists. repeat split.
  - unfold ret in H4. injection H4 as _ <-. simpl.
    repeat split. eexists. repeat split.
Qed.

(** With the package document in place and the five calls of steps 1 to 3
    let through, the transaction returns, whatever the requested status is
    and whatever happens to the audit write. *)
Lemma updatePackageStatus_succeeds (w : World) (pkg : Package) :
  packageId <> "" ->
  col_packages (db w) !! packageId = Some pkg ->
  orderId pkg <> "" ->
  (forall n, (calls w <= n < calls w + 5)%nat -> outage w n = None) ->
  exists w',
    updatePackageStatus packageId newStatus userId notes location
      additionalData w = (Returned tt, w').
Proof.
  intros Hid Hpkg Hoid Hplan.
  unfold updatePackageStatus. rewrite try_catch_rethrow.
  unfold bind at 1. rewrite doc_passes by exact Hid.
  unfold bind at 1, getDoc_package.
  rewrite request_passes by (apply Hplan; lia). simpl. rewrite Hpkg.
  unfold bind at 1, updateDoc_package.
  rewrite request_passes by (simpl; apply Hplan; lia). simpl. rewrite Hpkg.
  simpl.
  unfold bind at 1. rewrite doc_passes by exact Hoid.
  unfold bind at 1, getDoc_order.
  rewrite request_passes by (simpl; apply Hplan; lia). simpl.
  destruct (col_orders (db w) !! orderId pkg) as [o|] eqn:Ho.
  - unfold bind at 1, updateDoc_order.
    rewrite request_passes by (simpl; apply Hplan; lia). simpl. rewrite Ho.
    simpl. unfold bind at 1, uuidv4. simpl. unfold bind at 1, Date_now.
    unfold bind at 1, addDoc_tracking_event.
    rewrite request_passes by (simpl; apply Hplan; lia). simpl.
    match goal with
    | |- exists w', logAction ?log ?w0 = _ =>
        destruct (logAction_returns log w0) as (w' & Hlog & _)
    end.
    exists w'. exact Hlog.
  - unfold bind at 1, ret. unfold bind at 1, uuidv4. simpl.
    unfold bind at 1, Date_now. unfold bind at 1, addDoc_tracking_event.
    rewrite request_passes by (simpl; apply Hplan; lia). simpl.
    match goal with
    | |- exists w', logAction ?log ?w0 = _ =>
        destruct (logAction_returns log w0) as (w' & Hlog & _)
    end.
    exists w'. exact Hlog.
Qed.

(** What the transaction throws is the error of step 1 or the rejection of
    one of its Firestore calls, as Firestore raised it. *)
Lemma updatePackageStatus_thrown (w w' : World) (e : Exn) :
  updatePackageStatus packageId newStatus userId notes location additionalData w
  = (Thrown e, w') ->
  e = Error "Package not found" \/
  (exists n code, outage w n = Some code /\ e = FirestoreError code) \/
  e = FirestoreError "invalid-argument" /\
  (packageId = "" \/
   exists pkg, col_packages (db w) !! packageId = Some pkg /\ orderId pkg = "").
Proof.
  unfold updatePackageStatus. rewrite try_catch_rethrow. intros H.
  apply bind_thrown in H as [H|(pkgRef & w0 & H0 & H)].
  { apply doc_thrown in H as [Hid ->]. right; right. split; [reflexivity|].
    left. exact Hid. }
  apply doc_returned in H0 as (_ & -> & ->).
  apply bind_thrown in H as [H|(pkgSnap & w1 & H1 & H)].
  { apply request_thrown in H as [(code & Hout & -> & _)|(_ & Habs & _)];
      [right; eauto | discriminate Habs]. }
  apply request_returned in H1 as (_ & Hsnap & ->). simpl in Hsnap.
  injection Hsnap as <-.
  destruct (col_packages (db w) !! packageId) as [pkg|] eqn:Hpkg;
    [|left; unfold throw in H; congruence].
  apply bind_thrown in H as [H|(u1 & w2 & H2 & H)].
  { apply request_thrown in H as [(code & Hout & -> & _)|(_ & Habs & _)];
      [right; eauto|].
    simpl in Habs. rewrite Hpkg in Habs. discriminate Habs. }
  apply request_returned in H2 as (_ & _ & ->). simpl in H. rewrite Hpkg in H.
  simpl in H.
  apply bind_thrown in H as [H|(orderRef & w2' & H2' & H)].
  { apply doc_thrown in H as [Hoid ->]. right; right. split; [reflexivity|].
    right. exists pkg. split; [reflexivity | exact Hoid]. }
  apply doc_returned in H2' as (_ & -> & ->).
  apply bind_thrown in H as [H|(orderSnap & w3 & H3 & H)].
  { apply request_thrown in H as [(code & Hout & -> & _)|(_ & Habs & _)];
      [right; eauto | discriminate Habs]. }
  apply request_returned in H3 as (_ & Hos & ->). simpl in Hos.
  injection Hos as <-. simpl in H.
  apply bind_thrown in H as [H|(u2 & w4 & H4 & H)].
  { destruct (col_orders (db w) !! orderId pkg) as [o|] eqn:Ho;
      [|discriminate H].
    apply request_thrown in H as [(code & Hout & -> & _)|(_ & Habs & _)];
      [right; eauto|].
    simpl in Habs. rewrite Ho in Habs. discriminate Habs. }
  assert (outage w4 = outage w) as Hplan.
  { destruct (col_orders (db w) !! orderId pkg) as [o|].
    - apply request_returned in H4 as (_ & _ & ->). reflexivity.
    - unfold ret in H4. injection H4 as _ <-. reflexivity. }
  apply bind_thrown in H as [H|(new_id & w5 & H5 & H)]; [discriminate H|].
  unfold uuidv4 in H5. injection H5 as <- <-.
  apply bind_thrown in H as [H|(now & w6 & H6 & H)]; [discriminate H|].
  unfold Date_now in H6. injection H6 as <- <-.
  apply bind_thrown in H as [H|(u3 & w7 & H7 & H)].
  { apply request_thrown in H as [(code & Hout & -> & _)|(_ & Habs & _)];
      [|discriminate Habs].
    simpl in Hout. rewrite Hplan in Hout. right; eauto. }
  match type of H with
  | logAction ?log ?w0 = _ =>
      destruct (logAction_returns log w0) as (w8 & Hlog & _)
  end.
  rewrite Hlog in H. discriminate H.
Qed.

End Transaction.

(** ** Claims about the update transaction *)

Section TransactionClaims.
Import DataService.

(** The status that ends up in a written package: the requested one, unless
    the additional data carries a [currentStatus] of its own. *)
Lemma written_status (p : Package) (newStatus : PackageStatus)
    (additionalData : option PartialPackage) :
  currentStatus (assign p (statusFields newStatus additionalData)) =
  default newStatus (additionalData ≫= p_currentStatus).
Proof.
  destruct additionalData as [d|]; simpl; [|reflexivity].
  destruct (p_currentStatus d); reflexivity.
Qed.

Lemma writtenOrder_packages (packageId : string) (newStatus : PackageStatus)
    (additionalData : option PartialPackage) (o : Order) :
  packages (writtenOrder packageId newStatus additionalData o) =
  updatedPackages packageId newStatus additionalData (packages o).
Proof. reflexivity. Qed.

Lemma writtenOrder_status (packageId : string) (newStatus : PackageStatus)
    (additionalData : option PartialPackage) (o : Order) :
  o_status (writtenOrder packageId newStatus additionalData o) =
  overallStatus newStatus
    (updatedPackages packageId newStatus additionalData (packages o)).
Proof. reflexivity. Qed.

(** With fewer than two packages the overall status is the requested one. *)
Lemma overallStatus_few (newStatus : PackageStatus) (pkgs : list Package) :
  (length pkgs < 2)%nat -> overallStatus newStatus pkgs = newStatus.
Proof.
  intros Hlen. unfold overallStatus.
  destruct (Nat.ltb_spec 1 (length pkgs)) as [Hlt|_]; [lia | reflexivity].
Qed.


(** C5, as the source has it: after a transaction that returned, the
    parent order holds the updated embedded list, and its status is the
    overall status that the transaction computes from the requested status
    and that list. With two packages or more this is the status that the
    specification's [resolve] gives for the list. With fewer it is the
    requested status, whatever the list holds: [resolve] fails on the empty
    list, and for a lone package it gives the order's status exactly when
    that package ends with the requested status, which for the updated
    package means that the additional data carries no other
    [currentStatus], and for another package that it already had it. *)
Theorem C5_order_status_recomputed_from_updated_packages
    (packageId : string) (newStatus : PackageStatus)
    (userId notes location : string) (additionalData : option PartialPackage)
    (w w' : World) (pkg : Package) (order : Order) :
  updatePackageStatus packageId newStatus userId notes location additionalData w
  = (Returned tt, w') ->
  col_packages (db w) !! packageId = Some pkg ->
  col_orders (db w) !! orderId pkg = Some order ->
  exists order',
    col_orders (db w') !! orderId pkg = Some order' /\
    packages order' =
      updatedPackages packageId newStatus additionalData (packages order) /\
    o_status order' = overallStatus newStatus (packages order') /\
    ((2 <= length (packages order))%nat ->
     Spec.resolve (packages order') = inr (o_status order')) /\
    (forall p, packages order = [p] -> id p = packageId ->
               additionalData ≫= p_currentStatus = None ->
               Spec.resolve (packages order') = inr (o_status order')) /\
    ((length (packages order) < 2)%nat -> o_status order' = newStatus) /\
    (packages order = [] ->
     Spec.resolve (packages order') = inl Spec.MalformedOrderError) /\
    (forall p, packages order = [p] ->
       (Spec.resolve (packages order') = inr (o_status order') <->
        (if decide (id p = packageId)
         then default newStatus (additionalData ≫= p_currentStatus)
         else currentStatus p) = newStatus)).
Proof.
  intros Hrun Hpkg Horder.
  destruct (updatePackageStatus_returned _ _ _ _ _ _ _ _ Hrun)
    as (pkg' & Hpkg' & _ & Hor & _).
  assert (pkg' = pkg) as -> by congruence.
  rewrite Horder in Hor.
  exists (writtenOrder packageId newStatus additionalData order).
  split; [rewrite Hor; apply lookup_insert_eq|].
  split; [reflexivity|]. split; [reflexivity|].
  rewrite writtenOrder_packages, writtenOrder_status.
  split; [|split; [|split; [|split]]].
  - intros Hlen. apply overallStatus_resolve.
    unfold updatedPackages. rewrite length_map. exact Hlen.
  - intros p Hp Hid Hdata. rewrite Hp. unfold updatedPackages. cbn [map].
    destruct (decide (id p = packageId)) as [_|Hne]; [|contradiction].
    rewrite overallStatus_few by (simpl; lia).
    cbn [Spec.resolve]. rewrite written_status, Hdata. reflexivity.
  - intros Hlen. apply overallStatus_few.
    unfold updatedPackages. rewrite length_map. exact Hlen.
  - intros ->. reflexivity.
  - intros p ->. unfold updatedPackages. cbn [map].
    rewrite overallStatus_few by (simpl; lia). cbn [Spec.resolve].
    destruct (decide (id p = packageId)) as [_|_].
    + rewrite written_status. split; congruence.
    + split; congruence.
Qed.


(** C7, as the source has it: an order without embedded packages raises no
    error; the transaction returns and the order takes the requested
    status. *)
Theorem C7_empty_order_takes_the_requested_status
    (packageId : string) (newStatus : PackageStatus)
    (userId notes location : string) (additionalData : option PartialPackage)
    (w : World) (pkg : Package) (order : Order) :
  packageId <> "" ->
  col_packages (db w) !! packageId = Some pkg ->
  orderId pkg <> "" ->
  col_orders (db w) !! orderId pkg = Some order ->
  packages order = [] ->
  (forall n, (calls w <= n < calls w + 5)%nat -> outage w n = None) ->
  exists w' order',
    updatePackageStatus packageId newStatus userId notes location
      additionalData w = (Returned tt, w') /\
    col_orders (db w') !! orderId pkg = Some order' /\
    packages order' = [] /\
    o_status order' = newStatus.
Proof.
  intros Hid Hpkg Hoid Horder Hempty Hplan.
  destruct (updatePackageStatus_succeeds packageId newStatus userId notes
              location additionalData w pkg Hid Hpkg Hoid Hplan) as (w' & Hrun).
  destruct (updatePackageStatus_returned _ _ _ _ _ _ _ _ Hrun)
    as (pkg' & Hpkg' & _ & Hor & _).
  assert (pkg' = pkg) as -> by congruence.
  rewrite Horder in Hor.
  exists w', (writtenOrder packageId newStatus additionalData order).
  split; [exact Hrun|]. split; [rewrite Hor; apply lookup_insert_eq|].
  rewrite writtenOrder_packages, writtenOrder_status, Hempty.
  split; reflexivity.
Qed.

(** C8, as the source has it. With the package document in place and
    naming an order: when the [k]-th Firestore call of the transaction is
    the first to be rejected and is one of the calls of steps 1 to 3 (five
    calls when the order document exists, four when it does not), the
    transaction throws that rejection as it was raised, whichever call it
    was, and the writes made before it stay: the package document once two
    calls passed, the order document once four did, and neither a tracking
    event nor an audit entry. When the calls of steps 1 to 3 pass and the
    audit write is rejected, [logAction] catches the rejection: the
    transaction returns with the package, the order and the tracking event
    written, and no audit entry. *)
Theorem C8_errors_are_rethrown_as_raised
    (packageId : string) (newStatus : PackageStatus)
    (userId notes location : string) (additionalData : option PartialPackage)
    (w : World) (pkg : Package) (k : nat) (code : string) :
  packageId <> "" ->
  col_packages (db w) !! packageId = Some pkg ->
  orderId pkg <> "" ->
  (forall j, (j < k)%nat -> outage w (calls w + j) = None) ->
  outage w (calls w + k) = Some code ->
  let steps :=
    match col_orders (db w) !! orderId pkg with
    | Some _ => 5%nat
    | None => 4%nat
    end in
  (k <= steps)%nat ->
  let written :=
    <[packageId := assign pkg (statusFields newStatus additionalData)]>
      (col_packages (db w)) in
  let ordered :=
    match col_orders (db w) !! orderId pkg with
    | Some o =>
        <[orderId pkg := writtenOrder packageId newStatus additionalData o]>
          (col_orders (db w))
    | None => col_orders (db w)
    end in
  exists w',
    updatePackageStatus packageId newStatus userId notes location
      additionalData w
    = (if (k <? steps)%nat then Thrown (FirestoreError code) else Returned tt,
       w') /\
    col_packages (db w') =
      (if (2 <=? k)%nat then written else col_packages (db w)) /\
    col_orders (db w') =
      (if (4 <=? k)%nat then ordered else col_orders (db w)) /\
    (if (k <? steps)%nat
     then col_tracking_events (db w') = col_tracking_events (db w)
     else exists ev,
            col_tracking_events (db w') = ev :: col_tracking_events (db w) /\
            ev_packageId ev = packageId /\ ev_status ev = newStatus) /\
    col_audit_logs (db w') = col_audit_logs (db w).
Proof.
  intros Hid Hpkg Hoid Hpass Hrej steps Hk written ordered.
  assert (forall j, (j < k)%nat -> outage w (Nat.iter j S (calls w)) = None)
    as Hpass'.
  { intros j Hj. rewrite <- (Hpass j Hj). f_equal.
    clear. induction j as [|j IH]; simpl; lia. }
  assert (outage w (Nat.iter k S (calls w)) = Some code) as Hrej'.
  { rewrite <- Hrej. f_equal. clear. induction k as [|k IH]; simpl; lia. }
  clear Hpass Hrej.
  unfold updatePackageStatus. rewrite try_catch_rethrow.
  unfold bind at 1. rewrite doc_passes by exact Hid.
  unfold bind at 1, getDoc_package.
  destruct k as [|k].
  { rewrite request_rejected with (code := code) by exact Hrej'.
    subst steps. destruct (col_orders (db w) !! orderId pkg);
      eexists; repeat split. }
  pose proof (Hpass' 0%nat ltac:(lia)) as H0. simpl in H0.
  rewrite request_passes by exact H0. simpl. rewrite Hpkg.
  unfold bind at 1, updateDoc_package.
  destruct k as [|k].
  { rewrite request_rejected with (code := code) by exact Hrej'.
    subst steps. destruct (col_orders (db w) !! orderId pkg);
      eexists; repeat split. }
  pose proof (Hpass' 1%nat ltac:(lia)) as H1. simpl in H1.
  rewrite request_passes by exact H1. simpl. rewrite Hpkg. simpl.
  unfold bind at 1. rewrite doc_passes by exact Hoid.
  unfold bind at 1, getDoc_order.
  destruct k as [|k].
  { rewrite request_rejected with (code := code) by exact Hrej'.
    subst steps. destruct (col_orders (db w) !! orderId pkg);
      eexists; repeat split. }
  pose proof (Hpass' 2%nat ltac:(lia)) as H2. simpl in H2.
  rewrite request_passes by exact H2. simpl.
  subst steps ordered.
  destruct (col_orders (db w) !! orderId pkg) as [o|] eqn:Ho.
  - unfold bind at 1, updateDoc_order.
    destruct k as [|k].
    { rewrite request_rejected with (code := code) by exact Hrej'.
      eexists; repeat split. }
    pose proof (Hpass' 3%nat ltac:(lia)) as H3. simpl in H3.
    rewrite request_passes by exact H3. simpl. rewrite Ho. simpl.
    unfold bind at 1, uuidv4. simpl. unfold bind at 1, Date_now.
    unfold bind at 1, addDoc_tracking_event.
    destruct k as [|k].
    { rewrite request_rejected with (code := code) by exact Hrej'.
      eexists; repeat split. }
    pose proof (Hpass' 4%nat ltac:(lia)) as H4. simpl in H4.
    rewrite request_passes by exact H4. simpl.
    destruct k as [|k]; [|lia].
    match goal with
    | |- exists w', logAction ?log ?w0 = _ /\ _ =>
        destruct (logAction_rejected log w0 code Hrej') as (w' & Hlog & Hdb)
    end.
    exists w'. split; [exact Hlog|]. rewrite Hdb. simpl.
    repeat split. eexists. repeat split.
  - unfold bind at 1, ret. unfold bind at 1, uuidv4. simpl.
    unfold bind at 1, Date_now. unfold bind at 1, addDoc_tracking_event.
    destruct k as [|k].
    { rewrite request_rejected with (code := code) by exact Hrej'.
      eexists; repeat split. }
    pose proof (Hpass' 3%nat ltac:(lia)) as H3. simpl in H3.
    rewrite request_passes by exact H3. simpl.
    destruct k as [|k]; [|lia].
    match goal with
    | |- exists w', logAction ?log ?w0 = _ /\ _ =>
        destruct (logAction_rejected log w0 code Hrej') as (w' & Hlog & Hdb)
    end.
    exists w'. split; [exact Hlog|]. rewrite Hdb. simpl.
    repeat split. eexists. repeat split.
Qed.

(** A transaction that returned has added one tracking event, for the
    package and with the requested status, and written the package. *)
Lemma returned_transaction_leaves_a_tracking_event
    (packageId : string) (newStatus : PackageStatus)
    (userId notes location : string) (additionalData : option PartialPackage)
    (w w' : World) :
  updatePackageStatus packageId newStatus userId notes location additionalData w
  = (Returned tt, w') ->
  exists pkg ev,
    col_packages (db w) !! packageId = Some pkg /\
    col_packages (db w') !! packageId =
      Some (assign pkg (statusFields newStatus additionalData)) /\
    col_tracking_events (db w') = ev :: col_tracking_events (db w) /\
    ev_packageId ev = packageId /\ ev_status ev = newStatus.
Proof.
  intros Hrun.
  destruct (updatePackageStatus_returned _ _ _ _ _ _ _ _ Hrun)
    as (pkg & Hpkg & Hpk & _ & ev & Hev & Hevp & Hevs).
  exists pkg, ev. split; [exact Hpkg|].
  split; [rewrite Hpk; apply lookup_insert_eq|].
  split; [exact Hev|]. split; [exact Hevp | exact Hevs].
Qed.

End TransactionClaims.

(** ** The overall status against the specification's resolver *)

Section ResolverClaims.
Import DataService.

(** C4, as the source has it: with two packages or more the overall status
    is the status of least rank among the packages, [ISSUE_REPORTED] only
    when every package has it, which is what the specification's [resolve]
    returns; with fewer than two packages it is the requested status,
    unchanged, and so the status of a lone package exactly when that status
    is the requested one. For a lone package that is the one just updated
    this is so exactly when the additional data carries no [currentStatus]
    other than the requested one. *)
Theorem C4_overall_status_is_least_advanced
    (newStatus : PackageStatus) (pkgs : list Package) :
  let r := overallStatus newStatus pkgs in
  (((length pkgs < 2)%nat /\ r = newStatus) \/
   ((2 <= length pkgs)%nat /\
    (exists p, p ∈ pkgs /\ currentStatus p = r) /\
    Forall (fun p =>
              currentStatus p <> ISSUE_REPORTED ->
              exists i j, Spec.rank r = Some i /\
                          Spec.rank (currentStatus p) = Some j /\ (i <= j)%nat)
           pkgs /\
    (Forall (fun p => currentStatus p = ISSUE_REPORTED) pkgs ->
     r = ISSUE_REPORTED) /\
    Spec.resolve pkgs = inr r)) /\
  (forall p, overallStatus (currentStatus p) [p] = currentStatus p) /\
  (forall p, overallStatus newStatus [p] = currentStatus p <->
             currentStatus p = newStatus) /\
  (forall packageId additionalData p,
     id p = packageId ->
     exists updated,
       updatedPackages packageId newStatus additionalData [p] = [updated] /\
       currentStatus updated =
         default newStatus (additionalData ≫= p_currentStatus) /\
       (overallStatus newStatus [updated] = currentStatus updated <->
        default newStatus (additionalData ≫= p_currentStatus) = newStatus)).
Proof.
  cbv zeta. split; [|split; [intros p; reflexivity|split]].
  2:{ intros p. rewrite overallStatus_few by (simpl; lia). split; congruence. }
  2:{ intros packageId additionalData p Hid.
      exists (assign p (statusFields newStatus additionalData)).
      unfold updatedPackages. cbn [map].
      destruct (decide (id p = packageId)) as [_|Hne]; [|contradiction].
      split; [reflexivity|]. rewrite written_status. split; [reflexivity|].
      rewrite overallStatus_few by (simpl; lia). split; congruence. }
  destruct (Nat.lt_ge_cases (length pkgs) 2) as [Hfew|Hlen].
  - left. split; [exact Hfew | apply overallStatus_few; exact Hfew].
  - right. split; [exact Hlen|].
    destruct (overallStatus_several newStatus pkgs Hlen) as [(p0 & Hp0 & Hr) Hmin].
    split; [exists p0; split; assumption|]. split; [|split].
    + rewrite Forall_forall in Hmin. apply Forall_forall. intros p Hp Hne.
      specialize (Hmin p Hp).
      pose proof (statusOrder_index_range (currentStatus p)) as Hrp.
      pose proof (statusOrder_index_range (overallStatus newStatus pkgs)) as Hrr.
      assert (overallStatus newStatus pkgs <> ISSUE_REPORTED) as Hner.
      { intros Heq. apply statusOrder_index_issue in Heq.
        assert (indexOf Object_values_PackageStatus (currentStatus p) = 14)
          as H14 by lia.
        apply statusOrder_index_issue in H14. contradiction. }
      exists (Z.to_nat (indexOf Object_values_PackageStatus
                          (overallStatus newStatus pkgs))),
             (Z.to_nat (indexOf Object_values_PackageStatus (currentStatus p))).
      rewrite !rank_index.
      destruct (decide (overallStatus newStatus pkgs = ISSUE_REPORTED));
        [contradiction|].
      destruct (decide (currentStatus p = ISSUE_REPORTED)); [contradiction|].
      repeat split. lia.
    + intros Hall. rewrite Forall_forall in Hall. rewrite <- Hr.
      apply Hall. exact Hp0.
    + apply overallStatus_resolve. exact Hlen.
Qed.

(** C4 fails on a lone package that is not the one being updated: the
    order of [Sample.dropped] embeds [PKG-102] only, purchased; delivering
    [PKG-101], which names that order, makes the order [DELIVERED]. *)
Lemma C4_lone_package_is_not_consulted :
  let lone := Sample.pkg "PKG-102" "ORD-1" PURCHASED_FROM_SELLER in
  let after := snd (Sample.deliver_first Sample.dropped) in
  overallStatus DELIVERED [lone] = DELIVERED /\
  Spec.resolve [lone] = inr PURCHASED_FROM_SELLER /\
  fst (Sample.deliver_first Sample.dropped) = Returned tt /\
  packages <$> (col_orders (db after) !! "ORD-1") = Some [lone] /\
  o_status <$> (col_orders (db after) !! "ORD-1") = Some DELIVERED.
Proof. vm_compute. repeat split. Qed.

End ResolverClaims.

(** ** Counterexamples and instances for the transaction *)

Section TransactionInstances.
Import DataService Sample.



(** Checking the second package of an order of two: the order holds the
    updated list and the status computed from it. *)
Lemma C5_order_status_recomputed_at_double :
  exists order',
    col_orders (db (snd (check_second no_outage))) !! "ORD-1" = Some order' /\
    packages order' =
      updatedPackages "PKG-102" QC_CHECKED (Some (weight_only 3))
        pair_of_packages /\
    o_status order' = overallStatus QC_CHECKED (packages order') /\
    ((2 <= length pair_of_packages)%nat ->
     Spec.resolve (packages order') = inr (o_status order')) /\
    (forall p, pair_of_packages = [p] -> id p = "PKG-102" ->
               Some (weight_only 3) ≫= p_currentStatus = None ->
               Spec.resolve (packages order') = inr (o_status order')) /\
    ((length pair_of_packages < 2)%nat -> o_status order' = QC_CHECKED) /\
    (pair_of_packages = [] ->
     Spec.resolve (packages order') = inl Spec.MalformedOrderError) /\
    (forall p, pair_of_packages = [p] ->
       (Spec.resolve (packages order') = inr (o_status order') <->
        (if decide (id p = "PKG-102")
         then default QC_CHECKED (Some (weight_only 3) ≫= p_currentStatus)
         else currentStatus p) = QC_CHECKED)).
Proof.
  apply (C5_order_status_recomputed_from_updated_packages "PKG-102" QC_CHECKED
           "u-1" "checked" "Agent Location Device" (Some (weight_only 3))
           (double no_outage) (snd (check_second no_outage))
           (pkg "PKG-102" "ORD-1" RECEIVED_IN_CHINA)
           (order "ORD-1" pair_of_packages RECEIVED_IN_CHINA)).
  - vm_compute. reflexivity.
  - vm_compute. reflexivity.
  - vm_compute. reflexivity.
Defined.

(** C5 fails on orders with fewer than two embedded packages. Delivering
    [PKG-101] with additional data that carries the status [QC_CHECKED]
    returns and leaves the order of [Sample.single] [DELIVERED] while its
    only package, the one updated, is [QC_CHECKED]. Delivering it in
    [Sample.emptied] leaves an order [DELIVERED] that embeds no package, for
    which [resolve] fails. Delivering it in [Sample.dropped] leaves the
    order [DELIVERED] while its only package is purchased. *)
Lemma C5_order_status_is_not_the_resolved_one :
  let overridden := snd deliver_as_checked in
  let empty := snd (deliver_first emptied) in
  let other := snd (deliver_first dropped) in
  fst deliver_as_checked = Returned tt /\
  currentStatus <$> (col_packages (db overridden) !! "PKG-101")
  = Some QC_CHECKED /\
  o_status <$> (col_orders (db overridden) !! "ORD-1") = Some DELIVERED /\
  (fun o => Spec.resolve (packages o)) <$> (col_orders (db overridden) !! "ORD-1")
  = Some (inr QC_CHECKED) /\
  fst (deliver_first emptied) = Returned tt /\
  o_status <$> (col_orders (db empty) !! "ORD-1") = Some DELIVERED /\
  (fun o => Spec.resolve (packages o)) <$> (col_orders (db empty) !! "ORD-1")
  = Some (inl Spec.MalformedOrderError) /\
  fst (deliver_first dropped) = Returned tt /\
  o_status <$> (col_orders (db other) !! "ORD-1") = Some DELIVERED /\
  (fun o => Spec.resolve (packages o)) <$> (col_orders (db other) !! "ORD-1")
  = Some (inr PURCHASED_FROM_SELLER).
Proof. vm_compute. repeat split. Qed.


(** C7 fails on [Sample.emptied], whose order embeds no package: the
    specification's [resolve] signals [MalformedOrderError] there, the
    transaction returns and gives the order the requested status. *)
Lemma C7_no_error_on_an_empty_order :
  let after := snd (deliver_first emptied) in
  packages <$> (col_orders (db emptied) !! "ORD-1") = Some [] /\
  Spec.resolve [] = inl Spec.MalformedOrderError /\
  overallStatus DELIVERED [] = DELIVERED /\
  fst (deliver_first emptied) = Returned tt /\
  packages <$> (col_orders (db after) !! "ORD-1") = Some [] /\
  o_status <$> (col_orders (db after) !! "ORD-1") = Some DELIVERED.
Proof. vm_compute. repeat split. Qed.

(** The same call, through the general statement. *)
Lemma C7_empty_order_takes_the_requested_status_at_emptied :
  exists w' order',
    deliver_first emptied = (Returned tt, w') /\
    col_orders (db w') !! "ORD-1" = Some order' /\
    packages order' = [] /\
    o_status order' = DELIVERED.
Proof.
  apply (C7_empty_order_takes_the_requested_status "PKG-101" DELIVERED "u-1"
           "done" "Agent Location Device" None emptied
           (pkg "PKG-101" "ORD-1" RECEIVED_IN_CHINA)
           (order "ORD-1" [] RECEIVED_IN_CHINA)).
  - discriminate.
  - vm_compute. reflexivity.
  - discriminate.
  - vm_compute. reflexivity.
  - reflexivity.
  - intros n Hn. reflexivity.
Defined.

(** C8 fails on the order of two packages. When the order write (the
    fourth call) is rejected, the caller gets the Firestore error as it
    was raised, the same value as when the first call is rejected, although
    the package document has been written in one case and nothing in the
    other. When the audit write (the sixth call) is rejected, the
    transaction returns and no audit entry exists. *)
Lemma C8_partial_update_is_not_told_apart :
  let at_order_write := check_second (outage_at 3) in
  let at_first_read := check_second (outage_at 0) in
  let at_audit_write := check_second (outage_at 5) in
  fst at_order_write = Thrown (FirestoreError "unavailable") /\
  fst at_first_read = Thrown (FirestoreError "unavailable") /\
  currentStatus <$> (col_packages (db (snd at_order_write)) !! "PKG-102")
  = Some QC_CHECKED /\
  o_status <$> (col_orders (db (snd at_order_write)) !! "ORD-1")
  = Some RECEIVED_IN_CHINA /\
  col_tracking_events (db (snd at_order_write)) = [] /\
  currentStatus <$> (col_packages (db (snd at_first_read)) !! "PKG-102")
  = Some RECEIVED_IN_CHINA /\
  fst at_audit_write = Returned tt /\
  col_audit_logs (db (snd at_audit_write)) = [] /\
  ev_status <$> col_tracking_events (db (snd at_audit_write)) = [QC_CHECKED].
Proof. vm_compute. repeat split. Qed.

(** The check of [PKG-102] with the order write, its fourth call,
    rejected: the rejection is thrown, the package document is written, the
    order is not, and there is no tracking event. *)
Lemma C8_errors_are_rethrown_as_raised_at_double :
  exists w',
    check_second (outage_at 3) = (Thrown (FirestoreError "unavailable"), w') /\
    col_packages (db w') =
      <["PKG-102" := assign (pkg "PKG-102" "ORD-1" RECEIVED_IN_CHINA)
                       (statusFields QC_CHECKED (Some (weight_only 3)))]>
        (col_packages (db (double (outage_at 3)))) /\
    col_orders (db w') = col_orders (db (double (outage_at 3))) /\
    col_tracking_events (db w')
    = col_tracking_events (db (double (outage_at 3))) /\
    col_audit_logs (db w') = col_audit_logs (db (double (outage_at 3))).
Proof.
  apply (C8_errors_are_rethrown_as_raised "PKG-102" QC_CHECKED "u-1"
           "checked" "Agent Location Device" (Some (weight_only 3))
           (double (outage_at 3)) (pkg "PKG-102" "ORD-1" RECEIVED_IN_CHINA)
           3%nat "unavailable").
  - discriminate.
  - vm_compute. reflexivity.
  - discriminate.
  - intros j Hj. destruct j as [|[|[|j]]]; [reflexivity..|lia].
  - reflexivity.
  - vm_compute. lia.
Defined.

(** C6, at the input where the first copy of the service fails: the
    package of [Sample.embedded_only] is in no document of [packages] but
    embedded in [ORD-1]; [updatePackageStatus] throws "Package not found"
    after its first read and writes nothing. The second copy of the service
    finds the package in the order, creates its document and returns. *)
Theorem C6_package_only_inside_an_order_is_not_found :
  let w := embedded_only in
  let first := DataService.updatePackageStatus "PKG-101" QC_CHECKED "u-1"
                 "checked" "Agent Location Device" None w in
  let second := DataServiceCopy.updatePackageStatus "PKG-101" QC_CHECKED "u-1"
                  "checked" "Agent Location Device" None w in
  col_packages (db w) !! "PKG-101" = None /\
  (fmap id <$> (packages <$> (col_orders (db w) !! "ORD-1")))
  = Some ["PKG-101"] /\
  first = (Thrown (Error "Package not found"), count_call w) /\
  fst second = Returned tt /\
  currentStatus <$> (col_packages (db (snd second)) !! "PKG-101")
  = Some QC_CHECKED.
Proof. vm_compute. repeat split. Qed.

(** The check of the second package of two leaves one tracking event. *)
Lemma returned_transaction_leaves_a_tracking_event_at_double :
  exists pkg ev,
    col_packages (db (double no_outage)) !! "PKG-102" = Some pkg /\
    col_packages (db (snd (check_second no_outage))) !! "PKG-102" =
      Some (assign pkg (statusFields QC_CHECKED (Some (weight_only 3)))) /\
    col_tracking_events (db (snd (check_second no_outage))) =
      ev :: col_tracking_events (db (double no_outage)) /\
    ev_packageId ev = "PKG-102" /\ ev_status ev = QC_CHECKED.
Proof.
  apply (returned_transaction_leaves_a_tracking_event "PKG-102" QC_CHECKED
           "u-1" "checked" "Agent Location Device" (Some (weight_only 3))
           (double no_outage) (snd (check_second no_outage))).
  vm_compute. reflexivity.
Defined.

End TransactionInstances.

(** ** The workload of a role *)

Section Workload.
Import DataService.

(** C10: only the three agent roles have a status filter, each a fixed
    list; for them the result is the packages of the collection whose
    status is in the filter (and empty when the query is rejected); for an
    administrator, a customer and any other role the result is empty and no
    query is made. *)
Theorem C10_getPackagesByRole_serves_agents_only (r : UserRole) (w : World) :
  targetStatuses CHINA_AGENT =
    [PURCHASED_FROM_SELLER; IN_TRANSIT_TO_CHINA_AGENT; RECEIVED_IN_CHINA;
     QC_CHECKED; PACKED_CHINA; READY_TO_SHIP_UAE] /\
  targetStatuses UAE_AGENT =
    [SHIPPED_TO_UAE; ARRIVED_UAE; REPACKING; READY_TO_SHIP_IRAN] /\
  targetStatuses IRAN_AGENT =
    [SHIPPED_TO_IRAN; ARRIVED_IRAN; OUT_FOR_DELIVERY] /\
  targetStatuses ADMIN = [] /\
  targetStatuses CUSTOMER = [] /\
  (if bool_decide (r ∈ [CHINA_AGENT; UAE_AGENT; IRAN_AGENT]) then
     match outage w (calls w) with
     | None =>
         exists found,
           getPackagesByRole r w = (Returned found, count_call w) /\
           forall p, p ∈ found <->
                     (exists key, col_packages (db w) !! key = Some p) /\
                     (currentStatus p ∈ targetStatuses r)
     | Some _ => getPackagesByRole r w = (Returned [], count_call w)
     end
   else getPackagesByRole r w = (Returned [], w)).
Proof.
  do 5 (split; [reflexivity|]).
  assert (forall ts,
            match outage w (calls w) with
            | None =>
                exists found,
                  try_catch (getDocs_packages_where_currentStatus_in ts)
                    (fun _ => ret []) w = (Returned found, count_call w) /\
                  forall p, p ∈ found <->
                            (exists key, col_packages (db w) !! key = Some p) /\
                            (currentStatus p ∈ ts)
            | Some _ =>
                try_catch (getDocs_packages_where_currentStatus_in ts)
                  (fun _ => ret []) w = (Returned [], count_call w)
            end) as Hquery.
  { intros ts.
    unfold try_catch, getDocs_packages_where_currentStatus_in, request, ret.
    destruct (outage w (calls w)) as [code|]; [reflexivity|]. simpl.
    eexists. split; [reflexivity|]. intros p.
    rewrite list_elem_of_In, filter_In, <- list_elem_of_In, bool_decide_eq_true.
    rewrite list_elem_of_fmap. split.
    - intros [([key p'] & -> & Hin) Hst]. split; [|exact Hst].
      exists key. apply elem_of_map_to_list in Hin. exact Hin.
    - intros [(key & Hkey) Hst]. split; [|exact Hst].
      exists (key, p). split; [reflexivity|].
      apply elem_of_map_to_list. exact Hkey. }
  destruct r; try reflexivity; apply Hquery.
Qed.

End Workload.

(** ** A package that only exists inside an order *)

Section Recovery.

(** The first copy of the service gives up as soon as the package has no
    document of its own. *)
Lemma updatePackageStatus_not_found
    (packageId : string) (newStatus : PackageStatus)
    (userId notes location : string) (additionalData : option PartialPackage)
    (w : World) :
  packageId <> "" ->
  col_packages (db w) !! packageId = None ->
  outage w (calls w) = None ->
  DataService.updatePackageStatus packageId newStatus userId notes location
    additionalData w
  = (Thrown (Error "Package not found"), count_call w).
Proof.
  intros Hid Hnone Hpass.
  unfold DataService.updatePackageStatus. rewrite try_catch_rethrow.
  unfold bind at 1. rewrite doc_passes by exact Hid.
  unfold bind at 1, getDoc_package. rewrite request_passes by exact Hpass.
  simpl. rewrite Hnone. reflexivity.
Qed.

(** So it does on the package of [Sample.embedded_only]. *)
Lemma updatePackageStatus_not_found_at_embedded_only :
  DataService.updatePackageStatus "PKG-101" QC_CHECKED "u-1" "checked"
    "Agent Location Device" None Sample.embedded_only
  = (Thrown (Error "Package not found"), count_call Sample.embedded_only).
Proof.
  apply (updatePackageStatus_not_found "PKG-101" QC_CHECKED "u-1" "checked"
           "Agent Location Device" None Sample.embedded_only).
  - discriminate.
  - vm_compute. reflexivity.
  - reflexivity.
Defined.

Lemma find_some {A : Type} (pred : A -> bool) (l : list A) (x : A) :
  x ∈ l -> pred x = true -> exists y, find pred l = Some y.
Proof.
  induction l as [|z l IH]; intros Hin Hx.
  - apply elem_of_nil in Hin. destruct Hin.
  - simpl. destruct (pred z) eqn:Hz; [exists z; reflexivity|].
    apply elem_of_cons in Hin as [->|Hin]; [congruence|].
    exact (IH Hin Hx).
Qed.

Lemma find_satisfies {A : Type} (pred : A -> bool) (l : list A) (y : A) :
  find pred l = Some y -> pred y = true.
Proof.
  induction l as [|z l IH]; simpl; [discriminate|].
  destruct (pred z) eqn:Hz; [|exact IH].
  intros Heq. injection Heq as <-. exact Hz.
Qed.

(** The search through the orders succeeds as soon as one order embeds a
    package with the id, and returns an order of the list. *)
Lemma findInOrders_some (packageId : string) (docs : list Order)
    (order : Order) (p : Package) :
  order ∈ docs -> p ∈ packages order -> id p = packageId ->
  exists p' order',
    DataServiceCopy.findInOrders packageId docs = Some (p', order') /\
    (order' ∈ docs) /\ id p' = packageId.
Proof.
  induction docs as [|o docs IH]; intros Ho Hp Hid.
  - apply elem_of_nil in Ho. destruct Ho.
  - simpl.
    destruct (find (fun q => bool_decide (id q = packageId)) (packages o))
      as [q|] eqn:Hfind.
    + exists q, o. split; [reflexivity|]. split; [left|].
      apply find_satisfies in Hfind.
      apply bool_decide_eq_true in Hfind. exact Hfind.
    + apply elem_of_cons in Ho as [->|Ho].
      * destruct (find_some (fun q => bool_decide (id q = packageId))
                    (packages o) p Hp) as (y & Hy).
        { apply bool_decide_eq_true. exact Hid. }
        rewrite Hfind in Hy. discriminate Hy.
      * destruct (IH Ho Hp Hid) as (p' & order' & Hsome & Hin & Hid').
        exists p', order'. split; [exact Hsome|].
        split; [right; exact Hin | exact Hid'].
Qed.

(** One step of a chain of calls. *)
Lemma bind_step {A B : Type} (m : Async A) (k : A -> Async B)
    (w w1 : World) (a : A) :
  m w = (Returned a, w1) -> bind m k w = k a w1.
Proof. unfold bind. intros ->. reflexivity. Qed.

(** Step 1 of the second copy, for a package that has no document but is
    embedded in an order: the document is created from the embedded copy. *)
Lemma getOrCreatePackage_creates (packageId : string) (w : World)
    (found : Package) (order : Order) :
  col_packages (db w) !! packageId = None ->
  DataServiceCopy.findInOrders packageId
    (snd <$> map_to_list (col_orders (db w))) = Some (found, order) ->
  o_id order <> "" ->
  (forall n, (calls w <= n < calls w + 3)%nat -> outage w n = None) ->
  exists w1,
    DataServiceCopy.getOrCreatePackage packageId packageId w
    = (Returned (o_id order), w1) /\
    col_packages (db w1) =
      <[packageId := assign found (orderId_field (o_id order))]>
        (col_packages (db w)) /\
    col_orders (db w1) = col_orders (db w) /\
    col_tracking_events (db w1) = col_tracking_events (db w) /\
    outage w1 = outage w /\ calls w1 = (calls w + 3)%nat.
Proof.
  intros Hnone Hfound Hoid Hplan.
  unfold DataServiceCopy.getOrCreatePackage.
  unfold bind at 1, getDoc_package.
  rewrite request_passes by (apply Hplan; lia). simpl. rewrite Hnone.
  unfold bind at 1, getDocs_orders.
  rewrite request_passes by (simpl; apply Hplan; lia). simpl.
  rewrite Hfound. unfold DataServiceCopy.falsy.
  destruct (bool_decide_reflect (o_id order = "")) as [Habs|_];
    [contradiction|].
  unfold bind at 1, setDoc_package.
  rewrite request_passes by (simpl; apply Hplan; lia). simpl.
  eexists. split; [reflexivity|]. simpl. repeat split. lia.
Qed.

(** Steps 2 to 4, which the two copies share, from a world in which the
    package has its document: they go through and leave the written package
    in the collection. The continuation of the second copy is stated as it
    stands in [DataServiceCopy.updatePackageStatus]. *)
Lemma copy_writes_status (packageId : string) (newStatus : PackageStatus)
    (userId notes location : string) (additionalData : option PartialPackage)
    (oid : string) (w : World) (current : Package) :
  col_packages (db w) !! packageId = Some current ->
  oid <> "" ->
  (forall n, (calls w <= n < calls w + 4)%nat -> outage w n = None) ->
  exists w',
    (await _u <- updateDoc_package packageId
                   (DataService.statusFields newStatus additionalData);
     sync orderRef <- doc oid;
     await orderSnap <- getDoc_order orderRef;
     await _u <- match orderSnap with
                 | Some orderData =>
                     let updated :=
                       DataService.updatedPackages packageId newStatus
                         additionalData (packages orderData) in
                     updateDoc_order orderRef updated
                       (DataServiceCopy.overallStatus newStatus updated)
                 | None => ret tt
                 end;
     sync new_id <- uuidv4;
     sync now <- Date_now;
     await _u <- addDoc_tracking_event
                   {| ev_id := new_id; ev_packageId := packageId;
                      ev_status := newStatus; ev_timestamp := now;
                      ev_userId := userId; ev_location := location;
                      ev_notes := Some notes; ev_photoUrls := None |};
     DataService.logAction
       {| in_action := "STATUS_UPDATE"; in_userId := userId;
          in_userName := "Agent";
          in_details := "Package " +:+ packageId +:+ " updated to "
                        +:+ PackageStatus_value newStatus;
          in_severity := INFO |}) w
    = (Returned tt, w') /\
    col_packages (db w') !! packageId =
    Some (assign current (DataService.statusFields newStatus additionalData)).
Proof.
  intros Hpkg Hoid Hplan.
  unfold bind at 1, updateDoc_package.
  rewrite request_passes by (apply Hplan; lia). simpl. rewrite Hpkg. simpl.
  unfold bind at 1. rewrite doc_passes by exact Hoid.
  unfold bind at 1, getDoc_order.
  rewrite request_passes by (simpl; apply Hplan; lia). simpl.
  destruct (col_orders (db w) !! oid) as [o|] eqn:Ho.
  - unfold bind at 1, updateDoc_order.
    rewrite request_passes by (simpl; apply Hplan; lia). simpl. rewrite Ho.
    simpl. unfold bind at 1, uuidv4. simpl. unfold bind at 1, Date_now.
    unfold bind at 1, addDoc_tracking_event.
    rewrite request_passes by (simpl; apply Hplan; lia). simpl.
    match goal with
    | |- exists w', DataService.logAction ?log ?w0 = _ /\ _ =>
        destruct (logAction_returns log w0) as (w' & Hlog & Hpk & _)
    end.
    exists w'. split; [exact Hlog|]. rewrite Hpk. simpl.
    apply lookup_insert_eq.
  - unfold bind at 1, ret. unfold bind at 1, uuidv4. simpl.
    unfold bind at 1, Date_now. unfold bind at 1, addDoc_tracking_event.
    rewrite request_passes by (simpl; apply Hplan; lia). simpl.
    match goal with
    | |- exists w', DataService.logAction ?log ?w0 = _ /\ _ =>
        destruct (logAction_returns log w0) as (w' & Hlog & Hpk & _)
    end.
    exists w'. split; [exact Hlog|]. rewrite Hpk. simpl.
    apply lookup_insert_eq.
Qed.

(** The second copy of the service on a package that only exists inside an
    order: with the calls of steps 1 to 3 let through, the transaction
    returns and the package has its document, with the written status. *)
Lemma recovery_creates_the_package_document
    (packageId : string) (newStatus : PackageStatus)
    (userId notes location : string) (additionalData : option PartialPackage)
    (w : World) (key : string) (order : Order) (p : Package) :
  packageId <> "" ->
  col_packages (db w) !! packageId = None ->
  col_orders (db w) !! key = Some order ->
  p ∈ packages order ->
  id p = packageId ->
  (forall k o, col_orders (db w) !! k = Some o -> o_id o <> "") ->
  (forall n, (calls w <= n < calls w + 7)%nat -> outage w n = None) ->
  exists w' written,
    DataServiceCopy.updatePackageStatus packageId newStatus userId notes
      location additionalData w = (Returned tt, w') /\
    col_packages (db w') !! packageId = Some written /\
    currentStatus written = default newStatus (additionalData ≫= p_currentStatus).
Proof.
  intros Hid Hnone Horder Hp Hpid Hids Hplan.
  destruct (findInOrders_some packageId
              (snd <$> map_to_list (col_orders (db w))) order p)
    as (p' & order' & Hfound & Hin & Hid'); [|exact Hp|exact Hpid|].
  { apply list_elem_of_fmap. exists (key, order). split; [reflexivity|].
    apply elem_of_map_to_list. exact Horder. }
  assert (o_id order' <> "") as Hoid.
  { apply list_elem_of_fmap in Hin as ([k o] & -> & Hko).
    apply elem_of_map_to_list in Hko. exact (Hids k o Hko). }
  destruct (getOrCreatePackage_creates packageId w p' order' Hnone Hfound Hoid)
    as (w1 & Hcreate & Hpk1 & _ & _ & Hout1 & Hcalls1).
  { intros n Hn. apply Hplan. lia. }
  destruct (copy_writes_status packageId newStatus userId notes location
              additionalData (o_id order') w1
              (assign p' (orderId_field (o_id order'))))
    as (w' & Hrun & Hwritten).
  { rewrite Hpk1. apply lookup_insert_eq. }
  { exact Hoid. }
  { intros n Hn. rewrite Hout1. apply Hplan. lia. }
  exists w'. eexists. split; [|split; [exact Hwritten | apply written_status]].
  unfold DataServiceCopy.updatePackageStatus. rewrite try_catch_rethrow.
  rewrite (bind_step _ _ _ _ _ (doc_passes packageId w Hid)).
  rewrite (bind_step _ _ _ _ _ Hcreate).
  exact Hrun.
Qed.

(** So it does on the package of [Sample.embedded_only]. *)
Lemma recovery_creates_the_package_document_at_embedded_only :
  exists w' written,
    DataServiceCopy.updatePackageStatus "PKG-101" QC_CHECKED "u-1" "checked"
      "Agent Location Device" None Sample.embedded_only = (Returned tt, w') /\
    col_packages (db w') !! "PKG-101" = Some written /\
    currentStatus written = QC_CHECKED.
Proof.
  apply (recovery_creates_the_package_document "PKG-101" QC_CHECKED "u-1"
           "checked" "Agent Location Device" None Sample.embedded_only "ORD-1"
           (Sample.order "ORD-1"
              [Sample.pkg "PKG-101" "ORD-1" RECEIVED_IN_CHINA] RECEIVED_IN_CHINA)
           (Sample.pkg "PKG-101" "ORD-1" RECEIVED_IN_CHINA)).
  - discriminate.
  - vm_compute. reflexivity.
  - vm_compute. reflexivity.
  - left.
  - reflexivity.
  - intros k o Hko. simpl in Hko.
    apply lookup_insert_Some in Hko as [[_ <-]|[_ Habs]]; [discriminate|].
    rewrite lookup_empty in Habs. discriminate Habs.
  - intros n Hn. reflexivity.
Defined.

End Recovery.

(** * Further properties *)

(** ** The offers of the scan page *)

Section Offers.
Import ScanQR Checks.

Lemma offered_by_role (u : User) (current : PackageStatus) :
  getAvailableNextStatuses (Some u) current = offered (role u) current.
Proof. unfold offered. rewrite !next_statuses_by_role. reflexivity. Qed.

(** No role is ever offered [ISSUE_REPORTED], and nobody, signed in or not,
    is offered anything for a package that is [DELIVERED]. *)
Theorem offers_never_hold_ISSUE_REPORTED
    (user : option User) (current : PackageStatus) :
  Forall (fun s => s <> ISSUE_REPORTED)
    (getAvailableNextStatuses user current) /\
  getAvailableNextStatuses user DELIVERED = [].
Proof.
  destruct user as [u|]; [|split; [constructor | reflexivity]].
  rewrite !offered_by_role.
  destruct (role u), current; vm_compute; (split; [|reflexivity]);
    repeat constructor; discriminate.
Qed.

Lemma advances_all (u : User) (current : PackageStatus) :
  forallb (advances (role u) current)
    (getAvailableNextStatuses (Some u) current) = true.
Proof.
  rewrite offered_by_role.
  destruct (role u), current; vm_compute; reflexivity.
Qed.

(** Choosing an offered status only moves a package forward: the statuses
    offered after the choice are a suffix of those offered before it, and
    fewer, unless an administrator chose the current status again. *)
Theorem offered_status_only_advances (u : User) (current s : PackageStatus) :
  s ∈ getAvailableNextStatuses (Some u) current ->
  (getAvailableNextStatuses (Some u) s
   `suffix_of` getAvailableNextStatuses (Some u) current) /\
  ((length (getAvailableNextStatuses (Some u) s)
    < length (getAvailableNextStatuses (Some u) current))%nat \/
   role u = ADMIN /\ s = current).
Proof.
  intros Hin.
  pose proof (advances_all u current) as Hall.
  rewrite forallb_forall in Hall.
  specialize (Hall s (proj1 (list_elem_of_In _ _) Hin)).
  unfold advances in Hall. rewrite !offered_by_role.
  apply andb_true_iff in Hall as [Hsuffix Hshorter].
  apply bool_decide_eq_true in Hsuffix. split; [exact Hsuffix|].
  apply orb_true_iff in Hshorter as [Hlt|Hadmin].
  - left. apply Nat.ltb_lt in Hlt. exact Hlt.
  - right. apply bool_decide_eq_true in Hadmin. exact Hadmin.
Qed.

(** A UAE agent who moves a package from [ARRIVED_UAE] to
    [READY_TO_SHIP_IRAN] is left with one offer. *)
Lemma offered_status_only_advances_example :
  (offered UAE_AGENT READY_TO_SHIP_IRAN
   `suffix_of` offered UAE_AGENT ARRIVED_UAE) /\
  ((length (offered UAE_AGENT READY_TO_SHIP_IRAN)
    < length (offered UAE_AGENT ARRIVED_UAE))%nat \/
   UAE_AGENT = ADMIN /\ READY_TO_SHIP_IRAN = ARRIVED_UAE).
Proof.
  apply (offered_status_only_advances (Sample.user UAE_AGENT) ARRIVED_UAE
           READY_TO_SHIP_IRAN).
  vm_compute. do 1 constructor. constructor.
Defined.

Lemma agents_offered_step (i : nat) (a b : PackageStatus) :
  Object_values_PackageStatus !! i = Some a ->
  Object_values_PackageStatus !! S i = Some b ->
  b <> ISSUE_REPORTED ->
  exists r, agents_offered a b = [r].
Proof.
  intros Ha Hb Hne.
  do 15 (destruct i as [|i];
         [vm_compute in Ha, Hb;
          first [discriminate Hb
                | injection Ha as <-; injection Hb as <-;
                  first [contradiction | eexists; vm_compute; reflexivity]]|]).
  vm_compute in Hb. discriminate Hb.
Qed.

(** Every step of the pipeline, from a status to the one declared after it,
    is offered to exactly one of the three agents: together the agents can
    carry a package from [PURCHASED_FROM_SELLER] to [DELIVERED] one step at
    a time, and no step is shared. *)
Theorem each_step_is_offered_to_one_agent (i : nat) (a b : PackageStatus) :
  Object_values_PackageStatus !! i = Some a ->
  Object_values_PackageStatus !! S i = Some b ->
  b <> ISSUE_REPORTED ->
  exists r,
    (r ∈ agents) /\
    (forall u, role u = r -> b ∈ getAvailableNextStatuses (Some u) a) /\
    (forall u, role u ∈ agents ->
               b ∈ getAvailableNextStatuses (Some u) a -> role u = r).
Proof.
  intros Ha Hb Hne.
  destruct (agents_offered_step i a b Ha Hb Hne) as (r & Hr).
  assert (forall r', r' ∈ agents_offered a b <->
                     (r' ∈ agents) /\ (b ∈ offered r' a)) as Hmem.
  { intros r'. unfold agents_offered.
    rewrite list_elem_of_In, filter_In, <- list_elem_of_In, bool_decide_eq_true.
    reflexivity. }
  exists r. split; [|split].
  - apply (Hmem r). rewrite Hr. left.
  - intros u <-. rewrite offered_by_role. apply (Hmem (role u)).
    rewrite Hr. left.
  - intros u Hagent Hoffered. rewrite offered_by_role in Hoffered.
    assert (role u ∈ agents_offered a b) as Hin
      by (apply Hmem; split; assumption).
    rewrite Hr in Hin. apply list_elem_of_singleton in Hin. exact Hin.
Qed.

(** The step from [READY_TO_SHIP_UAE] to [SHIPPED_TO_UAE] is the China
    agent's, although [SHIPPED_TO_UAE] also heads the UAE agent's list. *)
Lemma each_step_is_offered_to_one_agent_example :
  exists r,
    (r ∈ agents) /\
    (forall u, role u = r ->
               SHIPPED_TO_UAE ∈ getAvailableNextStatuses (Some u) READY_TO_SHIP_UAE) /\
    (forall u, role u ∈ agents ->
               SHIPPED_TO_UAE ∈ getAvailableNextStatuses (Some u) READY_TO_SHIP_UAE ->
               role u = r).
Proof.
  apply (each_step_is_offered_to_one_agent 5 READY_TO_SHIP_UAE SHIPPED_TO_UAE).
  - reflexivity.
  - reflexivity.
  - discriminate.
Defined.

End Offers.

(** ** Workloads *)

Section Workloads.
Import ScanQR Checks DataService.

Lemma in_charge_iff (s : PackageStatus) (r : UserRole) :
  r ∈ agents_in_charge s <-> s ∈ targetStatuses r.
Proof.
  unfold agents_in_charge.
  rewrite list_elem_of_In, filter_In, <- list_elem_of_In, bool_decide_eq_true.
  split; [tauto|]. intros Hs. split; [|exact Hs].
  destruct r; repeat constructor.
Qed.

(** Every status but [DELIVERED] and [ISSUE_REPORTED] is in the workload
    filter of exactly one role, an agent, and that agent is offered at
    least one next status for it; a package that is [DELIVERED] or
    [ISSUE_REPORTED] is in nobody's workload. *)
Theorem one_agent_is_in_charge_of_each_open_status (s : PackageStatus) :
  ((s = DELIVERED \/ s = ISSUE_REPORTED) /\
   Forall (fun r => s ∉ targetStatuses r)
     [ADMIN; CHINA_AGENT; UAE_AGENT; IRAN_AGENT; CUSTOMER]) \/
  (exists r next,
     (r ∈ agents) /\ (s ∈ targetStatuses r) /\
     (forall r', s ∈ targetStatuses r' -> r' = r) /\
     (forall u, role u = r -> next ∈ getAvailableNextStatuses (Some u) s)).
Proof.
  assert (agents_in_charge s = [] /\ (s = DELIVERED \/ s = ISSUE_REPORTED) \/
          exists r next, agents_in_charge s = [r] /\ (r ∈ agents) /\
                         (next ∈ offered r s))
    as [[Hnone Hs]|(r & next & Hone & Hagent & Hnext)].
  { destruct s;
      first [ left; split; [reflexivity | tauto]
            | right; eexists; eexists; split; [vm_compute; reflexivity|];
              split; [repeat constructor | vm_compute; constructor] ]. }
  - left. split; [exact Hs|]. apply Forall_forall. intros r _ Hin.
    apply in_charge_iff in Hin. rewrite Hnone in Hin.
    apply elem_of_nil in Hin. exact Hin.
  - right. exists r, next. split; [exact Hagent|].
    split; [apply in_charge_iff; rewrite Hone; left|]. split.
    + intros r' Hin. apply in_charge_iff in Hin. rewrite Hone in Hin.
      apply list_elem_of_singleton in Hin. exact Hin.
    + intros u <-. rewrite offered_by_role. exact Hnext.
Qed.

(** What [getPackagesByRole] returns is within the filter of the role. *)
Lemma getPackagesByRole_returned (r : UserRole) (w w' : World)
    (found : list Package) (p : Package) :
  getPackagesByRole r w = (Returned found, w') ->
  p ∈ found ->
  currentStatus p ∈ targetStatuses r.
Proof.
  unfold getPackagesByRole.
  destruct (length (targetStatuses r) =? 0)%nat.
  - unfold ret. intros Heq Hin. injection Heq as <- _.
    apply elem_of_nil in Hin. destruct Hin.
  - unfold try_catch, getDocs_packages_where_currentStatus_in, request, ret.
    destruct (outage w (calls w)); simpl; intros Heq Hin;
      injection Heq as <- _.
    + apply elem_of_nil in Hin. destruct Hin.
    + apply list_elem_of_In, filter_In in Hin as [_ Hst].
      apply bool_decide_eq_true in Hst. exact Hst.
Qed.

(** Every package in the workload that [getPackagesByRole] returns for a
    user's role can be moved on by that user: the role is an agent's, the
    package is neither [DELIVERED] nor [ISSUE_REPORTED], and the scan page
    offers the user at least one next status for it. *)
Theorem workload_packages_have_an_offer (u : User) (w w' : World)
    (found : list Package) (p : Package) :
  getPackagesByRole (role u) w = (Returned found, w') ->
  p ∈ found ->
  (role u ∈ agents) /\
  currentStatus p <> DELIVERED /\ currentStatus p <> ISSUE_REPORTED /\
  exists next, next ∈ getAvailableNextStatuses (Some u) (currentStatus p).
Proof.
  intros Hrun Hin.
  pose proof (getPackagesByRole_returned _ _ _ _ _ Hrun Hin) as Hst.
  rewrite offered_by_role.
  apply (bool_decide_eq_true_2 _) in Hst.
  revert Hst. generalize (currentStatus p) as s. intros s Hst.
  destruct (role u), s; vm_compute in Hst; try discriminate Hst;
    (split; [repeat constructor|]);
    (split; [discriminate|]); (split; [discriminate|]);
    eexists; vm_compute; constructor.
Qed.

End Workloads.

(** ** Reading the collections *)

Section Reads.
Import DataService.

#[local] Instance newer_event_total : Total newer_event.
Proof. intros a b. unfold newer_event. lia. Qed.

#[local] Instance newer_event_trans : Transitive newer_event.
Proof. intros a b c. unfold newer_event. lia. Qed.

#[local] Instance newer_order_total : Total newer_order.
Proof. intros a b. unfold newer_order. lia. Qed.

#[local] Instance newer_order_trans : Transitive newer_order.
Proof. intros a b c. unfold newer_order. lia. Qed.

(** What [getTrackingHistory] evaluates to. *)
Lemma getTrackingHistory_eq (packageId : string) (w : World) :
  getTrackingHistory packageId w =
  (Returned
     (match outage w (calls w) with
      | Some _ => []
      | None =>
          merge_sort newer_event
            (List.filter (fun ev => bool_decide (ev_packageId ev = packageId))
               (col_tracking_events (db w)))
      end),
   count_call w).
Proof.
  unfold getTrackingHistory, try_catch, bind, getDocs_tracking_events_of,
    request, ret.
  destruct (outage w (calls w)); simpl; [reflexivity|].
  destruct w as [d plan n c r u]; destruct d; reflexivity.
Qed.

(** [getTrackingHistory] never throws and writes nothing. Its result is
    ordered newest first and holds only stored events of the package asked
    for; when the query is not rejected it holds every one of them, as many
    times as it is stored. *)
Theorem tracking_history_is_newest_first (packageId : string) (w : World) :
  exists history w',
    getTrackingHistory packageId w = (Returned history, w') /\
    db w' = db w /\
    StronglySorted newer_event history /\
    (forall ev, ev ∈ history ->
                ev_packageId ev = packageId /\
                (ev ∈ col_tracking_events (db w))) /\
    (outage w (calls w) = None ->
     history ≡ₚ
       List.filter (fun ev => bool_decide (ev_packageId ev = packageId))
         (col_tracking_events (db w))) /\
    (outage w (calls w) <> None -> history = []).
Proof.
  rewrite getTrackingHistory_eq. eexists; eexists.
  split; [reflexivity|]. split; [reflexivity|].
  destruct (outage w (calls w)) as [code|].
  - split; [constructor|]. split; [|split; [discriminate | reflexivity]].
    intros ev Hin. apply elem_of_nil in Hin. destruct Hin.
  - split; [apply (StronglySorted_merge_sort _)|].
    split; [|split; [intros _; apply merge_sort_Permutation
                    | intros Habs; contradiction]].
    intros ev Hin. rewrite merge_sort_Permutation in Hin.
    apply list_elem_of_In, filter_In in Hin as [Hin Hid].
    apply bool_decide_eq_true in Hid. apply list_elem_of_In in Hin.
    split; assumption.
Qed.

(** What [getOrders] evaluates to. *)
Lemma getOrders_eq (role userId : string) (w : World) :
  getOrders role userId w =
  (Returned
     (match outage w (calls w) with
      | Some _ => []
      | None =>
          merge_sort newer_order
            (List.filter
               (fun o => if bool_decide (role = "CUSTOMER")
                         then bool_decide (customerId o = userId) else true)
               (snd <$> map_to_list (col_orders (db w))))
      end),
   count_call w).
Proof.
  unfold getOrders, try_catch, bind, getDocs_orders_newest_first, request, ret.
  destruct (outage w (calls w)); simpl; [reflexivity|].
  destruct w as [d plan n c r u]; destruct d; simpl.
  destruct (bool_decide (role = "CUSTOMER")); reflexivity.
Qed.

(** [getOrders] never throws and writes nothing. It returns stored orders,
    newest first; for the role [CUSTOMER] every one of them is the user's
    own, and for any other role, rejection apart, no stored order is left
    out. *)
Theorem getOrders_serves_a_customer_their_own (role userId : string)
    (w : World) :
  exists found w',
    getOrders role userId w = (Returned found, w') /\
    db w' = db w /\
    StronglySorted newer_order found /\
    (forall o, o ∈ found -> exists key, col_orders (db w) !! key = Some o) /\
    (role = "CUSTOMER" -> forall o, o ∈ found -> customerId o = userId) /\
    (role <> "CUSTOMER" -> outage w (calls w) = None ->
     forall key o, col_orders (db w) !! key = Some o -> o ∈ found).
Proof.
  rewrite getOrders_eq. eexists; eexists.
  split; [reflexivity|]. split; [reflexivity|].
  destruct (outage w (calls w)) as [code|].
  - split; [constructor|].
    split; [intros o Hin; apply elem_of_nil in Hin; destruct Hin|].
    split; [intros _ o Hin; apply elem_of_nil in Hin; destruct Hin|].
    discriminate.
  - split; [apply (StronglySorted_merge_sort _)|].
    split; [|split].
    + intros o Hin. rewrite merge_sort_Permutation in Hin.
      apply list_elem_of_In, filter_In in Hin as [Hin _].
      apply list_elem_of_In, list_elem_of_fmap in Hin as ([key o'] & -> & Hin).
      apply elem_of_map_to_list in Hin. exists key. exact Hin.
    + intros -> o Hin. rewrite merge_sort_Permutation in Hin.
      apply list_elem_of_In, filter_In in Hin as [_ Hown].
      rewrite bool_decide_eq_true_2 in Hown by reflexivity.
      apply bool_decide_eq_true in Hown. exact Hown.
    + intros Hrole _ key o Hlook. rewrite merge_sort_Permutation.
      apply list_elem_of_In, filter_In. split.
      * apply list_elem_of_In, list_elem_of_fmap. exists (key, o).
        split; [reflexivity|]. apply elem_of_map_to_list. exact Hlook.
      * rewrite bool_decide_eq_false_2 by exact Hrole. reflexivity.
Qed.

(** What [getPackageById] and [getOrderById] evaluate to. *)
Lemma getPackageById_eq (packageId : string) (w : World) :
  getPackageById packageId w =
  if bool_decide (packageId = "") then (Returned None, w)
  else (Returned (match outage w (calls w) with
                  | Some _ => None
                  | None => col_packages (db w) !! packageId
                  end),
        count_call w).
Proof.
  unfold getPackageById, try_catch, bind, doc, getDoc_package, request, ret,
    throw.
  destruct (bool_decide (packageId = "")); [reflexivity|].
  destruct (outage w (calls w)); simpl; [reflexivity|].
  destruct w as [d plan n c r u]; destruct d; simpl.
  destruct (col_packages0 !! packageId); reflexivity.
Qed.

(** What [getPackageByInternalTrackingCode] returns is a stored package
    document that carries the code; the function never throws and writes
    nothing. *)
Theorem package_found_by_code_carries_it (trackingCode : string) (w : World) :
  exists found w',
    getPackageByInternalTrackingCode trackingCode w = (Returned found, w') /\
    db w' = db w /\
    forall p, found = Some p ->
      internalTrackingCode p = Some trackingCode /\
      exists key, col_packages (db w) !! key = Some p.
Proof.
  unfold getPackageByInternalTrackingCode, try_catch, bind,
    getDocs_packages_where_internalTrackingCode, request, ret.
  destruct (outage w (calls w)) as [code|]; simpl.
  - eexists; eexists. split; [reflexivity|]. split; [reflexivity|].
    discriminate.
  - destruct (List.filter _ _) as [|first rest] eqn:Hfilter;
      (eexists; eexists; split; [reflexivity|]; split;
       [destruct w as [d plan n c r u]; destruct d; reflexivity|]);
      [discriminate|].
    intros p [= <-].
    assert (In first (first :: rest)) as Hin by (left; reflexivity).
    rewrite <- Hfilter in Hin. apply filter_In in Hin as [Hin Hcode].
    apply bool_decide_eq_true in Hcode. split; [exact Hcode|].
    apply list_elem_of_In, list_elem_of_fmap in Hin as ([key p'] & -> & Hin).
    apply elem_of_map_to_list in Hin. exists key. exact Hin.
Qed.

End Reads.

(** ** Reading back what the update transaction wrote *)

Section RoundTrips.
Import DataService.

Variables (packageId : string) (newStatus : PackageStatus).
Variables (userId notes location : string).
Variable additionalData : option PartialPackage.

Lemma updatePackageStatus_returned_key (w w' : World) :
  updatePackageStatus packageId newStatus userId notes location additionalData w
  = (Returned tt, w') ->
  packageId <> "".
Proof.
  unfold updatePackageStatus. rewrite try_catch_rethrow. intros H.
  apply bind_returned in H as (pkgRef & w0 & H0 & _).
  apply doc_returned in H0 as (Hne & _). exact Hne.
Qed.

(** After an update that returned, [getPackageById], unless its read is
    rejected, returns the package as the update wrote it: the document of
    before with [{ currentStatus: newStatus, ...additionalData }] merged
    in, so with the requested status when the additional data has no
    [currentStatus] of its own. *)
Theorem updated_package_reads_back (w w' : World) :
  updatePackageStatus packageId newStatus userId notes location additionalData w
  = (Returned tt, w') ->
  outage w' (calls w') = None ->
  exists before read w'',
    col_packages (db w) !! packageId = Some before /\
    getPackageById packageId w' = (Returned (Some read), w'') /\
    read = assign before (statusFields newStatus additionalData) /\
    currentStatus read = default newStatus (additionalData ≫= p_currentStatus).
Proof.
  intros Hrun Hpass.
  pose proof (updatePackageStatus_returned_key _ _ Hrun) as Hne.
  apply updatePackageStatus_returned in Hrun
    as (before & Hbefore & Hpkgs & _).
  exists before. eexists; eexists. split; [exact Hbefore|].
  rewrite getPackageById_eq, bool_decide_eq_false_2 by exact Hne.
  rewrite Hpass, Hpkgs, lookup_insert_eq.
  split; [reflexivity|]. split; [reflexivity|]. apply written_status.
Qed.

(** After an update that returned, the tracking history of the package,
    unless its query is rejected, holds the events that were stored for the
    package before and one more, which carries the requested status. *)
Theorem update_extends_the_tracking_history (w w' : World) :
  updatePackageStatus packageId newStatus userId notes location additionalData w
  = (Returned tt, w') ->
  outage w' (calls w') = None ->
  exists ev history w'',
    getTrackingHistory packageId w' = (Returned history, w'') /\
    history ≡ₚ
      ev :: List.filter (fun e => bool_decide (ev_packageId e = packageId))
              (col_tracking_events (db w)) /\
    ev_packageId ev = packageId /\ ev_status ev = newStatus.
Proof.
  intros Hrun Hpass.
  apply updatePackageStatus_returned in Hrun
    as (pkg & _ & _ & _ & ev & Hevents & Hid & Hstatus).
  exists ev. eexists; eexists.
  rewrite getTrackingHistory_eq, Hpass, Hevents.
  split; [reflexivity|].
  split; [|split; [exact Hid | exact Hstatus]].
  rewrite merge_sort_Permutation. simpl.
  rewrite bool_decide_eq_true_2 by exact Hid. reflexivity.
Qed.

End RoundTrips.

(** ** The document of a package and its copy inside the order *)

Section Mirror.
Import DataService.

(** When the package document and a copy of it embedded in its order are
    equal before an update that returns, and the document's [id] is its
    key, they are equal after it: both were merged with the same fields. *)
Theorem update_keeps_document_and_embedded_copy_equal
    (packageId : string) (newStatus : PackageStatus)
    (userId notes location : string) (additionalData : option PartialPackage)
    (w w' : World) (pkg : Package) (o : Order) :
  updatePackageStatus packageId newStatus userId notes location additionalData w
  = (Returned tt, w') ->
  col_packages (db w) !! packageId = Some pkg ->
  col_orders (db w) !! orderId pkg = Some o ->
  id pkg = packageId ->
  pkg ∈ packages o ->
  exists pkg' o',
    col_packages (db w') !! packageId = Some pkg' /\
    col_orders (db w') !! orderId pkg = Some o' /\
    (pkg' ∈ packages o') /\
    length (packages o') = length (packages o).
Proof.
  intros Hrun Hpkg Ho Hid Hin.
  apply updatePackageStatus_returned in Hrun
    as (pkg0 & Hpkg0 & Hpkgs & Hords & _).
  rewrite Hpkg in Hpkg0. injection Hpkg0 as <-. rewrite Ho in Hords.
  eexists; eexists. rewrite Hpkgs, Hords, !lookup_insert_eq.
  split; [reflexivity|]. split; [reflexivity|].
  rewrite writtenOrder_packages. unfold updatedPackages. split.
  - apply list_elem_of_In, in_map_iff. exists pkg.
    split; [|apply list_elem_of_In; exact Hin].
    destruct (decide (id pkg = packageId)) as [_|Hne];
      [reflexivity | contradiction].
  - apply length_map.
Qed.

End Mirror.

(** ** The internal tracking code *)

Section TrackingCode.
Import DataService.

Variables (packageId internalTrackingCode : string).

Lemma coded_status (p : Package) :
  currentStatus (assign p (internalTrackingCode_field internalTrackingCode))
  = currentStatus p.
Proof. reflexivity. Qed.

Lemma codedPackages_statuses (pkgs : list Package) :
  map currentStatus (codedPackages packageId internalTrackingCode pkgs)
  = map currentStatus pkgs.
Proof.
  unfold codedPackages. rewrite map_map. apply map_ext. intros p.
  destruct (decide (id p = packageId)); reflexivity.
Qed.

Lemma updatePackageInternalTrackingCode_returned (w w' : World) :
  updatePackageInternalTrackingCode packageId internalTrackingCode w
  = (Returned tt, w') ->
  exists pkg,
    col_packages (db w) !! packageId = Some pkg /\
    col_packages (db w') =
      <[packageId := assign pkg (internalTrackingCode_field internalTrackingCode)]>
        (col_packages (db w)) /\
    col_orders (db w') =
      match col_orders (db w) !! orderId pkg with
      | Some o =>
          <[orderId pkg :=
              set_packages_status o
                (codedPackages packageId internalTrackingCode (packages o))
                (o_status o)]>
            (col_orders (db w))
      | None => col_orders (db w)
      end /\
    col_tracking_events (db w') = col_tracking_events (db w).
Proof.
  unfold updatePackageInternalTrackingCode. rewrite try_catch_rethrow.
  intros H.
  apply bind_returned in H as (pkgRef & w0 & H0 & H).
  apply doc_returned in H0 as (_ & -> & ->).
  apply bind_returned in H as (pkgSnap & w1 & H1 & H).
  apply request_returned in H1 as (_ & Hsnap & ->). simpl in Hsnap.
  injection Hsnap as <-.
  destruct (col_packages (db w) !! packageId) as [pkg|] eqn:Hpkg;
    [|discriminate H].
  exists pkg. split; [reflexivity|].
  apply bind_returned in H as (u1 & w2 & H2 & H).
  apply request_returned in H2 as (_ & _ & ->). simpl in H. rewrite Hpkg in H.
  simpl in H.
  apply bind_returned in H as (orderRef & w2' & H2' & H).
  apply doc_returned in H2' as (_ & -> & ->).
  apply bind_returned in H as (orderSnap & w3 & H3 & H).
  apply request_returned in H3 as (_ & Hos & ->). simpl in Hos.
  injection Hos as <-. simpl in H.
  apply bind_returned in H as (u2 & w4 & H4 & H).
  match type of H with
  | logAction ?log ?w0 = _ =>
      destruct (logAction_returns log w0) as (w8 & Hlog & Hpk & Hor & Hev)
  end.
  rewrite Hlog in H. injection H as <-.
  rewrite Hpk, Hor, Hev.
  destruct (col_orders (db w) !! orderId pkg) as [o|] eqn:Ho.
  - apply request_returned in H4 as (_ & _ & ->). simpl. rewrite Ho. simpl.
    repeat split.
  - unfold ret in H4. injection H4 as _ <-. simpl. repeat split.
Qed.

(** An update of the internal tracking code that returns has set the code
    in the package document and changed no status: every package document
    and every embedded package keeps its [currentStatus], every order its
    aggregate status and the number of its packages, no document is added
    or removed, and no tracking event is written. *)
Theorem tracking_code_update_changes_no_status (w w' : World) :
  updatePackageInternalTrackingCode packageId internalTrackingCode w
  = (Returned tt, w') ->
  (exists pkg',
     col_packages (db w') !! packageId = Some pkg' /\
     Types.internalTrackingCode pkg' = Some internalTrackingCode) /\
  (forall key,
     currentStatus <$> (col_packages (db w') !! key) =
     currentStatus <$> (col_packages (db w) !! key)) /\
  (forall key,
     (fun o => (o_status o, map currentStatus (packages o)))
       <$> (col_orders (db w') !! key) =
     (fun o => (o_status o, map currentStatus (packages o)))
       <$> (col_orders (db w) !! key)) /\
  col_tracking_events (db w') = col_tracking_events (db w).
Proof.
  intros Hrun.
  apply updatePackageInternalTrackingCode_returned in Hrun
    as (pkg & Hpkg & Hpkgs & Hords & Hevents).
  split; [|split; [|split; [|exact Hevents]]].
  - eexists. rewrite Hpkgs, lookup_insert_eq. split; reflexivity.
  - intros key. rewrite Hpkgs.
    destruct (decide (key = packageId)) as [->|Hne].
    + rewrite lookup_insert_eq, Hpkg. reflexivity.
    + rewrite lookup_insert_ne by congruence. reflexivity.
  - intros key. rewrite Hords.
    destruct (col_orders (db w) !! orderId pkg) as [o|] eqn:Ho;
      [|reflexivity].
    destruct (decide (key = orderId pkg)) as [->|Hne].
    + rewrite lookup_insert_eq, Ho. simpl.
      rewrite codedPackages_statuses. reflexivity.
    + rewrite lookup_insert_ne by congruence. reflexivity.
Qed.

(** What [getPackageByInternalTrackingCode] evaluates to. *)
Lemma getPackageByInternalTrackingCode_eq (trackingCode : string) (w : World) :
  getPackageByInternalTrackingCode trackingCode w =
  (Returned
     (match outage w (calls w) with
      | Some _ => None
      | None =>
          head (List.filter
                  (fun p => bool_decide
                              (Types.internalTrackingCode p = Some trackingCode))
                  (snd <$> map_to_list (col_packages (db w))))
      end),
   count_call w).
Proof.
  unfold getPackageByInternalTrackingCode, try_catch, bind,
    getDocs_packages_where_internalTrackingCode, request, ret.
  destruct (outage w (calls w)); simpl; [reflexivity|].
  destruct (List.filter _ _);
    destruct w as [d plan n c r u]; destruct d; reflexivity.
Qed.

(** After an update of the internal tracking code that returned, a search
    by that code, unless its query is rejected, finds a package, and the
    package found carries the code. It is the updated package when no other
    document carries the same code. *)
Theorem coded_package_is_found_by_its_code (w w' : World) :
  updatePackageInternalTrackingCode packageId internalTrackingCode w
  = (Returned tt, w') ->
  outage w' (calls w') = None ->
  exists found w'',
    getPackageByInternalTrackingCode internalTrackingCode w'
    = (Returned (Some found), w'') /\
    Types.internalTrackingCode found = Some internalTrackingCode /\
    ((forall key p, col_packages (db w) !! key = Some p -> key <> packageId ->
                    Types.internalTrackingCode p <> Some internalTrackingCode) ->
     col_packages (db w') !! packageId = Some found).
Proof.
  intros Hrun Hpass.
  apply updatePackageInternalTrackingCode_returned in Hrun
    as (pkg & Hpkg & Hpkgs & _).
  rewrite getPackageByInternalTrackingCode_eq, Hpass.
  set (coded := assign pkg (internalTrackingCode_field internalTrackingCode)).
  fold coded in Hpkgs.
  destruct (List.filter _ _) as [|first rest] eqn:Hfilter.
  - exfalso.
    assert (In coded []) as Hin; [|destruct Hin].
    rewrite <- Hfilter. apply filter_In. split.
    + apply list_elem_of_In, list_elem_of_fmap. exists (packageId, coded).
      split; [reflexivity|]. apply elem_of_map_to_list.
      rewrite Hpkgs. apply lookup_insert_eq.
    + apply bool_decide_eq_true. reflexivity.
  - assert (In first (first :: rest)) as Hin by (left; reflexivity).
    rewrite <- Hfilter in Hin. apply filter_In in Hin as [Hin Hcode].
    apply bool_decide_eq_true in Hcode.
    exists first. eexists. split; [reflexivity|]. split; [exact Hcode|].
    intros Hothers.
    apply list_elem_of_In, list_elem_of_fmap in Hin as ([key p] & -> & Hin).
    apply elem_of_map_to_list in Hin. simpl in Hcode |- *.
    destruct (decide (key = packageId)) as [->|Hne]; [exact Hin|].
    rewrite Hpkgs, lookup_insert_ne in Hin by congruence.
    exfalso. exact (Hothers key p Hin Hne Hcode).
Qed.

End TrackingCode.

(** ** Deleting an order *)

Section Deletion.
Import DataService.

Lemma deletePackages_returned (pkgs : list Package) :
  forall (batch result : list BatchWrite) (w w' : World),
    deletePackages pkgs batch w = (Returned result, w') ->
    w' = w /\
    result = batch ++ map (fun p => BatchDeletePackage (id p)) pkgs.
Proof.
  induction pkgs as [|pkg rest IH]; intros batch result w w' H.
  - unfold deletePackages, ret in H. injection H as <- <-.
    rewrite app_nil_r. split; reflexivity.
  - simpl in H. apply bind_returned in H as (pkgRef & w0 & H0 & H).
    apply doc_returned in H0 as (_ & -> & ->).
    apply IH in H as [-> ->]. rewrite <- app_assoc. split; reflexivity.
Qed.

Lemma deletePackages_thrown (pkgs : list Package) :
  forall (batch : list BatchWrite) (e : Exn) (w w' : World),
    deletePackages pkgs batch w = (Thrown e, w') ->
    w' = w /\ e = FirestoreError "invalid-argument" /\
    exists p, (p ∈ pkgs) /\ id p = "".
Proof.
  induction pkgs as [|pkg rest IH]; intros batch e w w' H.
  - discriminate H.
  - simpl in H. apply bind_thrown in H as [H|(pkgRef & w0 & H0 & H)].
    + pose proof H as Hw. unfold doc in Hw.
      destruct (bool_decide (id pkg = "")); [|discriminate Hw].
      injection Hw as _ <-.
      apply doc_thrown in H as [Hid ->]. repeat split.
      exists pkg. split; [left | exact Hid].
    + apply doc_returned in H0 as (_ & -> & ->).
      apply IH in H as (-> & -> & p & Hin & Hid). repeat split.
      exists p. split; [right; exact Hin | exact Hid].
Qed.

(** The writes of a batch of package deletions. *)
Lemma delete_packages_fold (pkgs : list Package) :
  forall d : Db,
    col_orders
      (fold_left apply_write (map (fun p => BatchDeletePackage (id p)) pkgs) d)
    = col_orders d /\
    col_tracking_events
      (fold_left apply_write (map (fun p => BatchDeletePackage (id p)) pkgs) d)
    = col_tracking_events d /\
    forall key,
      col_packages
        (fold_left apply_write
           (map (fun p => BatchDeletePackage (id p)) pkgs) d) !! key
      = if bool_decide (key ∈ map id pkgs) then None
        else col_packages d !! key.
Proof.
  induction pkgs as [|pkg rest IH]; intros d.
  - repeat split.
  - simpl.
    destruct (IH (set_packages d (delete (id pkg) (col_packages d))))
      as (Hords & Hevents & Hpkgs).
    rewrite Hords, Hevents. split; [reflexivity|]. split; [reflexivity|].
    intros key. rewrite Hpkgs. simpl.
    destruct (decide (key = id pkg)) as [->|Hne].
    + rewrite (bool_decide_eq_true_2 (id pkg ∈ id pkg :: map id rest))
        by left.
      rewrite lookup_delete_eq. destruct (bool_decide _); reflexivity.
    + rewrite lookup_delete_ne by congruence.
      destruct (bool_decide_reflect (key ∈ map id rest)) as [Hin|Hnin].
      * rewrite bool_decide_eq_true_2 by (right; exact Hin). reflexivity.
      * rewrite bool_decide_eq_false_2; [reflexivity|].
        intros Hin. apply elem_of_cons in Hin as [Heq|Hin]; contradiction.
Qed.

Variables (orderId userId : string).

Lemma deleteOrder_returned (w w' : World) :
  deleteOrder orderId userId w = (Returned tt, w') ->
  exists o,
    col_orders (db w) !! orderId = Some o /\
    col_orders (db w') = delete orderId (col_orders (db w)) /\
    col_tracking_events (db w') = col_tracking_events (db w) /\
    forall key,
      col_packages (db w') !! key
      = if bool_decide (key ∈ map id (packages o)) then None
        else col_packages (db w) !! key.
Proof.
  unfold deleteOrder. rewrite try_catch_rethrow. intros H.
  apply bind_returned in H as (orderRef & w0 & H0 & H).
  apply doc_returned in H0 as (_ & -> & ->).
  apply bind_returned in H as (orderSnap & w1 & H1 & H).
  apply request_returned in H1 as (_ & Hsnap & ->). simpl in Hsnap.
  injection Hsnap as <-.
  destruct (col_orders (db w) !! orderId) as [o|] eqn:Ho; [|discriminate H].
  exists o. split; [reflexivity|].
  apply bind_returned in H as (batch & w2 & H2 & H).
  apply deletePackages_returned in H2 as [-> ->].
  apply bind_returned in H as (u & w3 & H3 & H).
  apply request_returned in H3 as (_ & _ & ->).
  match type of H with
  | logAction ?log ?w0 = _ =>
      destruct (logAction_returns log w0) as (w8 & Hlog & Hpk & Hor & Hev)
  end.
  rewrite Hlog in H. injection H as <-.
  rewrite Hpk, Hor, Hev. simpl. rewrite fold_left_app. simpl.
  destruct (delete_packages_fold (packages o) (db w))
    as (Hords & Hevents & Hpkgs).
  rewrite Hords, Hevents. split; [reflexivity|]. split; [reflexivity|].
  exact Hpkgs.
Qed.

(** A [deleteOrder] that returns has removed the order and the document of
    every package the order embedded, and nothing else: every other order,
    every package document whose key is not the [id] of an embedded
    package, and every tracking event, those of the deleted packages
    included, is as before. *)
Theorem deleteOrder_removes_the_order_and_its_embedded_packages
    (w w' : World) :
  deleteOrder orderId userId w = (Returned tt, w') ->
  exists o,
    col_orders (db w) !! orderId = Some o /\
    col_orders (db w') !! orderId = None /\
    (forall p, p ∈ packages o -> col_packages (db w') !! id p = None) /\
    (forall key, key <> orderId ->
                 col_orders (db w') !! key = col_orders (db w) !! key) /\
    (forall key, (forall p, p ∈ packages o -> id p <> key) ->
                 col_packages (db w') !! key = col_packages (db w) !! key) /\
    col_tracking_events (db w') = col_tracking_events (db w).
Proof.
  intros Hrun.
  apply deleteOrder_returned in Hrun as (o & Ho & Hords & Hevents & Hpkgs).
  exists o. split; [exact Ho|]. rewrite Hords.
  split; [apply lookup_delete_eq|]. split; [|split; [|split]].
  - intros p Hin. rewrite Hpkgs, bool_decide_eq_true_2; [reflexivity|].
    apply list_elem_of_In, in_map, list_elem_of_In. exact Hin.
  - intros key Hne. apply lookup_delete_ne. congruence.
  - intros key Hnone. rewrite Hpkgs, bool_decide_eq_false_2; [reflexivity|].
    intros Hin. apply list_elem_of_In, in_map_iff in Hin as (p & Hid & Hin).
    apply list_elem_of_In in Hin. exact (Hnone p Hin Hid).
  - exact Hevents.
Qed.

(** A [deleteOrder] that throws has deleted nothing: the database is as it
    was. What it throws is [Error("Order not found")] when the order is
    missing, and otherwise the rejection of one of its two calls or of a
    reference with an empty key. *)
Theorem deleteOrder_that_throws_deletes_nothing (w w' : World) (e : Exn) :
  deleteOrder orderId userId w = (Thrown e, w') ->
  db w' = db w /\
  (e = Error "Order not found" /\ col_orders (db w) !! orderId = None \/
   (exists n code, outage w n = Some code /\ e = FirestoreError code) \/
   e = FirestoreError "invalid-argument" /\
   (orderId = "" \/
    exists o p, col_orders (db w) !! orderId = Some o /\
                (p ∈ packages o) /\ id p = "")).
Proof.
  unfold deleteOrder. rewrite try_catch_rethrow. intros H.
  apply bind_thrown in H as [H|(orderRef & w0 & H0 & H)].
  { pose proof H as Hw. unfold doc in Hw.
    destruct (bool_decide (orderId = "")); [|discriminate Hw].
    injection Hw as _ <-.
    apply doc_thrown in H as [Hid ->]. split; [reflexivity|].
    right; right. split; [reflexivity | left; exact Hid]. }
  apply doc_returned in H0 as (_ & -> & ->).
  apply bind_thrown in H as [H|(orderSnap & w1 & H1 & H)].
  { apply request_thrown in H as [(code & Hout & -> & ->)|(_ & Habs & _)];
      [|discriminate Habs].
    split; [reflexivity|]. right; left. eauto. }
  apply request_returned in H1 as (_ & Hsnap & ->). simpl in Hsnap.
  injection Hsnap as <-.
  destruct (col_orders (db w) !! orderId) as [o|] eqn:Ho.
  2:{ unfold throw in H. injection H as <- <-. split; [reflexivity|].
      left. split; reflexivity. }
  apply bind_thrown in H as [H|(batch & w2 & H2 & H)].
  { apply deletePackages_thrown in H as (-> & -> & p & Hin & Hid).
    split; [reflexivity|]. right; right. split; [reflexivity|].
    right. exists o, p. repeat split; assumption. }
  apply deletePackages_returned in H2 as [-> ->].
  apply bind_thrown in H as [H|(u & w3 & H3 & H)].
  { apply request_thrown in H as [(code & Hout & -> & ->)|(_ & Habs & _)];
      [|discriminate Habs].
    split; [reflexivity|]. right; left. simpl in Hout. eauto. }
  match type of H with
  | logAction ?log ?w0 = _ =>
      destruct (logAction_returns log w0) as (w8 & Hlog & _)
  end.
  rewrite Hlog in H. discriminate H.
Qed.

End Deletion.

(** ** The payment of an order *)

Section Payment.
Import DataService.

(** [updateOrderPayment] needs the order document: when it returns, the
    order existed and only its two payment members changed, to the numbers
    given, which are not compared with the total price; when it throws,
    nothing was written, and a missing order whose update is not rejected
    throws [not-found]. No other document, tracking event or audit entry is
    written either way. *)
Theorem updateOrderPayment_changes_the_payment_only
    (orderId : string) (amountPaid balanceDue : number)
    (w w' : World) (r : Outcome unit) :
  updateOrderPayment orderId amountPaid balanceDue w = (r, w') ->
  match r with
  | Returned _ =>
      exists o,
        col_orders (db w) !! orderId = Some o /\
        db w' = set_orders (db w)
                  (<[orderId := set_payment o amountPaid balanceDue]>
                     (col_orders (db w)))
  | Thrown e =>
      db w' = db w /\
      (orderId <> "" -> outage w (calls w) = None ->
       col_orders (db w) !! orderId = None /\ e = FirestoreError "not-found")
  end.
Proof.
  unfold updateOrderPayment. rewrite try_catch_rethrow. intros H.
  destruct r as [u|e].
  - apply bind_returned in H as (orderRef & w0 & H0 & H).
    apply doc_returned in H0 as (_ & -> & ->).
    apply request_returned in H as (_ & Hop & ->). simpl in Hop |- *.
    destruct (col_orders (db w) !! orderId) as [o|]; [|discriminate Hop].
    exists o. split; reflexivity.
  - apply bind_thrown in H as [H|(orderRef & w0 & H0 & H)].
    { pose proof H as Hw. unfold doc in Hw.
      destruct (bool_decide (orderId = "")); [|discriminate Hw].
      injection Hw as _ <-.
      apply doc_thrown in H as [Hid ->]. split; [reflexivity|].
      intros Hne. contradiction. }
    apply doc_returned in H0 as (_ & -> & ->).
    apply request_thrown in H as [(code & Hout & -> & ->)|(_ & Hop & ->)].
    + split; [reflexivity|]. intros _ Hpass. congruence.
    + simpl in Hop |- *.
      destruct (col_orders (db w) !! orderId) as [o|]; [discriminate Hop|].
      injection Hop as <-. simpl. repeat split.
Qed.

End Payment.

(** ** Creating an order *)

Section Creation.
Import DataService.

(** The package writes of [createOrder], which nobody awaits: the loop
    returns whatever happens to them, and touches only the [packages]
    collection; it leaves that as it was when every call is rejected. *)
Lemma unawaited_package_writes (pkgs : list Package) :
  forall w : World,
    exists w',
      forEach pkgs
        (fun pkg =>
           unawaited (sync pkgRef <- doc (id pkg); setDoc_package pkgRef pkg)) w
      = (Returned tt, w') /\
      col_orders (db w') = col_orders (db w) /\
      col_tracking_events (db w') = col_tracking_events (db w) /\
      outage w' = outage w /\
      (calls w <= calls w')%nat /\
      ((forall n, (calls w <= n)%nat -> outage w n <> None) ->
       col_packages (db w') = col_packages (db w)).
Proof.
  induction pkgs as [|pkg rest IH]; intros w.
  - exists w. repeat split. lia.
  - cbn [forEach]. unfold bind at 1, unawaited at 1, try_catch.
    unfold bind at 1, doc.
    destruct (bool_decide (id pkg = "")).
    + unfold throw, ret. exact (IH w).
    + unfold ret at 1, setDoc_package, request.
      destruct (outage w (calls w)) as [code|] eqn:Hout.
      * unfold ret at 1.
        destruct (IH (count_call w)) as (w' & Hrun & Ho & He & Hp & Hc & Hk).
        exists w'. split; [exact Hrun|]. simpl in *.
        repeat split; try assumption; [lia|].
        intros Hall. apply Hk. intros n Hn. apply Hall. lia.
      * cbn [fst snd].
        match goal with
        | |- exists w', forEach _ _ ?w0 = _ /\ _ =>
            destruct (IH w0) as (w' & Hrun & Ho & He & Hp & Hc & Hk)
        end.
        exists w'. split; [exact Hrun|]. simpl in *.
        repeat split; try assumption; [lia|].
        intros Hall. exfalso. apply (Hall (calls w)); [lia | exact Hout].
Qed.

(** [createOrder] returns exactly when the order has a non-empty id and the
    write of the order document is not rejected: no failure of a package
    write reaches the caller. *)
Theorem createOrder_returns_iff_the_order_is_written
    (order : Order) (w : World) :
  (exists w', createOrder order w = (Returned tt, w')) <->
  (o_id order <> "" /\ outage w (calls w) = None).
Proof.
  unfold createOrder. rewrite try_catch_rethrow. split.
  - intros (w' & H).
    apply bind_returned in H as (orderRef & w0 & H0 & H).
    apply doc_returned in H0 as (Hne & -> & ->).
    apply bind_returned in H as (u & w1 & H1 & _).
    apply request_returned in H1 as (Hpass & _). split; assumption.
  - intros [Hne Hpass].
    unfold bind at 1. rewrite doc_passes by exact Hne.
    unfold bind at 1, setDoc_order. rewrite request_passes by exact Hpass.
    cbn [fst snd]. unfold bind at 1.
    match goal with
    | |- exists w', match forEach ?l ?f ?w0 with _ => _ end = _ =>
        destruct (unawaited_package_writes l w0) as (w1 & Hrun & _)
    end.
    rewrite Hrun.
    match goal with
    | |- exists w', logAction ?log ?w0 = _ =>
        destruct (logAction_returns log w0) as (w' & Hlog & _)
    end.
    exists w'. exact Hlog.
Qed.

(** When the order document is written and every later call is rejected,
    [createOrder] still returns: the order is stored with its embedded
    packages, and the [packages] collection has none of them. *)
Theorem createOrder_may_store_no_package_document
    (order : Order) (w : World) :
  o_id order <> "" ->
  outage w (calls w) = None ->
  (forall n, (calls w < n)%nat -> outage w n <> None) ->
  exists w',
    createOrder order w = (Returned tt, w') /\
    col_orders (db w') !! o_id order = Some order /\
    col_packages (db w') = col_packages (db w).
Proof.
  intros Hne Hpass Hall.
  unfold createOrder. rewrite try_catch_rethrow.
  unfold bind at 1. rewrite doc_passes by exact Hne.
  unfold bind at 1, setDoc_order. rewrite request_passes by exact Hpass.
  cbn [fst snd]. unfold bind at 1.
  match goal with
  | |- exists w', match forEach ?l ?f ?w0 with _ => _ end = _ /\ _ =>
      destruct (unawaited_package_writes l w0)
        as (w1 & Hrun & Hords & _ & _ & _ & Hpkgs)
  end.
  rewrite Hrun.
  match goal with
  | |- exists w', logAction ?log ?w0 = _ /\ _ =>
      destruct (logAction_returns log w0) as (w' & Hlog & Hpk & Hor & _)
  end.
  exists w'. split; [exact Hlog|]. rewrite Hpk, Hor, Hords, Hpkgs.
  - simpl. split; [apply lookup_insert_eq | reflexivity].
  - simpl. intros n Hn. apply Hall. lia.
Qed.

End Creation.

(** ** Orders in the second copy of the service *)

Section CopyOrders.
Import DataService.

(** The documents after the packages of a list were written under their
    ids, one after the other. *)
Lemma written_packages_other (pkgs : list Package) :
  forall (m : gmap string Package) (key : string),
    (forall p, p ∈ pkgs -> id p <> key) ->
    fold_left (fun m p => <[id p := p]> m) pkgs m !! key = m !! key.
Proof.
  induction pkgs as [|pkg rest IH]; intros m key Hnone; [reflexivity|].
  simpl. rewrite IH by (intros p Hin; apply Hnone; right; exact Hin).
  apply lookup_insert_ne. apply Hnone. left.
Qed.

Lemma written_packages_some (pkgs : list Package) :
  forall (m : gmap string Package) (p : Package),
    p ∈ pkgs ->
    exists q, (q ∈ pkgs) /\ id q = id p /\
              fold_left (fun m p => <[id p := p]> m) pkgs m !! id p = Some q.
Proof.
  induction pkgs as [|pkg rest IH]; intros m p Hin.
  - apply elem_of_nil in Hin. destruct Hin.
  - simpl.
    destruct (decide (id p ∈ map id rest)) as [Hsome|Hnone].
    + apply list_elem_of_In, in_map_iff in Hsome as (q & Hid & Hq).
      apply list_elem_of_In in Hq. rewrite <- Hid.
      destruct (IH (<[id pkg := pkg]> m) q Hq) as (q' & Hq' & Hid' & Hlook).
      exists q'. split; [right; exact Hq'|]. split; [congruence | exact Hlook].
    + assert (forall q, q ∈ rest -> id q <> id p) as Hother.
      { intros q Hq Hid. apply Hnone. rewrite <- Hid.
        apply list_elem_of_In, in_map, list_elem_of_In. exact Hq. }
      apply elem_of_cons in Hin as [->|Hin];
        [|exfalso; exact (Hother p Hin eq_refl)].
      exists pkg. split; [left|]. split; [reflexivity|].
      rewrite written_packages_other by exact Hother.
      apply lookup_insert_eq.
Qed.

Lemma written_packages_own (pkgs : list Package) :
  forall (m : gmap string Package) (p : Package),
    NoDup (map id pkgs) ->
    p ∈ pkgs ->
    fold_left (fun m p => <[id p := p]> m) pkgs m !! id p = Some p.
Proof.
  induction pkgs as [|pkg rest IH]; intros m p Hnodup Hin.
  - apply elem_of_nil in Hin. destruct Hin.
  - simpl in Hnodup |- *. apply NoDup_cons in Hnodup as [Hfresh Hnodup].
    apply elem_of_cons in Hin as [->|Hin].
    + rewrite written_packages_other; [apply lookup_insert_eq|].
      intros q Hq Hid. apply Hfresh. rewrite <- Hid.
      apply list_elem_of_In, in_map, list_elem_of_In. exact Hq.
    + apply IH; assumption.
Qed.

Lemma Promise_all_returned (promises : list (Outcome unit)) (w w' : World) :
  Promise_all promises w = (Returned tt, w') ->
  Forall (fun promise => exists u, promise = Returned u) promises.
Proof.
  induction promises as [|[u|e] rest IH]; intros H.
  - constructor.
  - constructor; [eauto | apply IH; exact H].
  - discriminate H.
Qed.

(** The package writes that the second copy starts and then awaits. *)
Lemma startPackageWrites_returned (pkgs : list Package) :
  forall (promises : list (Outcome unit)) (w w' : World),
    DataServiceCopy.startPackageWrites pkgs w = (Returned promises, w') ->
    col_orders (db w') = col_orders (db w) /\
    col_tracking_events (db w') = col_tracking_events (db w) /\
    (Forall (fun promise => exists u, promise = Returned u) promises ->
     col_packages (db w') =
     fold_left (fun m p => <[id p := p]> m) pkgs (col_packages (db w))).
Proof.
  induction pkgs as [|pkg rest IH]; intros promises w w' H.
  - unfold DataServiceCopy.startPackageWrites, ret in H.
    injection H as <- <-. repeat split.
  - cbn [DataServiceCopy.startPackageWrites] in H.
    apply bind_returned in H as (pkgRef & w0 & H0 & H).
    apply doc_returned in H0 as (_ & -> & ->).
    apply bind_returned in H as (promise & w1 & H1 & H).
    unfold start in H1. injection H1 as <- <-.
    apply bind_returned in H as (others & w2 & H2 & H).
    unfold ret in H. injection H as <- <-.
    apply IH in H2 as (Hords & Hevents & Hpkgs).
    assert (setDoc_package (id pkg) pkg w =
            match outage w (calls w) with
            | Some code => (Thrown (FirestoreError code), count_call w)
            | None =>
                (Returned tt,
                 set_db (count_call w)
                   (set_packages (db w)
                      (<[id pkg := pkg]> (col_packages (db w)))))
            end) as Hset by reflexivity.
    rewrite Hset in Hords, Hevents, Hpkgs |- *.
    destruct (outage w (calls w)) as [code|]; simpl in Hords, Hevents, Hpkgs.
    + split; [exact Hords|]. split; [exact Hevents|].
      intros Hall. apply Forall_cons in Hall as [(u & Habs) _].
      discriminate Habs.
    + split; [exact Hords|]. split; [exact Hevents|].
      intros Hall. apply Forall_cons in Hall as [_ Hall].
      exact (Hpkgs Hall).
Qed.

(** In the second copy, a [createOrder] that returns has stored the order
    and a document for every package it embeds; when the embedded packages
    have different ids, each document is the embedded package itself. *)
Theorem createOrder_copy_stores_every_package (order : Order) (w w' : World) :
  DataServiceCopy.createOrder order w = (Returned tt, w') ->
  col_orders (db w') !! o_id order = Some order /\
  (forall p, p ∈ packages order ->
     exists q, (q ∈ packages order) /\ id q = id p /\
               col_packages (db w') !! id p = Some q) /\
  (NoDup (map id (packages order)) ->
   forall p, p ∈ packages order -> col_packages (db w') !! id p = Some p).
Proof.
  unfold DataServiceCopy.createOrder. rewrite try_catch_rethrow. intros H.
  apply bind_returned in H as (orderRef & w0 & H0 & H).
  apply doc_returned in H0 as (_ & -> & ->).
  apply bind_returned in H as (u1 & w1 & H1 & H).
  apply request_returned in H1 as (_ & _ & ->).
  apply bind_returned in H as (promises & w2 & H2 & H).
  apply startPackageWrites_returned in H2 as (Hords & _ & Hpkgs).
  apply bind_returned in H as ([] & w3 & H3 & H).
  pose proof (Promise_all_returned _ _ _ H3) as Hall.
  assert (w3 = w2) as ->.
  { clear -H3. induction promises as [|[u|e] rest IH].
    - unfold Promise_all, ret in H3. congruence.
    - apply IH. exact H3.
    - discriminate H3. }
  match type of H with
  | logAction ?log ?w0 = _ =>
      destruct (logAction_returns log w0) as (w8 & Hlog & Hpk & Hor & _)
  end.
  rewrite Hlog in H. injection H as <-.
  rewrite Hpk, Hor, Hords, (Hpkgs Hall). simpl.
  split; [apply lookup_insert_eq|]. split.
  - intros p Hin. apply written_packages_some. exact Hin.
  - intros Hnodup p Hin. apply written_packages_own; assumption.
Qed.

Lemma setPackages_returned (pkgs : list Package) :
  forall (batch result : list BatchWrite) (w w' : World),
    DataServiceCopy.setPackages pkgs batch w = (Returned result, w') ->
    w' = w /\
    result = batch ++ map (fun p => BatchSetPackage (id p) p) pkgs.
Proof.
  induction pkgs as [|pkg rest IH]; intros batch result w w' H.
  - unfold DataServiceCopy.setPackages, ret in H. injection H as <- <-.
    rewrite app_nil_r. split; reflexivity.
  - simpl in H. apply bind_returned in H as (pkgRef & w0 & H0 & H).
    apply doc_returned in H0 as (_ & -> & ->).
    apply IH in H as [-> ->]. rewrite <- app_assoc. split; reflexivity.
Qed.

Lemma setPackages_thrown (pkgs : list Package) :
  forall (batch : list BatchWrite) (e : Exn) (w w' : World),
    DataServiceCopy.setPackages pkgs batch w = (Thrown e, w') -> w' = w.
Proof.
  induction pkgs as [|pkg rest IH]; intros batch e w w' H.
  - discriminate H.
  - simpl in H. apply bind_thrown in H as [H|(pkgRef & w0 & H0 & H)].
    + unfold doc in H. destruct (bool_decide (id pkg = ""));
        [|discriminate H].
      injection H as _ <-. reflexivity.
    + apply doc_returned in H0 as (_ & -> & ->). apply IH in H. exact H.
Qed.

(** The writes of a batch of package documents. *)
Lemma set_packages_fold (pkgs : list Package) :
  forall d : Db,
    col_orders
      (fold_left apply_write (map (fun p => BatchSetPackage (id p) p) pkgs) d)
    = col_orders d /\
    col_tracking_events
      (fold_left apply_write (map (fun p => BatchSetPackage (id p) p) pkgs) d)
    = col_tracking_events d /\
    col_packages
      (fold_left apply_write (map (fun p => BatchSetPackage (id p) p) pkgs) d)
    = fold_left (fun m p => <[id p := p]> m) pkgs (col_packages d).
Proof.
  induction pkgs as [|pkg rest IH]; intros d.
  - repeat split.
  - simpl.
    destruct (IH (set_packages d (<[id pkg := pkg]> (col_packages d))))
      as (Hords & Hevents & Hpkgs).
    rewrite Hords, Hevents, Hpkgs. repeat split.
Qed.

(** In the second copy, [updateOrder] writes the order and its packages
    together or not at all. When it returns, the order document is the
    order given and every package it embeds has a document (the package
    itself, when the ids differ), while a package document whose key is no
    embedded id, such as that of a package removed from the order, stays
    as it was. When it throws, nothing was written. *)
Theorem updateOrder_writes_order_and_packages_together
    (order : Order) (w w' : World) (r : Outcome unit) :
  DataServiceCopy.updateOrder order w = (r, w') ->
  match r with
  | Returned _ =>
      col_orders (db w') = <[o_id order := order]> (col_orders (db w)) /\
      (forall p, p ∈ packages order ->
         exists q, (q ∈ packages order) /\ id q = id p /\
                   col_packages (db w') !! id p = Some q) /\
      (NoDup (map id (packages order)) ->
       forall p, p ∈ packages order ->
                 col_packages (db w') !! id p = Some p) /\
      (forall key, (forall p, p ∈ packages order -> id p <> key) ->
                   col_packages (db w') !! key = col_packages (db w) !! key) /\
      col_tracking_events (db w') = col_tracking_events (db w)
  | Thrown _ => db w' = db w
  end.
Proof.
  unfold DataServiceCopy.updateOrder. rewrite try_catch_rethrow. intros H.
  destruct r as [[]|e].
  - apply bind_returned in H as (orderRef & w0 & H0 & H).
    apply doc_returned in H0 as (_ & -> & ->).
    apply bind_returned in H as (batch & w1 & H1 & H).
    apply setPackages_returned in H1 as [-> ->].
    apply bind_returned in H as (u1 & w2 & H2 & H).
    apply request_returned in H2 as (_ & _ & ->).
    match type of H with
    | logAction ?log ?w0 = _ =>
        destruct (logAction_returns log w0) as (w8 & Hlog & Hpk & Hor & Hev)
    end.
    rewrite Hlog in H. injection H as <-.
    rewrite Hpk, Hor, Hev. simpl.
    destruct (set_packages_fold (packages order)
                (set_orders (db w) (<[o_id order := order]> (col_orders (db w)))))
      as (Hords & Hevents & Hpkgs).
    rewrite Hords, Hevents, Hpkgs. simpl.
    split; [reflexivity|]. split; [|split; [|split; [|reflexivity]]].
    + intros p Hin. apply written_packages_some. exact Hin.
    + intros Hnodup p Hin. apply written_packages_own; assumption.
    + intros key Hnone. apply written_packages_other. exact Hnone.
  - apply bind_thrown in H as [H|(orderRef & w0 & H0 & H)].
    { unfold doc in H. destruct (bool_decide (o_id order = ""));
        [|discriminate H].
      injection H as _ <-. reflexivity. }
    apply doc_returned in H0 as (_ & -> & ->).
    apply bind_thrown in H as [H|(batch & w1 & H1 & H)].
    { apply setPackages_thrown in H as ->. reflexivity. }
    apply setPackages_returned in H1 as [-> ->].
    apply bind_thrown in H as [H|(u1 & w2 & H2 & H)].
    { apply request_thrown in H as [(code & _ & _ & ->)|(_ & Habs & _)];
        [reflexivity | discriminate Habs]. }
    match type of H with
    | logAction ?log ?w0 = _ =>
        destruct (logAction_returns log w0) as (w8 & Hlog & _)
    end.
    rewrite Hlog in H. discriminate H.
Qed.

End CopyOrders.

(** ** Bringing the packages collection in line with the orders *)

Section Sync.
Import DataService.

Lemma mergePackages_returned (pkgs : list Package) :
  forall (batch result : list BatchWrite) (w w' : World),
    DataServiceCopy.mergePackages pkgs batch w = (Returned result, w') ->
    w' = w /\
    result = batch ++ map (fun p => BatchMergePackage (id p) p) pkgs.
Proof.
  induction pkgs as [|pkg rest IH]; intros batch result w w' H.
  - unfold DataServiceCopy.mergePackages, ret in H. injection H as <- <-.
    rewrite app_nil_r. split; reflexivity.
  - simpl in H. apply bind_returned in H as (pkgRef & w0 & H0 & H).
    apply doc_returned in H0 as (_ & -> & ->).
    apply IH in H as [-> ->]. rewrite <- app_assoc. split; reflexivity.
Qed.

Lemma mergePackages_passes (pkgs : list Package) :
  forall (batch : list BatchWrite) (w : World),
    Forall (fun p => id p <> "") pkgs ->
    DataServiceCopy.mergePackages pkgs batch w =
    (Returned (batch ++ map (fun p => BatchMergePackage (id p) p) pkgs), w).
Proof.
  induction pkgs as [|pkg rest IH]; intros batch w Hids.
  - simpl. rewrite app_nil_r. reflexivity.
  - apply Forall_cons in Hids as [Hid Hids]. cbn [DataServiceCopy.mergePackages].
    unfold bind. rewrite doc_passes by exact Hid.
    rewrite IH by exact Hids. rewrite <- app_assoc. reflexivity.
Qed.

Lemma mergePackages_world (pkgs : list Package) :
  forall (batch : list BatchWrite) (w : World),
    snd (DataServiceCopy.mergePackages pkgs batch w) = w.
Proof.
  induction pkgs as [|pkg rest IH]; intros batch w; [reflexivity|].
  cbn [DataServiceCopy.mergePackages]. unfold bind, doc.
  destruct (bool_decide (id pkg = "")); [reflexivity|]. apply IH.
Qed.

Lemma mergeOrders_passes (docs : list Order) :
  forall (batch : list BatchWrite) (w : World),
    Forall (fun o => Forall (fun p => id p <> "") (packages o)) docs ->
    DataServiceCopy.mergeOrders docs batch w =
    (Returned
       (batch ++ map (fun p => BatchMergePackage (id p) p)
                   (flat_map packages docs)),
     w).
Proof.
  induction docs as [|o rest IH]; intros batch w Hids.
  - simpl. rewrite app_nil_r. reflexivity.
  - apply Forall_cons in Hids as [Hid Hids]. cbn [DataServiceCopy.mergeOrders].
    unfold bind at 1.
    assert ((if (0 <? length (packages o))%nat
             then DataServiceCopy.mergePackages (packages o) batch
             else ret batch) w =
            (Returned
               (batch ++ map (fun p => BatchMergePackage (id p) p) (packages o)),
             w)) as ->.
    { destruct (packages o) as [|p ps] eqn:Hps.
      - simpl. rewrite app_nil_r. reflexivity.
      - cbn [length Nat.ltb Nat.leb]. apply mergePackages_passes. exact Hid. }
    rewrite IH by exact Hids. cbn [flat_map].
    rewrite map_app, app_assoc. reflexivity.
Qed.

Lemma mergeOrders_world (docs : list Order) :
  forall (batch : list BatchWrite) (w : World),
    snd (DataServiceCopy.mergeOrders docs batch w) = w.
Proof.
  induction docs as [|o rest IH]; intros batch w; [reflexivity|].
  cbn [DataServiceCopy.mergeOrders]. unfold bind at 1.
  destruct (0 <? length (packages o))%nat.
  - pose proof (mergePackages_world (packages o) batch w) as Hw.
    destruct (DataServiceCopy.mergePackages (packages o) batch w)
      as [[b|e] w1]; simpl in Hw; subst w1; [apply IH | reflexivity].
  - unfold ret. apply IH.
Qed.

(** The writes of a batch of merged packages. *)
Lemma merge_writes_frame (pkgs : list Package) :
  forall d : Db,
    col_orders
      (fold_left apply_write
         (map (fun p => BatchMergePackage (id p) p) pkgs) d)
    = col_orders d /\
    col_tracking_events
      (fold_left apply_write
         (map (fun p => BatchMergePackage (id p) p) pkgs) d)
    = col_tracking_events d.
Proof.
  induction pkgs as [|pkg rest IH]; intros d; [split; reflexivity|].
  simpl. destruct (IH (apply_write d (BatchMergePackage (id pkg) pkg)))
    as [Hords Hevents].
  simpl in Hords, Hevents. rewrite Hords, Hevents. split; reflexivity.
Qed.

Lemma merge_writes_keep (pkgs : list Package) :
  forall (d : Db) (key : string),
    (exists q, col_packages d !! key = Some q /\ id q = key) ->
    exists q,
      col_packages
        (fold_left apply_write
           (map (fun p => BatchMergePackage (id p) p) pkgs) d) !! key
      = Some q /\ id q = key.
Proof.
  induction pkgs as [|pkg rest IH]; intros d key Hhas; [exact Hhas|].
  simpl. apply IH. simpl.
  destruct (decide (key = id pkg)) as [->|Hne].
  - rewrite lookup_insert_eq. eexists. split; [reflexivity|].
    destruct (col_packages d !! id pkg); reflexivity.
  - rewrite lookup_insert_ne by congruence. exact Hhas.
Qed.

Lemma merge_writes_make (pkgs : list Package) :
  forall (d : Db) (p : Package),
    p ∈ pkgs ->
    exists q,
      col_packages
        (fold_left apply_write
           (map (fun p => BatchMergePackage (id p) p) pkgs) d) !! id p
      = Some q /\ id q = id p.
Proof.
  induction pkgs as [|pkg rest IH]; intros d p Hin.
  - apply elem_of_nil in Hin. destruct Hin.
  - apply elem_of_cons in Hin as [->|Hin]; [|apply IH; exact Hin].
    simpl. apply merge_writes_keep. simpl. rewrite lookup_insert_eq.
    eexists. split; [reflexivity|].
    destruct (col_packages d !! id pkg); reflexivity.
Qed.

Lemma merge_writes_other (pkgs : list Package) :
  forall (d : Db) (key : string),
    (forall p, p ∈ pkgs -> id p <> key) ->
    col_packages
      (fold_left apply_write
         (map (fun p => BatchMergePackage (id p) p) pkgs) d) !! key
    = col_packages d !! key.
Proof.
  induction pkgs as [|pkg rest IH]; intros d key Hnone; [reflexivity|].
  simpl. rewrite IH by (intros p Hin; apply Hnone; right; exact Hin).
  simpl. apply lookup_insert_ne. apply Hnone. left.
Qed.

Lemma mergeOrders_returned (docs : list Order) :
  forall (batch result : list BatchWrite) (w w' : World),
    DataServiceCopy.mergeOrders docs batch w = (Returned result, w') ->
    result = batch ++ map (fun p => BatchMergePackage (id p) p)
                        (flat_map packages docs).
Proof.
  induction docs as [|o rest IH]; intros batch result w w' H.
  - unfold DataServiceCopy.mergeOrders, ret in H. injection H as <- _.
    rewrite app_nil_r. reflexivity.
  - cbn [DataServiceCopy.mergeOrders] in H.
    apply bind_returned in H as (merged & w1 & H1 & H).
    apply IH in H as ->. cbn [flat_map]. rewrite map_app, app_assoc.
    f_equal.
    destruct (packages o) as [|p ps] eqn:Hps.
    + unfold ret in H1. simpl in H1. injection H1 as <- _.
      rewrite app_nil_r. reflexivity.
    + cbn [length Nat.ltb Nat.leb] in H1.
      apply mergePackages_returned in H1 as [_ ->]. reflexivity.
Qed.

(** [syncPackagesToCollection] never throws, and touches neither the orders
    nor the tracking events. When its query or its commit is rejected it
    has written nothing, which its caller cannot tell from its result. *)
Theorem syncPackagesToCollection_never_throws (w : World) :
  exists w',
    DataServiceCopy.syncPackagesToCollection w = (Returned tt, w') /\
    col_orders (db w') = col_orders (db w) /\
    col_tracking_events (db w') = col_tracking_events (db w) /\
    (outage w (calls w) <> None \/ outage w (S (calls w)) <> None ->
     db w' = db w).
Proof.
  unfold DataServiceCopy.syncPackagesToCollection, try_catch.
  unfold bind at 1, getDocs_orders, request.
  destruct (outage w (calls w)) as [code|] eqn:Hfirst.
  { eexists. unfold ret. repeat split. }
  cbn [fst snd]. unfold bind at 1.
  match goal with
  | |- context [DataServiceCopy.mergeOrders ?docs ?batch ?w0] =>
      pose proof (mergeOrders_world docs batch w0) as Hw;
      destruct (DataServiceCopy.mergeOrders docs batch w0) as [[b|e] w1]
        eqn:Hbatch
  end; simpl in Hw; subst w1.
  2:{ eexists. unfold ret. split; [reflexivity|].
      destruct w as [[] plan n c r u]. repeat split. }
  apply mergeOrders_returned in Hbatch. simpl in Hbatch. subst b.
  unfold commit, request. simpl.
  destruct (outage w (S (calls w))) as [code|] eqn:Hsecond.
  { eexists. unfold ret. split; [reflexivity|].
    destruct w as [[] plan n c r u]. repeat split. }
  eexists. split; [reflexivity|]. simpl.
  match goal with
  | |- context [fold_left apply_write (map _ ?pkgs) ?d] =>
      destruct (merge_writes_frame pkgs d) as [Hords Hevents]
  end.
  rewrite Hords, Hevents. simpl.
  split; [reflexivity|]. split; [reflexivity|].
  intros [Habs|Habs]; exfalso; apply Habs; first [reflexivity | assumption].
Qed.

(** When every embedded package has a non-empty id and neither the query
    nor the commit is rejected, [syncPackagesToCollection] leaves a
    document, under its id and with that id, for every package embedded in
    an order, and no package document under any other key is changed. *)
Theorem syncPackagesToCollection_gives_every_embedded_package_a_document
    (w : World) :
  outage w (calls w) = None ->
  outage w (S (calls w)) = None ->
  Forall (fun o => Forall (fun p => id p <> "") (packages o))
    (snd <$> map_to_list (col_orders (db w))) ->
  exists w',
    DataServiceCopy.syncPackagesToCollection w = (Returned tt, w') /\
    (forall key o p,
       col_orders (db w) !! key = Some o -> p ∈ packages o ->
       exists q, col_packages (db w') !! id p = Some q /\ id q = id p) /\
    (forall name,
       (forall key o p, col_orders (db w) !! key = Some o ->
                        p ∈ packages o -> id p <> name) ->
       col_packages (db w') !! name = col_packages (db w) !! name).
Proof.
  intros Hfirst Hsecond Hids.
  unfold DataServiceCopy.syncPackagesToCollection, try_catch.
  unfold bind at 1, getDocs_orders. rewrite request_passes by exact Hfirst.
  cbn [fst snd]. unfold bind at 1.
  rewrite mergeOrders_passes by exact Hids.
  unfold commit. rewrite request_passes by exact Hsecond.
  eexists. split; [reflexivity|]. simpl.
  assert (forall p,
            p ∈ flat_map packages (snd <$> map_to_list (col_orders (db w))) <->
            exists key o, col_orders (db w) !! key = Some o /\ (p ∈ packages o))
    as Hembedded.
  { intros p. rewrite list_elem_of_In, in_flat_map. split.
    - intros (o & Ho & Hin).
      apply list_elem_of_In, list_elem_of_fmap in Ho as ([key o'] & -> & Ho).
      apply elem_of_map_to_list in Ho. exists key, o'.
      split; [exact Ho | apply list_elem_of_In; exact Hin].
    - intros (key & o & Ho & Hin). exists o.
      split; [|apply list_elem_of_In; exact Hin].
      apply list_elem_of_In, list_elem_of_fmap. exists (key, o).
      split; [reflexivity|]. apply elem_of_map_to_list. exact Ho. }
  split.
  - intros key o p Ho Hin. apply merge_writes_make.
    apply Hembedded. eauto.
  - intros name Hnone. rewrite merge_writes_other; [reflexivity|].
    intros p Hin. apply Hembedded in Hin as (key & o & Ho & Hin).
    exact (Hnone key o p Ho Hin).
Qed.

End Sync.

(** ** The two copies of the scan page *)

Section ScanCopies.

(** The older copy of the scan page offers what the newer one offers, for
    every user and every current status: the test on the length of
    [allowedStatuses] that the newer copy adds changes no result, since
    [indexOf] already answers [-1] on an empty array. *)
Theorem both_scan_pages_offer_the_same
    (user : option User) (current : PackageStatus) :
  ScanQRCopy.getAvailableNextStatuses user current =
  ScanQR.getAvailableNextStatuses user current.
Proof.
  destruct user as [u|]; [|reflexivity].
  unfold ScanQRCopy.getAvailableNextStatuses, ScanQR.getAvailableNextStatuses.
  destruct (ScanQR.allowedStatuses (role u)) as [|s rest]; reflexivity.
Qed.

End ScanCopies.

(** ** Instances of the further properties *)

Section FurtherInstances.
Import DataService Sample Checks.

(** The workload of a China agent in the order of two is [PKG-102], for
    which the agent is offered [QC_CHECKED]. *)
Lemma workload_packages_have_an_offer_at_double :
  (role (user CHINA_AGENT) ∈ agents) /\
  currentStatus (pkg "PKG-102" "ORD-1" RECEIVED_IN_CHINA) <> DELIVERED /\
  currentStatus (pkg "PKG-102" "ORD-1" RECEIVED_IN_CHINA) <> ISSUE_REPORTED /\
  exists next,
    next ∈ ScanQR.getAvailableNextStatuses (Some (user CHINA_AGENT))
             (currentStatus (pkg "PKG-102" "ORD-1" RECEIVED_IN_CHINA)).
Proof.
  apply (workload_packages_have_an_offer (user CHINA_AGENT) (double no_outage)
           (snd (getPackagesByRole CHINA_AGENT (double no_outage)))
           [pkg "PKG-102" "ORD-1" RECEIVED_IN_CHINA]
           (pkg "PKG-102" "ORD-1" RECEIVED_IN_CHINA)).
  - vm_compute. reflexivity.
  - left.
Defined.

(** [PKG-102], checked and weighed, reads back as written. *)
Lemma updated_package_reads_back_at_double :
  exists before read w'',
    col_packages (db (double no_outage)) !! "PKG-102" = Some before /\
    getPackageById "PKG-102" (snd (check_second no_outage))
    = (Returned (Some read), w'') /\
    read = assign before (statusFields QC_CHECKED (Some (weight_only 3))) /\
    currentStatus read =
      default QC_CHECKED (Some (weight_only 3) ≫= p_currentStatus).
Proof.
  apply (updated_package_reads_back "PKG-102" QC_CHECKED "u-1" "checked"
           "Agent Location Device" (Some (weight_only 3))
           (double no_outage) (snd (check_second no_outage))).
  - vm_compute. reflexivity.
  - vm_compute. reflexivity.
Defined.

(** The history of [PKG-102] after its check holds the event of the
    check. *)
Lemma update_extends_the_tracking_history_at_double :
  exists ev history w'',
    getTrackingHistory "PKG-102" (snd (check_second no_outage))
    = (Returned history, w'') /\
    history ≡ₚ
      ev :: List.filter (fun e => bool_decide (ev_packageId e = "PKG-102"))
              (col_tracking_events (db (double no_outage))) /\
    ev_packageId ev = "PKG-102" /\ ev_status ev = QC_CHECKED.
Proof.
  apply (update_extends_the_tracking_history "PKG-102" QC_CHECKED "u-1"
           "checked" "Agent Location Device" (Some (weight_only 3))
           (double no_outage) (snd (check_second no_outage))).
  - vm_compute. reflexivity.
  - vm_compute. reflexivity.
Defined.

(** [PKG-102] and its copy in [ORD-1] are equal before and after the
    check. *)
Lemma update_keeps_document_and_embedded_copy_equal_at_double :
  exists pkg' o',
    col_packages (db (snd (check_second no_outage))) !! "PKG-102" = Some pkg' /\
    col_orders (db (snd (check_second no_outage)))
      !! orderId (pkg "PKG-102" "ORD-1" RECEIVED_IN_CHINA) = Some o' /\
    (pkg' ∈ packages o') /\
    length (packages o') = length (packages first_order).
Proof.
  apply (update_keeps_document_and_embedded_copy_equal "PKG-102" QC_CHECKED
           "u-1" "checked" "Agent Location Device" (Some (weight_only 3))
           (double no_outage) (snd (check_second no_outage))
           (pkg "PKG-102" "ORD-1" RECEIVED_IN_CHINA) first_order).
  - vm_compute. reflexivity.
  - vm_compute. reflexivity.
  - vm_compute. reflexivity.
  - reflexivity.
  - right. left.
Defined.

(** The tracking code of [PKG-101] is set and no status moves. *)
Lemma tracking_code_update_changes_no_status_at_double :
  (exists pkg',
     col_packages (db (snd code_first)) !! "PKG-101" = Some pkg' /\
     internalTrackingCode pkg' = Some "TPX-7") /\
  (forall key,
     currentStatus <$> (col_packages (db (snd code_first)) !! key) =
     currentStatus <$> (col_packages (db (double no_outage)) !! key)) /\
  (forall key,
     (fun o => (o_status o, map currentStatus (packages o)))
       <$> (col_orders (db (snd code_first)) !! key) =
     (fun o => (o_status o, map currentStatus (packages o)))
       <$> (col_orders (db (double no_outage)) !! key)) /\
  col_tracking_events (db (snd code_first))
  = col_tracking_events (db (double no_outage)).
Proof.
  apply (tracking_code_update_changes_no_status "PKG-101" "TPX-7"
           (double no_outage) (snd code_first)).
  vm_compute. reflexivity.
Defined.

(** [PKG-101] is found by its new code. *)
Lemma coded_package_is_found_by_its_code_at_double :
  exists found w'',
    getPackageByInternalTrackingCode "TPX-7" (snd code_first)
    = (Returned (Some found), w'') /\
    internalTrackingCode found = Some "TPX-7" /\
    ((forall key p,
        col_packages (db (double no_outage)) !! key = Some p ->
        key <> "PKG-101" -> internalTrackingCode p <> Some "TPX-7") ->
     col_packages (db (snd code_first)) !! "PKG-101" = Some found).
Proof.
  apply (coded_package_is_found_by_its_code "PKG-101" "TPX-7"
           (double no_outage) (snd code_first)).
  - vm_compute. reflexivity.
  - vm_compute. reflexivity.
Defined.

(** The deletion of [ORD-1] removes it with [PKG-101] and [PKG-102]. *)
Lemma deleteOrder_removes_the_order_and_its_embedded_packages_at_double :
  exists o,
    col_orders (db (double no_outage)) !! "ORD-1" = Some o /\
    col_orders (db (snd delete_double)) !! "ORD-1" = None /\
    (forall p, p ∈ packages o ->
               col_packages (db (snd delete_double)) !! id p = None) /\
    (forall key, key <> "ORD-1" ->
                 col_orders (db (snd delete_double)) !! key
                 = col_orders (db (double no_outage)) !! key) /\
    (forall key, (forall p, p ∈ packages o -> id p <> key) ->
                 col_packages (db (snd delete_double)) !! key
                 = col_packages (db (double no_outage)) !! key) /\
    col_tracking_events (db (snd delete_double))
    = col_tracking_events (db (double no_outage)).
Proof.
  apply (deleteOrder_removes_the_order_and_its_embedded_packages "ORD-1" "u-1"
           (double no_outage) (snd delete_double)).
  vm_compute. reflexivity.
Defined.

(** The deletion of an order that does not exist changes nothing. *)
Lemma deleteOrder_that_throws_deletes_nothing_at_double :
  db (snd delete_missing) = db (double no_outage) /\
  (Error "Order not found" = Error "Order not found" /\
   col_orders (db (double no_outage)) !! "ORD-9" = None \/
   (exists n code, outage (double no_outage) n = Some code /\
                   Error "Order not found" = FirestoreError code) \/
   Error "Order not found" = FirestoreError "invalid-argument" /\
   ("ORD-9" = "" \/
    exists o p, col_orders (db (double no_outage)) !! "ORD-9" = Some o /\
                (p ∈ packages o) /\ id p = "")).
Proof.
  apply (deleteOrder_that_throws_deletes_nothing "ORD-9" "u-1"
           (double no_outage) (snd delete_missing) (Error "Order not found")).
  vm_compute. reflexivity.
Defined.

(** A payment of 100 with 50 due on [ORD-1]. *)
Lemma updateOrderPayment_changes_the_payment_only_at_double :
  exists o,
    col_orders (db (double no_outage)) !! "ORD-1" = Some o /\
    db (snd pay_double)
    = set_orders (db (double no_outage))
        (<["ORD-1" := set_payment o 100 50]>
           (col_orders (db (double no_outage)))).
Proof.
  apply (updateOrderPayment_changes_the_payment_only "ORD-1" 100 50
           (double no_outage) (snd pay_double) (Returned tt)).
  vm_compute. reflexivity.
Defined.

(** An order created while only its own write is let through. *)
Lemma createOrder_may_store_no_package_document_at_fresh :
  exists w',
    createOrder first_order (fresh only_first) = (Returned tt, w') /\
    col_orders (db w') !! o_id first_order = Some first_order /\
    col_packages (db w') = col_packages (db (fresh only_first)).
Proof.
  apply (createOrder_may_store_no_package_document first_order
           (fresh only_first)).
  - discriminate.
  - reflexivity.
  - intros n Hn. destruct n as [|n]; [inversion Hn | discriminate].
Defined.

(** The second copy creates [ORD-1] with a document for each of its two
    packages. *)
Lemma createOrder_copy_stores_every_package_at_fresh :
  col_orders
    (db (snd (DataServiceCopy.createOrder first_order (fresh no_outage))))
    !! o_id first_order = Some first_order /\
  (forall p, p ∈ packages first_order ->
     exists q, (q ∈ packages first_order) /\ id q = id p /\
       col_packages
         (db (snd (DataServiceCopy.createOrder first_order (fresh no_outage))))
         !! id p = Some q) /\
  (NoDup (map id (packages first_order)) ->
   forall p, p ∈ packages first_order ->
     col_packages
       (db (snd (DataServiceCopy.createOrder first_order (fresh no_outage))))
       !! id p = Some p).
Proof.
  apply (createOrder_copy_stores_every_package first_order (fresh no_outage)).
  vm_compute. reflexivity.
Defined.

(** The second copy updates [ORD-1] to an order that embeds [PKG-102]
    only: the document of [PKG-101] stays. *)
Lemma updateOrder_writes_order_and_packages_together_at_double :
  col_orders
    (db (snd (DataServiceCopy.updateOrder trimmed_order (double no_outage))))
  = <[o_id trimmed_order := trimmed_order]>
      (col_orders (db (double no_outage))) /\
  (forall p, p ∈ packages trimmed_order ->
     exists q, (q ∈ packages trimmed_order) /\ id q = id p /\
       col_packages
         (db (snd (DataServiceCopy.updateOrder trimmed_order
                     (double no_outage)))) !! id p = Some q) /\
  (NoDup (map id (packages trimmed_order)) ->
   forall p, p ∈ packages trimmed_order ->
     col_packages
       (db (snd (DataServiceCopy.updateOrder trimmed_order
                   (double no_outage)))) !! id p = Some p) /\
  (forall key, (forall p, p ∈ packages trimmed_order -> id p <> key) ->
     col_packages
       (db (snd (DataServiceCopy.updateOrder trimmed_order
                   (double no_outage)))) !! key
     = col_packages (db (double no_outage)) !! key) /\
  col_tracking_events
    (db (snd (DataServiceCopy.updateOrder trimmed_order (double no_outage))))
  = col_tracking_events (db (double no_outage)).
Proof.
  apply (updateOrder_writes_order_and_packages_together trimmed_order
           (double no_outage)
           (snd (DataServiceCopy.updateOrder trimmed_order (double no_outage)))
           (Returned tt)).
  vm_compute. reflexivity.
Defined.

(** The package that only exists inside its order gets its document. *)
Lemma syncPackagesToCollection_gives_a_document_at_embedded_only :
  exists w',
    DataServiceCopy.syncPackagesToCollection embedded_only
    = (Returned tt, w') /\
    (forall key o p,
       col_orders (db embedded_only) !! key = Some o -> p ∈ packages o ->
       exists q, col_packages (db w') !! id p = Some q /\ id q = id p) /\
    (forall name,
       (forall key o p, col_orders (db embedded_only) !! key = Some o ->
                        p ∈ packages o -> id p <> name) ->
       col_packages (db w') !! name = col_packages (db embedded_only) !! name).
Proof.
  apply (syncPackagesToCollection_gives_every_embedded_package_a_document
           embedded_only).
  - reflexivity.
  - reflexivity.
  - vm_compute. repeat constructor; discriminate.
Defined.

End FurtherInstances.
